(** * AzureMonitorAgent/agent.py: the metrics watcher and the command runner

    A shallow embedding of the supervising parts of [agent.py]:
    [run_command_and_log], [run_command_with_retries_output], the dpkg-lock
    checks, [get_managed_identity] and the loop of [metrics_watcher].

    Python values are modelled at the types the code uses them at: [int] as
    [Z], [str] as [string] (one character per byte), a dict of settings as a
    [gmap].  Effects are explicit: a computation takes the state of the host
    (files, services, clock) and returns an outcome, the new state and the
    events it emitted, in order. *)

From Stdlib Require Import ZArith Lia Bool Ascii.
From stdpp Require Import base tactics option list strings gmap pretty.

Local Open Scope Z_scope.
Set Warnings "-register-all".

(** ** Python strings *)

Module PyStr.

Definition dquote : string := String "034"%char EmptyString.
Definition newline : string := String "010"%char EmptyString.

(** [sub in s] *)
Fixpoint contains (sub s : string) : bool :=
  String.prefix sub s ||
  match s with
  | EmptyString => false
  | String _ s' => contains sub s'
  end.

(** The text that follows the first occurrence of [sub] in [s]. *)
Fixpoint after_first (sub s : string) : option string :=
  if String.prefix sub s
  then Some (String.substring (String.length sub)
                              (String.length s - String.length sub)%nat s)
  else match s with
       | EmptyString => None
       | String _ s' => after_first sub s'
       end.

(** [s[-n:]] for a positive [n] *)
Definition last_chars (n : nat) (s : string) : string :=
  String.substring (String.length s - n)%nat n s.

(** The whitespace of [str.strip] among the one-byte characters. *)
Definition is_space (c : ascii) : bool :=
  match c with
  | "009" | "010" | "011" | "012" | "013" | "028" | "029" | "030" | "031"
  | " " => true
  | _ => false
  end%char.

Fixpoint lstrip (s : string) : string :=
  match s with
  | String c s' => if is_space c then lstrip s' else s
  | EmptyString => EmptyString
  end.

(** [s.rstrip()] *)
Definition rstrip (s : string) : string := String.rev (lstrip (String.rev s)).

(** [s.strip()] *)
Definition strip (s : string) : string := rstrip (lstrip s).

(** [s.split('\n')]: the lines a multi-line regular expression sees. *)
Fixpoint lines_go (cur : string) (s : string) : list string :=
  match s with
  | EmptyString => [String.rev cur]
  | String c s' =>
      if Ascii.eqb c "010"%char
      then String.rev cur :: lines_go EmptyString s'
      else lines_go (String c cur) s'
  end.
Definition lines (s : string) : list string := lines_go EmptyString s.

Definition is_digit (c : ascii) : bool :=
  match Ascii.is_nat c with Some _ => true | None => false end.

(** The character class [[a-fA-F0-9]]. *)
Definition is_hex (c : ascii) : bool :=
  match c with
  | "0" | "1" | "2" | "3" | "4" | "5" | "6" | "7" | "8" | "9"
  | "a" | "b" | "c" | "d" | "e" | "f"
  | "A" | "B" | "C" | "D" | "E" | "F" => true
  | _ => false
  end%char.

End PyStr.

(** ** Exceptions

    The classes the code can meet and tells apart.  [IOError] is the class
    of the first [except] clause of the watcher; every class below derives
    from [Exception]. *)

Inductive exn_class :=
| IOError | ValueError | TypeError | UnboundLocalError | OverflowError.

Record pyexn := PyExn { exn_cls : exn_class; exn_str : string }.

Definition is_IOError (e : pyexn) : bool :=
  match exn_cls e with IOError => true | _ => false end.

Inductive outcome (A : Type) :=
| Ok (a : A)
| Raise (e : pyexn).
Arguments Ok {A} a.
Arguments Raise {A} e.

(** ** Events

    What a computation does to the outside, in the order it does it. *)

Inductive agent :=
| Telegraf                (* the collector, behind telhandler *)
| MetricsExtension.       (* the exporter, behind me_handler *)

Inductive handler_call :=
| StopTelegrafService     (* telhandler.stop_telegraf_service *)
| RemoveTelegrafService   (* telhandler.remove_telegraf_service *)
| HandleConfig            (* telhandler.handle_config *)
| StartTelegraf           (* telhandler.start_telegraf *)
| StopMetricsService      (* me_handler.stop_metrics_service *)
| RemoveMetricsService    (* me_handler.remove_metrics_service *)
| SetupMe                 (* me_handler.setup_me *)
| StartMetrics.           (* me_handler.start_metrics *)

Inductive event :=
| EvRun (cmd : string)          (* run_get_output *)
| EvStderr (text : string)      (* sys.stderr.write *)
| EvLogInfo (msg : string)      (* hutil_log_info, the hutil_log callback *)
| EvLogError (msg : string)     (* hutil_log_error, the hutil_error callback *)
| EvSleep (seconds : Z)         (* time.sleep *)
| EvLiveness (a : agent) (running : bool)
                                (* is_running of a handler, and its answer *)
| EvToken (generated : bool)    (* me_handler.generate_MSI_token, and its *)
                                (* first answer *)
| EvCall (c : handler_call).

Global Instance agent_eq_dec : EqDecision agent.
Proof. solve_decision. Defined.
Global Instance handler_call_eq_dec : EqDecision handler_call.
Proof. solve_decision. Defined.
Global Instance event_eq_dec : EqDecision event.
Proof. solve_decision. Defined.

(** ** The monad: state, exceptions and a trace of events *)

Definition M (St A : Type) : Type := St -> outcome A * St * list event.

Section Monad.
Context {St : Type}.

Definition ret {A} (a : A) : M St A := fun s => (Ok a, s, []).

Definition bind {A B} (m : M St A) (k : A -> M St B) : M St B :=
  fun s =>
    match m s with
    | (Ok a, s1, t1) =>
        match k a s1 with
        | (r, s2, t2) => (r, s2, t1 ++ t2)
        end
    | (Raise e, s1, t1) => (Raise e, s1, t1)
    end.

Definition raise {A} (e : pyexn) : M St A := fun s => (Raise e, s, []).

Definition emit (ev : event) : M St unit := fun s => (Ok tt, s, [ev]).

Definition get : M St St := fun s => (Ok s, s, []).
Definition put (s : St) : M St unit := fun _ => (Ok tt, s, []).

(** An [except] clause: the exceptions it accepts and its handler. *)
Definition clause (A : Type) : Type := (pyexn -> bool) * (pyexn -> M St A).

(** The first clause that accepts [e], as Python selects it. *)
Fixpoint select_clause {A} (clauses : list (clause A)) (e : pyexn)
  : option (pyexn -> M St A) :=
  match clauses with
  | [] => None
  | (accepts, handler) :: rest =>
      if accepts e then Some handler else select_clause rest e
  end.

(** [try: body  except ...: ...  except ...: ...] *)
Definition try_except {A} (body : M St A) (clauses : list (clause A))
  : M St A :=
  fun s =>
    match body s with
    | (Ok a, s1, t1) => (Ok a, s1, t1)
    | (Raise e, s1, t1) =>
        match select_clause clauses e with
        | Some handler =>
            match handler e s1 with
            | (r, s2, t2) => (r, s2, t1 ++ t2)
            end
        | None => (Raise e, s1, t1)
        end
    end.

(** [try: body  finally: final] *)
Definition try_finally {A} (body : M St A) (final : M St unit) : M St A :=
  fun s =>
    match body s with
    | (r, s1, t1) =>
        match final s1 with
        | (Ok _, s2, t2) => (r, s2, t1 ++ t2)
        | (Raise e, s2, t2) => (Raise e, s2, t1 ++ t2)
        end
    end.

End Monad.

Notation "'let*' x ':=' m 'in' k" := (bind m (fun x => k))
  (at level 10, x name, m at level 100, k at level 200,
   format "'[v' 'let*'  x  :=  m  'in' '/' k ']'").
Notation "'let*' ' pat ':=' m 'in' k" := (bind m (fun pat => k))
  (at level 10, pat pattern, m at level 100, k at level 200, only parsing).
Notation "'do' m 'then' k" := (bind m (fun _ => k))
  (at level 10, m at level 100, k at level 200, only parsing).

Definition outcome_of {St A} (r : outcome A * St * list event) : outcome A := r.1.1.
Definition state_of {St A} (r : outcome A * St * list event) : St := r.1.2.
Definition trace_of {St A} (r : outcome A * St * list event) : list event := r.2.

(** ** The host

    Everything outside the process: the shell behind [run_get_output], the
    standard error stream, files, the clock, and the two service handlers
    [telhandler] and [me_handler].  Each operation takes the state of the
    host and returns its answer with the next state.  The service handlers
    answer with a success flag and a message and do not raise. *)

Inductive json :=
| JNull
| JBool (b : bool)
| JNumber (n : Z)
| JString (s : string)
| JArray (items : list json)
| JObject (members : list (string * json)).

(** The value bound to [me_msi_token_expiry_epoch]. *)
Inductive pyval :=
| PyNone
| PyString (s : string)
| PyInt (n : Z).

Class Host (W : Type) := {
  host_run_get_output : string -> bool -> bool -> W -> (Z * string) * W;
  host_stderr_write : string -> W -> option pyexn * W;
  host_sleep : Z -> W -> W;
  host_isfile : string -> W -> bool * W;
  host_read : string -> W -> outcome string * W;
  (** [datetime.datetime.now()], in microseconds *)
  host_now : W -> Z * W;
  (** [datetime.datetime.fromtimestamp], in microseconds *)
  host_fromtimestamp : Z -> outcome Z;
  tel_is_running : W -> bool * W;
  tel_stop_telegraf_service : W -> (bool * string) * W;
  tel_remove_telegraf_service : W -> (bool * string) * W;
  tel_handle_config : json -> W -> W;
  tel_start_telegraf : W -> (bool * string) * W;
  me_is_running : W -> bool * W;
  me_stop_metrics_service : W -> (bool * string) * W;
  me_remove_metrics_service : W -> (bool * string) * W;
  me_setup_me : W -> W;
  me_start_metrics : W -> (bool * string) * W;
  me_generate_MSI_token : string -> string -> W -> (bool * pyval * string) * W;
}.

(** A state that holds the host's. *)
Class HasWorld (W St : Type) := {
  world_of : St -> W;
  with_world : W -> St -> St;
}.

Global Instance world_itself (W : Type) : HasWorld W W :=
  {| world_of w := w; with_world w _ := w |}.

Section HostCalls.
Context {W St : Type} `{Host W} `{HasWorld W St}.

(** An operation of the host, run on the host's part of the state. *)
Definition ask {A} (f : W -> A * W) : M St A :=
  fun s => let '(a, w) := f (world_of s) in (Ok a, with_world w s, []).

Definition tell (f : W -> W) : M St unit :=
  fun s => (Ok tt, with_world (f (world_of s)) s, []).

Definition hutil_log_info (message : string) : M St unit :=
  emit (EvLogInfo message).

Definition hutil_log_error (message : string) : M St unit :=
  emit (EvLogError message).

(** [run_get_output]: the command runs on the host, and the host answers
    the exit code and the output that [run_get_output] returns.  This is
    the function where it returns: with waagent loaded, or on Python 2.
    Without waagent on Python 3 [output.encode] raises on the bytes of
    [subprocess.check_output]; what is stated below of the callers is
    stated of the runs in which [run_get_output] returns. *)
Definition run_get_output (cmd : string) (chk_err log_cmd : bool)
  : M St (Z * string) :=
  do emit (EvRun cmd) then
  ask (host_run_get_output cmd chk_err log_cmd).

(** [sys.stderr.write] *)
Definition stderr_write (text : string) : M St unit :=
  let* r := ask (host_stderr_write text) in
  match r with
  | None => emit (EvStderr text)
  | Some e => raise e
  end.

(** [time.sleep] *)
Definition time_sleep (seconds : Z) : M St unit :=
  if seconds <? 0
  then raise (PyExn ValueError "sleep length must be non-negative")
  else do emit (EvSleep seconds) then tell (host_sleep seconds).

Definition call {A} (c : handler_call) (f : W -> A * W) : M St A :=
  do emit (EvCall c) then ask f.

(** [telhandler.is_running(is_lad=False)], [me_handler.is_running(is_lad=False)] *)
Definition is_running (a : agent) : M St bool :=
  let* running :=
    ask (match a with
         | Telegraf => tel_is_running
         | MetricsExtension => me_is_running
         end) in
  do emit (EvLiveness a running) then
  ret running.

(** [me_handler.generate_MSI_token(identifier_name, identifier_value)] *)
Definition generate_MSI_token (name value : string)
  : M St (bool * pyval * string) :=
  let* '(generated, expiry, log_messages) :=
    ask (me_generate_MSI_token name value) in
  do emit (EvToken generated) then
  ret (generated, expiry, log_messages).

End HostCalls.

(** ** Running commands *)

Definition DPKGLockedErrorCode : Z := 56.

Section Commands.
Context {W St : Type} `{Host W} `{HasWorld W St}.

Definition run_command_and_log (cmd : string) (check_error log_cmd : bool)
  : M St (Z * string) :=
  let* '(exit_code, output) := run_get_output cmd check_error log_cmd in
  do (if log_cmd
      then hutil_log_info ("Output of command " +:+ PyStr.dquote +:+
                           PyStr.rstrip cmd +:+ PyStr.dquote +:+ ": " +:+
                           PyStr.newline +:+ output)
      else hutil_log_info ("Output: " +:+ PyStr.newline +:+ output)) then
  let* exit_code :=
    try_except
      (do (if negb (exit_code =? 0)
           then stderr_write (PyStr.last_chars 500 output)
           else ret tt) then
       if PyStr.contains "Permission denied" output
       then ret 52
       else ret exit_code)
      [(fun _ => true,
        fun _ =>
          do hutil_log_info "Failed to write output to STDERR" then
          ret exit_code)] in
  ret (exit_code, output).

(** The body of the [while try_count <= retries] loop, iterated.  [last]
    holds [exit_code, output] once they are bound.  [fuel] bounds the
    iterations; [retry_loop_fuel] shows that the [O] branch is reached
    only when the loop condition is false. *)
Fixpoint retry_loop (fuel : nat) (cmd : string) (retries : Z)
    (retry_check : Z -> string -> M St (bool * string * bool))
    (check_error log_cmd : bool) (sleep_increase_factor : Z)
    (try_count sleep_time : Z) (run_cmd : string) (run_verbosely : bool)
    (last : option (Z * string)) : M St (option (Z * string)) :=
  match fuel with
  | O => ret last
  | S fuel' =>
      if try_count <=? retries then
        let run_cmd := if run_verbosely then cmd +:+ " -v" else run_cmd in
        let* '(exit_code, output) :=
          run_command_and_log run_cmd check_error log_cmd in
        let* '(should_retry, retry_message, run_verbosely) :=
          retry_check exit_code output in
        if negb should_retry then ret (Some (exit_code, output))
        else
          let try_count := try_count + 1 in
          do hutil_log_info retry_message then
          do time_sleep sleep_time then
          let sleep_time := sleep_time * sleep_increase_factor in
          retry_loop fuel' cmd retries retry_check check_error log_cmd
            sleep_increase_factor try_count sleep_time run_cmd
            run_verbosely (Some (exit_code, output))
      else ret last
  end.

Definition run_command_with_retries_output (cmd : string) (retries : Z)
    (retry_check : Z -> string -> M St (bool * string * bool))
    (final_check : option (Z -> string -> Z))
    (check_error log_cmd : bool)
    (initial_sleep_time sleep_increase_factor : Z) : M St (Z * string) :=
  let try_count := 0 in
  let sleep_time := initial_sleep_time in
  let run_cmd := cmd in
  let run_verbosely := false in
  let* last :=
    retry_loop (Z.to_nat (retries + 1)) cmd retries retry_check check_error
      log_cmd sleep_increase_factor try_count sleep_time run_cmd
      run_verbosely None in
  match last with
  | None =>
      raise (PyExn UnboundLocalError
               "local variable 'exit_code' referenced before assignment")
  | Some (exit_code, output) =>
      let exit_code :=
        match final_check with
        | Some check => check exit_code output
        | None => exit_code
        end in
      ret (exit_code, output)
  end.

(** The search of [^.*dpkg.+lock.*$] in one line: [dpkg], at least one
    character, then [lock]. *)
Definition dpkg_locked_line (line : string) : bool :=
  match PyStr.after_first "dpkg" line with
  | Some (String _ rest) => PyStr.contains "lock" rest
  | _ => false
  end.

(** [re.compile(r'^.*dpkg.+lock.*$', re.M).search(output)] *)
Definition dpkg_locked_re_search (output : string) : bool :=
  existsb dpkg_locked_line (PyStr.lines output).

Definition is_dpkg_locked (exit_code : Z) (output : string) : bool :=
  if negb (exit_code =? 0)
  then if dpkg_locked_re_search output then true else false
  else false.

Definition retry_if_dpkg_locked (exit_code : Z) (output : string)
  : M St (bool * string * bool) :=
  let retry_verbosely := false in
  let dpkg_locked := is_dpkg_locked exit_code output in
  let* _ := run_get_output "which apt-get" false false in
  if dpkg_locked
  then ret (true, "Retrying command because package manager is locked.",
            retry_verbosely)
  else ret (false, "", false).

Definition final_check_if_dpkg_locked (exit_code : Z) (output : string) : Z :=
  let dpkg_locked := is_dpkg_locked exit_code output in
  if dpkg_locked then DPKGLockedErrorCode else exit_code.

End Commands.

(** ** Python values *)

(** [json.loads] and [hashlib.sha256(data.encode('utf-8')).hexdigest()]
    belong to Python's library; the code is read against any functions of
    these types. *)
Class PyLib := {
  json_loads : string -> outcome json;
  sha256_hexdigest : string -> string;
}.

(** [len(json_data)] *)
Definition py_len (v : json) : outcome Z :=
  match v with
  | JString s => Ok (Z.of_nat (String.length s))
  | JArray items => Ok (Z.of_nat (length items))
  | JObject members => Ok (Z.of_nat (length members))
  | JNull => Raise (PyExn TypeError "object of type 'NoneType' has no len()")
  | JBool _ => Raise (PyExn TypeError "object of type 'bool' has no len()")
  | JNumber _ => Raise (PyExn TypeError "object of type 'int' has no len()")
  end.

(** [if v:] *)
Definition py_truthy (v : pyval) : bool :=
  match v with
  | PyNone => false
  | PyString s => negb (String.eqb s "")
  | PyInt n => negb (n =? 0)
  end.

(** [v is None or v == ""] *)
Definition is_none_or_empty (v : pyval) : bool :=
  match v with
  | PyNone => true
  | PyString s => String.eqb s ""
  | PyInt _ => false
  end.

Module PyInt.

(** Digits with single underscores between them, after a first digit. *)
Fixpoint digits (s : string) (acc : Z) (after_underscore : bool) : option Z :=
  match s with
  | EmptyString => if after_underscore then None else Some acc
  | String c s' =>
      if Ascii.eqb c "_"%char
      then if after_underscore then None else digits s' acc true
      else match Ascii.is_nat c with
           | Some d => digits s' (10 * acc + Z.of_nat d) false
           | None => None
           end
  end.

Definition unsigned (s : string) : option Z :=
  match s with
  | String c s' =>
      match Ascii.is_nat c with
      | Some d => digits s' (Z.of_nat d) false
      | None => None
      end
  | EmptyString => None
  end.

(** [int(s)] for a string in base ten. *)
Definition of_string (s : string) : option Z :=
  match PyStr.strip s with
  | String "+"%char r => unsigned r
  | String "-"%char r => Z.opp <$> unsigned r
  | r => unsigned r
  end.

End PyInt.

(** [int(v)] *)
Definition py_int (v : pyval) : outcome Z :=
  match v with
  | PyInt n => Ok n
  | PyString s =>
      match PyInt.of_string s with
      | Some n => Ok n
      | None => Raise (PyExn ValueError
                         ("invalid literal for int() with base 10: " +:+ s))
      end
  | PyNone =>
      Raise (PyExn TypeError "int() argument must be a string or a number")
  end.

(** ** Managed identity *)

(** The public settings as far as [get_managed_identity] reads them:
    [authentication], inside it [managedIdentity], a dict of strings. *)
Record authentication_settings := {
  managedIdentity : option (gmap string string);
}.

Record public_settings_t := {
  authentication : option authentication_settings;
}.

Module Guid.

(** [n] characters of the class [[a-fA-F0-9]], then the rest. *)
Fixpoint hexes (n : nat) (s : string) : option string :=
  match n with
  | O => Some s
  | S n' =>
      match s with
      | String c s' => if PyStr.is_hex c then hexes n' s' else None
      | EmptyString => None
      end
  end.

Definition dash (s : string) : option string :=
  match s with
  | String "-"%char s' => Some s'
  | _ => None
  end.

(** The pattern matched at the start of [s]. *)
Definition matches_at (s : string) : bool :=
  match (s ← hexes 8 s; s ← dash s;
         s ← hexes 4 s; s ← dash s;
         s ← hexes 4 s; s ← dash s;
         s ← hexes 4 s; s ← dash s;
         hexes 12 s) with
  | Some _ => true
  | None => false
  end.

(** [guid_re.search(s)]: the pattern matched at some position of [s]. *)
Fixpoint search (s : string) : bool :=
  matches_at s ||
  match s with
  | EmptyString => false
  | String _ s' => search s'
  end.

End Guid.

Definition valid_identifier_names : list string :=
  ["object_id"; "client_id"; "mi_res_id"].

(** [public_settings.get("authentication").get("managedIdentity")], when
    the settings, [authentication] and [managedIdentity] are all there. *)
Definition managed_identity_setting
    (public_settings : option public_settings_t)
  : option (gmap string string) :=
  ps ← public_settings; auth ← authentication ps; managedIdentity auth.

Definition get_managed_identity (public_settings : option public_settings_t)
  : string * string * string :=
  let identifier_name := "" in
  let identifier_value := "" in
  match managed_identity_setting public_settings with
  | Some managedIdentity =>
      match managedIdentity !! "identifier-name",
            managedIdentity !! "identifier-value" with
      | Some name, Some value =>
          let identifier_name := name in
          let identifier_value := value in
          if negb (bool_decide (identifier_name ∈ valid_identifier_names))
          then (identifier_name, identifier_value,
                "Invalid identifier-name provided; must be " +:+
                PyStr.dquote +:+ "object_id" +:+ PyStr.dquote +:+ ", " +:+
                PyStr.dquote +:+ "client_id" +:+ PyStr.dquote +:+ ", or " +:+
                PyStr.dquote +:+ "mi_res_id" +:+ PyStr.dquote)
          else if String.eqb identifier_value ""
          then (identifier_name, identifier_value,
                "Invalid identifier-value provided; cannot be empty")
          else if bool_decide (identifier_name ∈ ["object_id"; "client_id"])
                  && negb (Guid.search identifier_value)
          then (identifier_name, identifier_value,
                "Invalid identifier-value provided for " +:+ identifier_name
                +:+ "; must be a GUID")
          else (identifier_name, identifier_value, "")
      | _, _ =>
          (identifier_name, identifier_value,
           "Parameters " +:+ PyStr.dquote +:+ "identifier-name" +:+
           PyStr.dquote +:+ " and " +:+ PyStr.dquote +:+ "identifier-value" +:+
           PyStr.dquote +:+
           " are both required in authentication.managedIdentity public setting")
      end
  | None => (identifier_name, identifier_value, "")
  end.

(** ** The metrics watcher *)

Definition MdsdCounterJsonPath : string :=
  "/etc/opt/microsoft/azuremonitoragent/config-cache/metricCounters.json".

(** [os.path.join(os.getcwd(), "/config/metrics_configs/AuthToken-MSI.json")]:
    the second component is absolute, so the first is dropped. *)
Definition me_token_path : string :=
  "/config/metrics_configs/AuthToken-MSI.json".

Definition sleepTime : Z := 30.
Definition max_restart_retries : Z := 10.

(** The local variables of [metrics_watcher] that live across iterations of
    its loop.  The two retry counters are unbound until the loop assigns
    them; they are never read before that. *)
Record locals := Locals {
  identifier_name : string;
  identifier_value : string;
  last_crc : option string;
  me_msi_token_expiry_epoch : pyval;
  generate_token : bool;
  telegraf_restart_retries : Z;
  me_restart_retries : Z;
}.

Record watcher (W : Type) := Watcher {
  host : W;
  vars : locals;
}.
Arguments Watcher {W} host vars.
Arguments host {W} w.
Arguments vars {W} w.

Global Instance watcher_has_world (W : Type) : HasWorld W (watcher W) :=
  {| world_of := host; with_world w s := Watcher w (vars s) |}.

Definition set_last_crc (v : option string) (l : locals) : locals :=
  Locals (identifier_name l) (identifier_value l) v
    (me_msi_token_expiry_epoch l) (generate_token l)
    (telegraf_restart_retries l) (me_restart_retries l).

Definition set_me_msi_token_expiry_epoch (v : pyval) (l : locals) : locals :=
  Locals (identifier_name l) (identifier_value l) (last_crc l) v
    (generate_token l) (telegraf_restart_retries l) (me_restart_retries l).

Definition set_generate_token (v : bool) (l : locals) : locals :=
  Locals (identifier_name l) (identifier_value l) (last_crc l)
    (me_msi_token_expiry_epoch l) v
    (telegraf_restart_retries l) (me_restart_retries l).

Definition set_telegraf_restart_retries (v : Z) (l : locals) : locals :=
  Locals (identifier_name l) (identifier_value l) (last_crc l)
    (me_msi_token_expiry_epoch l) (generate_token l) v (me_restart_retries l).

Definition set_me_restart_retries (v : Z) (l : locals) : locals :=
  Locals (identifier_name l) (identifier_value l) (last_crc l)
    (me_msi_token_expiry_epoch l) (generate_token l)
    (telegraf_restart_retries l) v.

Section Watcher.
Context {W : Type} `{Host W} `{PyLib}.

Local Abbreviation MW := (M (watcher W)).

Definition read {A} (field : locals -> A) : MW A :=
  fun s => (Ok (field (vars s)), s, []).

Definition assign (update : locals -> locals) : MW unit :=
  fun s => (Ok tt, Watcher (host s) (update (vars s)), []).

(** An expression that may raise. *)
Definition eval {A} (r : outcome A) : MW A :=
  match r with
  | Ok a => ret a
  | Raise e => raise e
  end.

(** The callbacks [hutil_log] and [hutil_error]. *)
Definition hutil_log (msg : string) : MW unit := emit (EvLogInfo msg).
Definition hutil_error (msg : string) : MW unit := emit (EvLogError msg).

(** [if out: hutil_log(msg)  else: hutil_error(msg)] *)
Definition log_result (out : bool) (msg : string) : MW unit :=
  if out then hutil_log msg else hutil_error msg.

(** [open(path, "r")] then [read()] *)
Definition read_file (path : string) : MW string :=
  let* r := ask (host_read path) in eval r.

(** The branch of an empty configuration: [len(json_data) == 0]. *)
Definition cleared_branch (data : string) : MW unit :=
  do assign (set_last_crc (Some (sha256_hexdigest data))) then
  let* tel_running := is_running Telegraf in
  do (if tel_running then
        let* '(tel_out, tel_msg) :=
          call StopTelegrafService tel_stop_telegraf_service in
        do log_result tel_out tel_msg then
        let* '(tel_rm_out, tel_rm_msg) :=
          call RemoveTelegrafService tel_remove_telegraf_service in
        log_result tel_rm_out tel_rm_msg
      else ret tt) then
  let* me_running := is_running MetricsExtension in
  if me_running then
    let* '(me_out, me_msg) :=
      call StopMetricsService me_stop_metrics_service in
    do log_result me_out me_msg then
    let* '(me_rm_out, me_rm_msg) :=
      call RemoveMetricsService me_remove_metrics_service in
    log_result me_rm_out me_rm_msg
  else ret tt.

(** [if(crc != last_crc): ...] *)
Definition reconcile (data : string) (json_data : json) : MW unit :=
  let crc := sha256_hexdigest data in
  let* last := read last_crc in
  if negb (bool_decide (Some crc = last)) then
    do assign (set_me_msi_token_expiry_epoch PyNone) then
    do hutil_log "Start processing metric configuration" then
    do hutil_log data then
    do call HandleConfig (fun w => (tt, tel_handle_config json_data w)) then
    do call SetupMe (fun w => (tt, me_setup_me w)) then
    let* '(start_telegraf_res, log_messages) :=
      call StartTelegraf tel_start_telegraf in
    do (if start_telegraf_res
        then hutil_log "Successfully started metrics-sourcer."
        else hutil_error log_messages) then
    let* '(start_metrics_out, log_messages) :=
      call StartMetrics me_start_metrics in
    do (if start_metrics_out
        then hutil_log "Successfully started metrics-extension."
        else hutil_error log_messages) then
    assign (set_last_crc (Some crc))
  else ret tt.

(** From [generate_token = False] to the call of [generate_MSI_token]. *)
Definition refresh_token : MW unit :=
  do assign (set_generate_token false) then
  let* epoch := read me_msi_token_expiry_epoch in
  do (if is_none_or_empty epoch then
        let* present := ask (host_isfile me_token_path) in
        if present then
          let* authtoken_content := read_file me_token_path in
          if negb (String.eqb authtoken_content "")
             && PyStr.contains "expires_on" authtoken_content
          then
            (* authtoken_content["expires_on"] on a str *)
            raise (PyExn TypeError "string indices must be integers")
          else assign (set_generate_token true)
        else assign (set_generate_token true)
      else ret tt) then
  let* epoch := read me_msi_token_expiry_epoch in
  do (if py_truthy epoch then
        let* currentTime := ask host_now in
        let* seconds := eval (py_int epoch) in
        let* token_expiry_time := eval (host_fromtimestamp seconds) in
        if token_expiry_time - currentTime <? 30 * 60 * 1000000
        then assign (set_generate_token true)
        else ret tt
      else ret tt) then
  let* generate := read generate_token in
  if generate then
    do assign (set_generate_token false) then
    let* name := read identifier_name in
    let* value := read identifier_value in
    let* '(msi_token_generated, expiry, log_messages) :=
      generate_MSI_token name value in
    do assign (set_me_msi_token_expiry_epoch expiry) then
    if msi_token_generated
    then hutil_log "Successfully refreshed metrics-extension MSI Auth token."
    else hutil_error log_messages
  else ret tt.

(** From the first [is_running] to the end of the loop's body: each
    service is asked whether it runs; one that does not is stopped and
    started while its counter is below [max_restart_retries], and only
    reported otherwise. *)
Definition supervise : MW unit :=
  let* tel_running := is_running Telegraf in
  do (if negb tel_running then
        let* retries := read telegraf_restart_retries in
        if retries <? max_restart_retries then
          do assign (set_telegraf_restart_retries (retries + 1)) then
          let* retries := read telegraf_restart_retries in
          do hutil_log ("Telegraf binary process is not running. " +:+
                        "Restarting telegraf now. Retry count - " +:+
                        pretty retries) then
          let* '(tel_out, tel_msg) :=
            call StopTelegrafService tel_stop_telegraf_service in
          do log_result tel_out tel_msg then
          let* '(start_telegraf_res, log_messages) :=
            call StartTelegraf tel_start_telegraf in
          if start_telegraf_res
          then hutil_log "Successfully started metrics-sourcer."
          else hutil_error log_messages
        else
          hutil_error ("Telegraf binary process is not running. " +:+
                       "Failed to restart after " +:+
                       pretty max_restart_retries +:+
                       " retries. Please check telegraf.log")
      else assign (set_telegraf_restart_retries 0)) then
  let* me_running := is_running MetricsExtension in
  if negb me_running then
    let* retries := read me_restart_retries in
    if retries <? max_restart_retries then
      do assign (set_me_restart_retries (retries + 1)) then
      let* retries := read me_restart_retries in
      do hutil_log ("MetricsExtension binary process is not running. " +:+
                    "Restarting MetricsExtension now. Retry count - " +:+
                    pretty retries) then
      let* '(me_out, me_msg) :=
        call StopMetricsService me_stop_metrics_service in
      do log_result me_out me_msg then
      let* '(start_metrics_out, log_messages) :=
        call StartMetrics me_start_metrics in
      if start_metrics_out
      then hutil_log "Successfully started metrics-extension."
      else hutil_error log_messages
    else
      hutil_error ("MetricsExtension binary process is not running. " +:+
                   "Failed to restart after " +:+
                   pretty max_restart_retries +:+
                   " retries. Please check /var/log/syslog for ME logs")
  else assign (set_me_restart_retries 0).

(** From [telegraf_restart_retries = 0] to the end of the loop's body. *)
Definition health_check : MW unit :=
  do assign (set_telegraf_restart_retries 0) then
  do assign (set_me_restart_retries 0) then
  supervise.

(** The body of the [try] of the loop. *)
Definition cycle_body : MW unit :=
  let* present := ask (host_isfile MdsdCounterJsonPath) in
  if present then
    let* data := read_file MdsdCounterJsonPath in
    if negb (String.eqb data "") then
      let* json_data := eval (json_loads data) in
      let* n := eval (py_len json_data) in
      if n =? 0 then cleared_branch data
      else
        do reconcile data json_data then
        do refresh_token then
        health_check
    else ret tt
  else ret tt.

(** One iteration of [while True]: the [try] with its two [except]
    clauses and its [finally]. *)
Definition cycle : MW unit :=
  try_finally
    (try_except cycle_body
       [(is_IOError,
         fun e => hutil_error
           ("I/O error in setting up or monitoring metrics. Exception="
            +:+ exn_str e));
        (fun _ => true,
         fun e => hutil_error
           ("Error in setting up or monitoring metrics. Exception="
            +:+ exn_str e))])
    (time_sleep sleepTime).

(** The first [n] iterations of the loop. *)
Fixpoint cycles (n : nat) : MW unit :=
  match n with
  | O => ret tt
  | S n' => do cycle then cycles n'
  end.

(** [metrics_watcher] up to the loop: the identity is read once, the
    watcher sleeps, and the loop starts with nothing cached. *)
Definition watcher_start (public_settings : option public_settings_t)
    (w : W) : outcome unit * watcher W * list event :=
  let '(name, value, error_msg) := get_managed_identity public_settings in
  let s := Watcher w (Locals name value None PyNone false 0 0) in
  (do (if negb (String.eqb error_msg "")
       then hutil_error
              ("Failed to determine managed identity settings; MSI token " +:+
               "retreival will rely on default identity, if any. " +:+
               error_msg +:+ ".")
       else ret tt) then
   time_sleep sleepTime) s.

(** [metrics_watcher], stopped after [n] iterations of its loop. *)
Definition metrics_watcher (public_settings : option public_settings_t)
    (n : nat) (w : W) : outcome unit * watcher W * list event :=
  match watcher_start public_settings w with
  | (Ok _, s, t) =>
      match cycles n s with
      | (r, s', t') => (r, s', t ++ t')
      end
  | r => r
  end.

End Watcher.

(** ** What an iteration reads of the configuration

    The first lines of the loop's body, as a function of the host: is the
    file there, can it be read, is it empty, does it parse, and how long is
    what it holds. *)

Inductive poll_result :=
| PollAbsent                              (* no file *)
| PollFailed (e : pyexn)                  (* open, read, json.loads or len raised *)
| PollEmpty                               (* data == '' *)
| PollCleared (data : string)             (* len(json_data) == 0 *)
| PollActive (data : string) (json_data : json).

Definition poll {W : Type} `{Host W} `{PyLib} (w : W) : poll_result * W :=
  let '(present, w1) := host_isfile MdsdCounterJsonPath w in
  if present then
    let '(r, w2) := host_read MdsdCounterJsonPath w1 in
    match r with
    | Raise e => (PollFailed e, w2)
    | Ok data =>
        if String.eqb data "" then (PollEmpty, w2)
        else match json_loads data with
             | Raise e => (PollFailed e, w2)
             | Ok json_data =>
                 match py_len json_data with
                 | Raise e => (PollFailed e, w2)
                 | Ok n =>
                     if n =? 0 then (PollCleared data, w2)
                     else (PollActive data json_data, w2)
                 end
             end
    end
  else (PollAbsent, w1).

(** The line that the [except] clauses of the loop log for [e]. *)
Definition failure_message (e : pyexn) : string :=
  if is_IOError e
  then "I/O error in setting up or monitoring metrics. Exception=" +:+ exn_str e
  else "Error in setting up or monitoring metrics. Exception=" +:+ exn_str e.

(** ** Reading traces *)

(** The seconds slept, in order. *)
Definition sleeps (t : list event) : list Z :=
  omap (fun ev => match ev with EvSleep z => Some z | _ => None end) t.

(** The commands run, in order. *)
Definition commands (t : list event) : list string :=
  omap (fun ev => match ev with EvRun c => Some c | _ => None end) t.

(** The invocations of [cmd], plain or with [-v]. *)
Definition attempts (cmd : string) (t : list event) : list string :=
  filter (fun c => c = cmd \/ c = cmd +:+ " -v") (commands t).


(** A retry check that takes its decision by [rc], raises nothing, sleeps
    nothing and does not run [cmd] itself. *)
Definition decides {W St : Type} `{Host W} `{HasWorld W St}
    (retry_check : Z -> string -> M St (bool * string * bool))
    (rc : Z -> string -> bool * string * bool) (cmd : string) : Prop :=
  forall e o s, exists s' t,
    retry_check e o s = (Ok (rc e o), s', t) /\
    sleeps t = [] /\ attempts cmd t = [].



(** The decision of [retry_if_dpkg_locked]. *)
Definition dpkg_decision (exit_code : Z) (output : string)
  : bool * string * bool :=
  if is_dpkg_locked exit_code output
  then (true, "Retrying command because package manager is locked.", false)
  else (false, "", false).


(** A trace without its log lines: what was asked of the host. *)
Definition is_log (ev : event) : bool :=
  match ev with
  | EvLogInfo _ | EvLogError _ => true
  | _ => false
  end.

Definition actions (t : list event) : list event :=
  filter (fun ev => is_log ev = false) t.

(** The service calls of a trace. *)
Definition calls (t : list event) : list handler_call :=
  omap (fun ev => match ev with EvCall c => Some c | _ => None end) t.

(** The sleeps of [n] attempts that each ask for a retry:
    [initial], [initial * factor], [initial * factor^2], ... *)
Fixpoint backoff (n : nat) (sleep_time factor : Z) : list Z :=
  match n with
  | O => []
  | S n' => sleep_time :: backoff n' (sleep_time * factor) factor
  end.

(** Was [generate_MSI_token] called? *)
Definition refresh_attempted (t : list event) : bool :=
  existsb (fun ev => match ev with EvToken _ => true | _ => false end) t.

(** The restarts of [a] in a trace: its stop orders. *)
Definition stop_call (a : agent) : handler_call :=
  match a with
  | Telegraf => StopTelegrafService
  | MetricsExtension => StopMetricsService
  end.

Definition start_call (a : agent) : handler_call :=
  match a with
  | Telegraf => StartTelegraf
  | MetricsExtension => StartMetrics
  end.

Definition count_calls (c : handler_call) (t : list event) : nat :=
  length (filter (fun c' => c' = c) (calls t)).

(** The cycles of a trace in which [a] was observed not running. *)
Definition observed_down (a : agent) (t : list event) : nat :=
  length (filter (fun ev => ev = EvLiveness a false) t).

(** What the health check asks of the host when it observes [tel_up] and
    [me_up]: a restart is a stop followed by a start. *)
Definition health_actions (tel_up me_up : bool) : list event :=
  [EvLiveness Telegraf tel_up] ++
  (if tel_up then []
   else [EvCall StopTelegrafService; EvCall StartTelegraf]) ++
  [EvLiveness MetricsExtension me_up] ++
  (if me_up then []
   else [EvCall StopMetricsService; EvCall StartMetrics]).




(** What the branch of an empty configuration asks of the host. *)
Definition cleared_actions (tel_up me_up : bool) : list event :=
  [EvLiveness Telegraf tel_up] ++
  (if tel_up
   then [EvCall StopTelegrafService; EvCall RemoveTelegrafService]
   else []) ++
  [EvLiveness MetricsExtension me_up] ++
  (if me_up
   then [EvCall StopMetricsService; EvCall RemoveMetricsService]
   else []).

(** What a reconciliation asks of the host. *)
Definition reconcile_actions : list event :=
  [EvCall HandleConfig; EvCall SetupMe; EvCall StartTelegraf;
   EvCall StartMetrics].

(** ** A simulated host

    A small deterministic host to run the code on: a shell given by a
    function of the command, a configuration file that changes at each
    sleep according to a schedule, two services that obey stop and start
    orders or not, and a token service with a fixed answer. *)

Inductive file_state :=
| Absent
| Unreadable (e : pyexn)
| Content (data : string).

Record sim := Sim {
  sim_stderr_open : bool;
  sim_config : list file_state;
  sim_token_file : file_state;
  sim_clock : Z;
  sim_tel_up : bool;
  sim_me_up : bool;
  sim_stop_works : bool;
  sim_start_works : bool;
  sim_token : bool * pyval * string;
}.

Module SimHost.

Definition config_now (w : sim) : file_state :=
  match sim_config w with
  | f :: _ => f
  | [] => Absent
  end.

Definition file_at (path : string) (w : sim) : file_state :=
  if String.eqb path MdsdCounterJsonPath then config_now w
  else if String.eqb path me_token_path then sim_token_file w
  else Absent.

Definition isfile (path : string) (w : sim) : bool * sim :=
  (match file_at path w with Absent => false | _ => true end, w).

Definition read (path : string) (w : sim) : outcome string * sim :=
  (match file_at path w with
   | Content data => Ok data
   | Unreadable e => Raise e
   | Absent => Raise (PyExn IOError "No such file or directory")
   end, w).

Definition sleep (seconds : Z) (w : sim) : sim :=
  Sim (sim_stderr_open w)
      (match sim_config w with
       | _ :: (_ :: _) as rest => rest
       | l => l
       end)
      (sim_token_file w) (sim_clock w + seconds * 1000000)
      (sim_tel_up w) (sim_me_up w) (sim_stop_works w) (sim_start_works w)
      (sim_token w).

Definition set_up (a : agent) (up : bool) (w : sim) : sim :=
  Sim (sim_stderr_open w) (sim_config w) (sim_token_file w)
      (sim_clock w)
      (match a with Telegraf => up | _ => sim_tel_up w end)
      (match a with MetricsExtension => up | _ => sim_me_up w end)
      (sim_stop_works w) (sim_start_works w) (sim_token w).

Definition stop (a : agent) (w : sim) : (bool * string) * sim :=
  if sim_stop_works w then ((true, "stopped"), set_up a false w)
  else ((false, "could not stop"), w).

Definition start (a : agent) (w : sim) : (bool * string) * sim :=
  if sim_start_works w then ((true, "started"), set_up a true w)
  else ((false, "could not start"), w).

Definition stderr_write (text : string) (w : sim) : option pyexn * sim :=
  (if sim_stderr_open w then None
   else Some (PyExn ValueError "I/O operation on closed file"), w).

End SimHost.

Definition sim_host (shell : string -> Z * string) : Host sim := {|
  host_run_get_output cmd _ _ w := (shell cmd, w);
  host_stderr_write := SimHost.stderr_write;
  host_sleep := SimHost.sleep;
  host_isfile := SimHost.isfile;
  host_read := SimHost.read;
  host_now w := (sim_clock w, w);
  host_fromtimestamp seconds := Ok (seconds * 1000000);
  tel_is_running w := (sim_tel_up w, w);
  tel_stop_telegraf_service := SimHost.stop Telegraf;
  tel_remove_telegraf_service w := ((true, "removed"), w);
  tel_handle_config _ w := w;
  tel_start_telegraf := SimHost.start Telegraf;
  me_is_running w := (sim_me_up w, w);
  me_stop_metrics_service := SimHost.stop MetricsExtension;
  me_remove_metrics_service w := ((true, "removed"), w);
  me_setup_me w := w;
  me_start_metrics := SimHost.start MetricsExtension;
  me_generate_MSI_token _ _ w := (sim_token w, w);
|}.

(** Three configuration files and their parsed values. *)
Definition empty_object_text : string := "{}".
Definition one_counter_text : string :=
  "{" +:+ PyStr.dquote +:+ "cpu" +:+ PyStr.dquote +:+ ":{}}".
Definition one_counter_spaced_text : string :=
  "{ " +:+ PyStr.dquote +:+ "cpu" +:+ PyStr.dquote +:+ ": {} }".

(** A library for the simulated host: [json.loads] on the three texts
    above (any other text is refused), and a digest that tells all texts
    apart. *)
Definition sim_json_loads (data : string) : outcome json :=
  if String.eqb data empty_object_text then Ok (JObject [])
  else if String.eqb data one_counter_text
          || String.eqb data one_counter_spaced_text
       then Ok (JObject [("cpu", JObject [])])
  else Raise (PyExn ValueError "Expecting value: line 1 column 1 (char 0)").

Definition sim_lib : PyLib := {|
  json_loads := sim_json_loads;
  sha256_hexdigest data := data;
|}.

(** A shell on which every command fails on the dpkg lock. *)
Definition locked_shell (cmd : string) : Z * string :=
  (1, "dpkg: error: dpkg status database is locked by another process").

(** A host at rest: no configuration, both services up. *)
Definition sim_idle : sim :=
  Sim true [] Absent 0 true true true true (true, PyNone, "").

Definition locked_host : Host sim := sim_host locked_shell.

(** A host whose shell succeeds silently. *)
Definition quiet_host : Host sim := sim_host (fun _ => (0, "")).

(** A shell on which every command is refused. *)
Definition denied_shell (cmd : string) : Z * string :=
  (1, "mkdir: cannot create directory '/etc/opt/x': Permission denied").

Definition denied_host : Host sim := sim_host denied_shell.

(** A host whose standard error stream is closed. *)
Definition sim_stderr_closed : sim :=
  Sim false [] Absent 0 true true true true (true, PyNone, "").

(** The variables of the watcher when its loop starts, without identity. *)
Definition fresh_locals : locals := Locals "" "" None PyNone false 0 0.

(** The variables after a reconciliation of [data], with [epoch] cached. *)
Definition settled_locals (data : string) (epoch : pyval) : locals :=
  Locals "" "" (Some data) epoch false 0 0.

(** A token service that works and gives a token good until 2100. *)
Definition good_token : bool * pyval * string :=
  (true, PyString "4102444800", "").

(** A token service that fails. *)
Definition no_token : bool * pyval * string :=
  (false, PyString "", "Failed to get msi token").

(** A host with the configuration [config], both services up. *)
Definition sim_config_is (config : file_state) : sim :=
  Sim true [config] Absent 0 true true true true good_token.

(** A host with a counter configured, at [clock] seconds, whose token
    service answers [token]. *)
Definition sim_at (clock : Z) (token : bool * pyval * string) : sim :=
  Sim true [Content one_counter_text] Absent (clock * 1000000) true true
      true true token.

(** A host with an empty object configured, on which telegraf runs and
    the stop orders have no effect. *)
Definition sim_stuck : sim :=
  Sim true [Content empty_object_text] Absent 0 true false false true
      good_token.

(** A host with a counter configured, on which telegraf is down and the
    start orders have no effect. *)
Definition sim_telegraf_down : sim :=
  Sim true [Content one_counter_text] Absent 0 false true true false
      good_token.


(** The line logged at each restart of telegraf when the counter was 0. *)
Definition first_retry_line : string :=
  "Telegraf binary process is not running. Restarting telegraf now. Retry count - 1".

(** How often [msg] was logged at the info level. *)
Definition count_info (msg : string) (t : list event) : nat :=
  length (filter (fun ev => ev = EvLogInfo msg) t).

(** ** Tactics to run the code on an arbitrary host *)

(** Unfolding the monad and the calls of the host. *)
Ltac unfold_monad :=
  unfold bind, ret, raise, emit, ask, tell, call, is_running,
    generate_MSI_token, read, assign, eval, hutil_log, hutil_error,
    log_result, read_file, time_sleep, max_restart_retries, sleepTime in *.

(** The answer of the host that a run is waiting for. *)
Ltac ask_host :=
  match goal with
  | |- context [tel_is_running ?w] => destruct (tel_is_running w) as [? ?] eqn:?
  | |- context [me_is_running ?w] => destruct (me_is_running w) as [? ?] eqn:?
  | |- context [tel_stop_telegraf_service ?w] =>
      destruct (tel_stop_telegraf_service w) as [[? ?] ?] eqn:?
  | |- context [tel_remove_telegraf_service ?w] =>
      destruct (tel_remove_telegraf_service w) as [[? ?] ?] eqn:?
  | |- context [tel_start_telegraf ?w] =>
      destruct (tel_start_telegraf w) as [[? ?] ?] eqn:?
  | |- context [me_stop_metrics_service ?w] =>
      destruct (me_stop_metrics_service w) as [[? ?] ?] eqn:?
  | |- context [me_remove_metrics_service ?w] =>
      destruct (me_remove_metrics_service w) as [[? ?] ?] eqn:?
  | |- context [me_start_metrics ?w] =>
      destruct (me_start_metrics w) as [[? ?] ?] eqn:?
  | |- context [me_generate_MSI_token ?n ?v ?w] =>
      destruct (me_generate_MSI_token n v w) as [[[? ?] ?] ?] eqn:?
  | |- context [host_isfile ?p ?w] =>
      destruct (host_isfile p w) as [? ?] eqn:?
  | |- context [host_read ?p ?w] =>
      destruct (host_read p w) as [[?|?] ?] eqn:?
  | |- context [host_now ?w] => destruct (host_now w) as [? ?] eqn:?
  | |- context [host_fromtimestamp ?z] =>
      destruct (host_fromtimestamp z) as [?|?] eqn:?
  | |- context [py_int ?v] => destruct (py_int v) as [?|?] eqn:?
  | |- context [json_loads ?d] => destruct (json_loads d) as [?|?] eqn:?
  | |- context [py_len ?j] => destruct (py_len j) as [?|?] eqn:?
  end.

(** One step of a run on an arbitrary host: compute, unfold, take the
    answer of the host, or split on a flag. *)
Ltac run_step :=
  first
    [ progress simpl
    | progress unfold_monad
    | ask_host
    | match goal with
      | |- context [if negb ?b then _ else _] => is_var b; destruct b
      | |- context [if ?b then _ else _] => is_var b; destruct b
      | |- context [if ?c then _ else _] => destruct c eqn:?
      end ].

Ltac run := repeat run_step.
(** * The rest of [agent.py]

    What follows covers the code around the watcher and the command
    runner: further facts about the functions above, and the functions of
    [agent.py] that call them or that they call. *)

(** ** Words to state what the string functions compute *)

(** [s[n:]] *)
Fixpoint drop_chars (n : nat) (s : string) : string :=
  match n, s with
  | S n', String _ s' => drop_chars n' s'
  | _, _ => s
  end.

(** The characters of [s] all satisfy [p]. *)
Fixpoint all_chars (p : ascii -> bool) (s : string) : bool :=
  match s with
  | EmptyString => true
  | String c s' => p c && all_chars p s'
  end.

(** [n] characters of the class [[a-fA-F0-9]]. *)
Definition hex_run (n : nat) (s : string) : Prop :=
  String.length s = n /\ all_chars PyStr.is_hex s = true.

(** A text of the shape 8-4-4-4-12 in hexadecimal digits. *)
Definition guid_text (g : string) : Prop :=
  exists a b c d e,
    g = a +:+ "-" +:+ b +:+ "-" +:+ c +:+ "-" +:+ d +:+ "-" +:+ e /\
    hex_run 8 a /\ hex_run 4 b /\ hex_run 4 c /\ hex_run 4 d /\ hex_run 12 e.

(** What was written to the standard error stream, in order. *)
Definition stderr_texts (t : list event) : list string :=
  omap (fun ev => match ev with EvStderr text => Some text | _ => None end) t.

(** The command that [retry_if_dpkg_locked] runs beside its decision. *)
Definition apt_get_probe : string := "which apt-get".

(** The identity that the watcher passes to [generate_MSI_token]. *)
Definition identity_of (l : locals) : string * string :=
  (identifier_name l, identifier_value l).

(** ** More of Python's strings *)

Module PyText.

(** [c.lower()] for an ASCII letter; other characters are left as they
    are. *)
Definition lower_char (c : ascii) : ascii :=
  let n := N_of_ascii c in
  if (65 <=? n)%N && (n <=? 90)%N then ascii_of_N (n + 32) else c.

(** [s.lower()] *)
Fixpoint lower (s : string) : string :=
  match s with
  | EmptyString => EmptyString
  | String c s' => String (lower_char c) (lower s')
  end.

(** [s.split(sep)] for a [sep] that is not empty, as its first piece and
    the pieces after it.  [skip] counts the characters of an occurrence of
    [sep] that are still to be passed over. *)
Fixpoint split_go (sep : string) (skip : nat) (s : string)
  : string * list string :=
  match s with
  | EmptyString => (EmptyString, [])
  | String c s' =>
      match skip with
      | S k => split_go sep k s'
      | O =>
          if String.prefix sep s
          then let '(piece, pieces) :=
                 split_go sep (String.length sep - 1) s' in
               (EmptyString, piece :: pieces)
          else let '(piece, pieces) := split_go sep 0 s' in
               (String c piece, pieces)
      end
  end.

Definition split (sep s : string) : list string :=
  let '(piece, pieces) := split_go sep 0 s in piece :: pieces.

(** [s.replace(c, '')] for a single character [c] *)
Fixpoint remove (c : ascii) (s : string) : string :=
  match s with
  | EmptyString => EmptyString
  | String d s' => if Ascii.eqb d c then remove c s' else String d (remove c s')
  end.

(** The lines of a text file, each with its newline, as the iteration on
    the file and [readlines] give them. *)
Fixpoint readlines_go (s : string) : string * list string :=
  match s with
  | EmptyString => (EmptyString, [])
  | String c s' =>
      let '(line, lines) := readlines_go s' in
      if Ascii.eqb c "010"%char
      then (String c EmptyString,
            if String.eqb line "" then lines else line :: lines)
      else (String c line, lines)
  end.

Definition readlines (s : string) : list string :=
  let '(line, lines) := readlines_go s in
  if String.eqb line "" then lines else line :: lines.

End PyText.

(** ** The operation asked of [main] *)

(** The class [[-/]] *)
Definition is_dash_or_slash (c : ascii) : bool :=
  match c with
  | "-" | "/" => true
  | _ => false
  end%char.

(** [re.match] of [arg] with the pattern of [main] for [word]: from the
    start of [arg], any number of characters of the class [[-/]], then
    the word; what follows the word is free. *)
Fixpoint re_match_operation (word arg : string) : bool :=
  String.prefix word arg ||
  match arg with
  | String c rest => is_dash_or_slash c && re_match_operation word rest
  | EmptyString => false
  end.

(** The chain of [re.match] tests on [sys.argv[1]]. *)
Definition operation_of_option (arg : string) : option string :=
  if re_match_operation "disable" arg then Some "Disable"
  else if re_match_operation "uninstall" arg then Some "Uninstall"
  else if re_match_operation "install" arg then Some "Install"
  else if re_match_operation "enable" arg then Some "Enable"
  else if re_match_operation "update" arg then Some "Update"
  else if re_match_operation "metrics" arg then Some "Metrics"
  else if re_match_operation "arc" arg then Some "Arc"
  else None.

(** [operation] as [main] determines it from [sys.argv]; without a first
    argument the [IndexError] is caught and [operation] stays [None]. *)
Definition main_operation (argv : list string) : option string :=
  match argv !! 1%nat with
  | Some arg => operation_of_option arg
  | None => None
  end.

(** The words that [main] looks for, with the operation of each. *)
Definition operation_words : list (string * string) :=
  [("disable", "Disable"); ("uninstall", "Uninstall");
   ("install", "Install"); ("enable", "Enable"); ("update", "Update");
   ("metrics", "Metrics"); ("arc", "Arc")].

(** The keys of the dictionary [operations]. *)
Definition operations_keys : list string :=
  ["Disable"; "Uninstall"; "Install"; "Enable"; "Update"; "Metrics"].

(** ** Supported distributions *)

Definition UnsupportedOperatingSystem : Z := 51.
Definition IndeterminateOperatingSystem : Z := 51.
Definition MissingorInvalidParameterErrorCode : Z := 53.

(** [supported_dists] of [is_vm_supported_for_extension], in the order of
    its keys. *)
Definition supported_dists : list (string * list string) :=
  [("redhat", ["6"; "7"; "8"]);
   ("centos", ["6"; "7"; "8"]);
   ("red hat", ["6"; "7"; "8"]);
   ("oracle", ["6"; "7"; "8"]);
   ("debian", ["8"; "9"; "10"]);
   ("ubuntu", ["14.04"; "16.04"; "18.04"; "20.04"]);
   ("suse", ["12"]);
   ("sles", ["15"]);
   ("cbl-mariner", ["1"])].

(** The loop on [enumerate(supported_ver_split)], from index [idx]: the
    value of [vm_ver_match] when it ends.  A missing component of the
    version of the VM is the [IndexError] that the loop catches; a
    component that is no number is a [ValueError], which it does not. *)
Fixpoint vm_ver_match (idx : nat) (supported_ver_split vm_ver_split : list string)
  : outcome bool :=
  match supported_ver_split with
  | [] => Ok true
  | supported_ver_num :: rest =>
      match py_int (PyString supported_ver_num) with
      | Raise e => Raise e
      | Ok supported_ver_num =>
          match vm_ver_split !! idx with
          | None => Ok false
          | Some vm_ver_num =>
              match py_int (PyString vm_ver_num) with
              | Raise e => Raise e
              | Ok vm_ver_num =>
                  if negb (vm_ver_num =? supported_ver_num) then Ok false
                  else vm_ver_match (S idx) rest vm_ver_split
              end
          end
      end
  end.

(** The loop on the supported versions of one distribution: is one of
    them matched? *)
Fixpoint any_ver_match (supported_vers : list string) (vm_ver_split : list string)
  : outcome bool :=
  match supported_vers with
  | [] => Ok false
  | supported_ver :: rest =>
      let supported_ver_split := PyText.split "." supported_ver in
      match vm_ver_match 0 supported_ver_split vm_ver_split with
      | Raise e => Raise e
      | Ok true => Ok true
      | Ok false => any_ver_match rest vm_ver_split
      end
  end.

(** The loop on the supported distributions: the value of [vm_supported]
    when it ends. *)
Fixpoint vm_supported_among (dists : list (string * list string))
    (vm_dist vm_ver : string) : outcome bool :=
  match dists with
  | [] => Ok false
  | (supported_dist, supported_vers) :: rest =>
      if negb (String.prefix supported_dist (PyText.lower vm_dist))
      then vm_supported_among rest vm_dist vm_ver
      else
        let vm_ver_split := PyText.split "." vm_ver in
        match any_ver_match supported_vers vm_ver_split with
        | Raise e => Raise e
        | Ok true => Ok true
        | Ok false => vm_supported_among rest vm_dist vm_ver
        end
  end.

(** [is_vm_supported_for_extension] once [find_vm_distro] has answered
    [vm_dist] and [vm_ver]. *)
Definition is_vm_supported_for_extension (vm_dist vm_ver : string)
  : outcome (bool * string * string) :=
  match vm_supported_among supported_dists vm_dist vm_ver with
  | Ok vm_supported => Ok (vm_supported, vm_dist, vm_ver)
  | Raise e => Raise e
  end.

(** The numbers of a version, when all its components are numbers. *)
Definition version_numbers (ver : string) : option (list Z) :=
  mapM PyInt.of_string (PyText.split "." ver).

(** ** The package manager *)

Definition BundleFileNameDeb : string := "azuremonitoragent.deb".
Definition BundleFileNameRpm : string := "azuremonitoragent.rpm".

(** The globals that [find_package_manager] assigns. *)
Record package_globals := PackageGlobals {
  PackageManager : string;
  PackageManagerOptions : string;
  BundleFileName : string;
}.

(** Their values when the module is loaded. *)
Definition no_package_manager : package_globals := PackageGlobals "" "" "".

Definition dpkg_set : list string := ["debian"; "ubuntu"].
Definition rpm_set : list string :=
  ["oracle"; "redhat"; "centos"; "red hat"; "suse"; "sles"; "cbl-mariner"].

(** The two loops of [find_package_manager].  Each assigns the same values
    whichever element of its set matches first, so the order in which
    Python iterates the set does not show. *)
Definition find_package_manager_loops (dist : string) (g : package_globals)
  : package_globals :=
  let g :=
    if existsb (fun dpkg_dist => String.prefix dpkg_dist (PyText.lower dist))
         dpkg_set
    then PackageGlobals "dpkg" "--force-overwrite --force-confnew"
           BundleFileNameDeb
    else g in
  if existsb (fun rpm_dist => String.prefix rpm_dist (PyText.lower dist))
       rpm_set
  then PackageGlobals "rpm" "--force" BundleFileNameRpm
  else g.

(** [arg] without the characters of the class [[-/]] that it starts with. *)
Fixpoint drop_dashes (arg : string) : string :=
  match arg with
  | String c rest => if is_dash_or_slash c then drop_dashes rest else arg
  | EmptyString => EmptyString
  end.

(** A character of ASCII.  On a text of such characters [PyInt.of_string]
    is [int]: the digits and the spaces that [int] knows beyond them are
    not among them. *)
Definition is_ascii (c : ascii) : bool := (nat_of_ascii c <? 128)%nat.

(** A distribution of the table: its first version starts with a number. *)
Definition first_version_numeric (dv : string * list string) : Prop :=
  exists ver vers c cs m,
    dv.2 = ver :: vers /\ PyText.split "." ver = c :: cs /\
    PyInt.of_string c = Some m.

(** ** The distribution of the VM, from /etc/os-release *)

Definition dquote_char : ascii := "034"%char.
Definition newline_char : ascii := "010"%char.

(** The body of the loop of [find_vm_distro] on the lines of
    /etc/os-release, on [vm_dist] and [vm_ver].  [None] stands for the
    [IndexError] of a piece that is not there. *)
Definition os_release_line (line : string)
    (fields : option string * option string)
  : option (option string * option string) :=
  let '(vm_dist, vm_ver) := fields in
  if String.prefix "ID=" line then
    vm_dist ← PyText.split "=" line !! 1%nat;
    vm_dist ← PyText.split "-" vm_dist !! 0%nat;
    let vm_dist :=
      PyText.remove newline_char (PyText.remove dquote_char vm_dist) in
    Some (Some vm_dist, vm_ver)
  else if String.prefix "VERSION_ID=" line then
    vm_ver ← PyText.split "=" line !! 1%nat;
    let vm_ver :=
      PyText.remove newline_char (PyText.remove dquote_char vm_ver) in
    Some (vm_dist, Some vm_ver)
  else Some fields.

(** The loop itself. *)
Fixpoint os_release_fields (lines : list string)
    (fields : option string * option string)
  : option (option string * option string) :=
  match lines with
  | [] => Some fields
  | line :: rest =>
      fields ← os_release_line line fields;
      os_release_fields rest fields
  end.

(** The text of [s] before its first [c], or all of [s]. *)
Fixpoint before_char (c : ascii) (s : string) : string :=
  match s with
  | EmptyString => EmptyString
  | String d s' => if Ascii.eqb d c then EmptyString else String d (before_char c s')
  end.

(** [c] does not occur in [s]. *)
Definition without (c : ascii) (s : string) : bool :=
  all_chars (fun d => negb (Ascii.eqb d c)) s.

(** A line of /etc/os-release for [key], with or without quotes. *)
Definition os_release_entry (key value : string) (quoted : bool) : string :=
  key +:+ "=" +:+
  (if quoted then PyStr.dquote +:+ value +:+ PyStr.dquote else value) +:+
  PyStr.newline.

(** A line that the loop passes over. *)
Definition other_entry (line : string) : Prop :=
  String.prefix "ID=" line = false /\ String.prefix "VERSION_ID=" line = false.

(** ** More of the host

    What the functions below ask of the operating system.  [sys_statvfs]
    answers [f_bavail] and [f_frsize]; [sys_system] is [os.system] and
    answers the exit status. *)
Class System (W : Type) := {
  sys_statvfs : string -> W -> outcome (Z * Z) * W;
  sys_system : string -> W -> Z * W;
  sys_print : string -> W -> W;
}.

Section DiskSpace.
Context {W St : Type} `{System W} `{HasWorld W St}.

Definition get_free_space_mb (dirname : string) : M St Z :=
  let* st := ask (sys_statvfs dirname) in
  match st with
  | Ok (f_bavail, f_frsize) => ret ((f_bavail * f_frsize) / (1024 * 1024))
  | Raise e => raise e
  end.

Definition check_disk_space_availability : M St Z :=
  try_except
    (let* var := get_free_space_mb "/var" in
     if var <? 500 then ret 52
     else
       let* etc := get_free_space_mb "/etc" in
       if etc <? 500 then ret 52
       else
         let* opt := get_free_space_mb "/opt" in
         if opt <? 500 then ret 52 else ret 0)
    [(fun _ => true,
      fun _ => do tell (sys_print "Failed to check disk usage.") then ret 0)].

End DiskSpace.

(** ** The IMDS endpoint *)

Definition azure_imds_endpoint : string :=
  "http://169.254.169.254/metadata/instance?api-version=2018-10-01".

Definition endpoint_filepath : string :=
  "/lib/systemd/system.conf.d/azcmagent.conf".

Definition imds_endpoint_marker : string := PyStr.dquote +:+ "IMDS_ENDPOINT=".
Definition imds_endpoint_end : string := PyStr.dquote +:+ PyStr.newline.

(** The two splits of [get_arc_endpoint] on the text of the file; [None]
    stands for the [IndexError] of a piece that is not there. *)
Definition arc_endpoint_in (data : string) : option string :=
  piece ← PyText.split imds_endpoint_marker data !! 1%nat;
  PyText.split imds_endpoint_end piece !! 0%nat.

Section Imds.
Context {W St : Type} `{Host W} `{System W} `{HasWorld W St}.

Definition is_arc_installed : M St bool :=
  let* check_arc := ask (sys_system "systemctl status himdsd 1>/dev/null 2>&1") in
  ret (check_arc =? 0).

(** The [try] of [get_arc_endpoint] has a bare [except]: whatever is
    raised in it, by the file or by the splits, the error is logged and
    the endpoint stays empty. *)
Definition get_arc_endpoint : M St string :=
  let endpoint := "" in
  let* data := ask (host_read endpoint_filepath) in
  match data with
  | Ok data =>
      match arc_endpoint_in data with
      | Some endpoint => ret endpoint
      | None =>
          do hutil_log_error
               ("Unable to load Arc IMDS endpoint from " +:+ endpoint_filepath) then
          ret endpoint
      end
  | Raise _ =>
      do hutil_log_error
           ("Unable to load Arc IMDS endpoint from " +:+ endpoint_filepath) then
      ret endpoint
  end.

Definition get_imds_endpoint : M St string :=
  let* arc := is_arc_installed in
  let* imds_endpoint :=
    if arc then
      do hutil_log_info "Arc is installed, loading Arc-specific IMDS endpoint" then
      let* imds_endpoint := get_arc_endpoint in
      if negb (String.eqb imds_endpoint "")
      then ret (imds_endpoint +:+ "/metadata/instance?api-version=2019-08-15")
      else
        let imds_endpoint := azure_imds_endpoint in
        do hutil_log_info "Falling back to default Azure IMDS endpoint" then
        ret imds_endpoint
    else ret azure_imds_endpoint in
  do hutil_log_info ("Using IMDS endpoint " +:+ PyStr.dquote +:+ imds_endpoint
                     +:+ PyStr.dquote) then
  ret imds_endpoint.

End Imds.

(** The line of azcmagent.conf that sets the endpoint to [url]. *)
Definition arc_endpoint_setting (url : string) : string :=
  imds_endpoint_marker +:+ url +:+ imds_endpoint_end.

(** The operating system of the simulated host: every directory has room,
    and [systemctl status himdsd] succeeds. *)
Definition sim_system : System sim := {|
  sys_statvfs _ w := (Ok (1000000, 4096), w);
  sys_system _ w := (0, w);
  sys_print _ w := w;
|}.

(** ** The latest settings file *)

Module PyPath.

(** [os.path.basename]: what follows the last [/]. *)
Fixpoint basename (p : string) : string :=
  match p with
  | EmptyString => EmptyString
  | String c p' =>
      if Ascii.eqb c "/"%char || PyStr.contains "/" p' then basename p' else p
  end.

Fixpoint ends_with_slash (a : string) : bool :=
  match a with
  | EmptyString => false
  | String c EmptyString => Ascii.eqb c "/"%char
  | String _ a' => ends_with_slash a'
  end.

(** [os.path.join(a, b)] *)
Definition join (a b : string) : string :=
  if String.prefix "/" b then b
  else if String.eqb a "" || ends_with_slash a then a +:+ b
  else a +:+ "/" +:+ b.

End PyPath.

(** [re.match] of the pattern of [get_latest_seq_no]: from 1 to 10
    characters of the class [[0-9]], then [.settings]; what follows is
    free.  [seen] digits are read and [budget] more may be. *)
Fixpoint settings_re_go (budget seen : nat) (s : string) : bool :=
  ((1 <=? seen)%nat && String.prefix ".settings" s) ||
  match budget, s with
  | S budget', String c s' =>
      PyStr.is_digit c && settings_re_go budget' (S seen) s'
  | _, _ => false
  end.

Definition settings_re_match (file_basename : string) : bool :=
  settings_re_go 10 0 file_basename.

(** The body of the loop on the file names, on [latest_seq_no] and
    [latest_time].  [getmtime] answers [None] where [os.path.getmtime]
    raises; a time is a number, in any unit, for the code only compares
    times.  [None] as result stands for an exception in the body. *)
Definition scan_file (config_dir : string) (getmtime : string -> option Z)
    (file_name : string) (latest : Z * option Z) : option (Z * option Z) :=
  let '(latest_seq_no, latest_time) := latest in
  let file_basename := PyPath.basename file_name in
  if negb (settings_re_match file_basename) then Some latest
  else
    part ← PyText.split "." file_basename !! 0%nat;
    cur_seq_no ← PyInt.of_string part;
    let file_path := PyPath.join config_dir file_name in
    cur_time ← getmtime file_path;
    if match latest_time with
       | None => true
       | Some latest_time => latest_time <? cur_time
       end
    then Some (cur_seq_no, Some cur_time)
    else Some latest.

(** The loop, inside its [try]: an exception ends it, and [except: pass]
    keeps what was found before. *)
Fixpoint scan_files (config_dir : string) (getmtime : string -> option Z)
    (file_names : list string) (latest : Z * option Z) : Z * option Z :=
  match file_names with
  | [] => latest
  | file_name :: rest =>
      match scan_file config_dir getmtime file_name latest with
      | Some latest => scan_files config_dir getmtime rest latest
      | None => latest
      end
  end.

(** The file names of [os.walk], in its order. *)
Definition walk_file_names (walk : list (string * list string * list string))
  : list string :=
  flat_map (fun '(dir_name, sub_dirs, file_names) => file_names) walk.

(** [latest_seq_no] as [get_latest_seq_no] computes it when nothing is
    cached, from the walk of [config_dir]. *)
Definition latest_seq_no_in (config_dir : string)
    (walk : list (string * list string * list string))
    (getmtime : string -> option Z) : Z :=
  let latest_seq_no := -1 in
  let latest_time := None in
  let '(latest_seq_no, _) :=
    scan_files config_dir getmtime (walk_file_names walk)
      (latest_seq_no, latest_time) in
  if latest_seq_no <? 0 then 0 else latest_seq_no.

(** The name of a settings file, and its number. *)
Definition is_settings_file (file_name : string) : bool :=
  settings_re_match (PyPath.basename file_name).

Definition settings_number (file_name : string) : option Z :=
  part ← PyText.split "." (PyPath.basename file_name) !! 0%nat;
  PyInt.of_string part.

(** The number that a text of digits writes in base ten. *)
Fixpoint decimal_from (acc : Z) (digits : string) : Z :=
  match digits with
  | EmptyString => acc
  | String c digits' =>
      decimal_from (10 * acc + Z.of_nat (nat_of_ascii c - 48)) digits'
  end.

Definition decimal (digits : string) : Z := decimal_from 0 digits.

(** The settings files among [names] all have the property [P] of their
    time. *)
Definition settings_times (config_dir : string)
    (getmtime : string -> option Z) (P : Z -> Prop) (names : list string)
  : Prop :=
  Forall (fun name =>
            is_settings_file name = true ->
            exists time,
              getmtime (PyPath.join config_dir name) = Some time /\ P time)
         names.

(** A configuration folder with three settings files, the second of them
    changed last. *)
Definition config_walk : list (string * list string * list string) :=
  [("/config", [], ["0.settings"; "2.settings"; "HandlerState"; "1.settings"])].

Definition config_times (path : string) : option Z :=
  if String.eqb path "/config/0.settings" then Some 100
  else if String.eqb path "/config/2.settings" then Some 300
  else if String.eqb path "/config/1.settings" then Some 200
  else None.

(** ** The file of defaults that [install] rewrites

    The part of [install] that builds the new text of
    /etc/default/azuremonitoragent from its lines and from
    [default_configs].  A dict is the list of its items in the order of
    insertion; its keys are distinct, and its values are the strings that
    the concatenations need. *)










(** [piece] is a part of [text]. *)
Definition occurs_in (piece text : string) : Prop :=
  exists before after, text = before +:+ piece +:+ after.



(** ** The operations of the extension

    [enable], [disable], [uninstall] and the functions they call end in
    more ways than the watcher: they return, they raise an exception of
    any class, or they leave the process through [sys.exit]. *)

Inductive failure :=
| Exception (cls msg : string)    (* a class that derives from Exception *)
| SystemExit (code : Z).          (* sys.exit(code) *)


Definition class_name (c : exn_class) : string :=
  match c with
  | IOError => "IOError"
  | ValueError => "ValueError"
  | TypeError => "TypeError"
  | UnboundLocalError => "UnboundLocalError"
  | OverflowError => "OverflowError"
  end.

Definition failure_of (e : pyexn) : failure :=
  Exception (class_name (exn_cls e)) (exn_str e).

Inductive result (A : Type) :=
| Returns (a : A)
| Fails (f : failure).
Arguments Returns {A} a.
Arguments Fails {A} f.

Definition Op (St A : Type) : Type := St -> result A * St * list event.

Section OpMonad.
Context {St : Type}.

Definition op_ret {A} (a : A) : Op St A := fun s => (Returns a, s, []).

Definition op_bind {A B} (m : Op St A) (k : A -> Op St B) : Op St B :=
  fun s =>
    match m s with
    | (Returns a, s1, t1) =>
        match k a s1 with
        | (r, s2, t2) => (r, s2, t1 ++ t2)
        end
    | (Fails f, s1, t1) => (Fails f, s1, t1)
    end.

Definition op_fail {A} (f : failure) : Op St A := fun s => (Fails f, s, []).

(** A computation of the first part, among the operations. *)
Definition lift {A} (m : M St A) : Op St A :=
  fun s =>
    match m s with
    | (Ok a, s1, t1) => (Returns a, s1, t1)
    | (Raise e, s1, t1) => (Fails (failure_of e), s1, t1)
    end.


End OpMonad.

Notation "'let+' x ':=' m 'in' k" := (op_bind m (fun x => k))
  (at level 10, x name, m at level 100, k at level 200,
   format "'[v' 'let+'  x  :=  m  'in' '/' k ']'").
Notation "'let+' ' pat ':=' m 'in' k" := (op_bind m (fun pat => k))
  (at level 10, pat pattern, m at level 100, k at level 200, only parsing).
Notation "'do+' m 'then' k" := (op_bind m (fun _ => k))
  (at level 10, m at level 100, k at level 200, only parsing).

(** What the operations ask of the machine beside the commands, the
    files and the services: the platform module, the paths, the process
    of the watcher, the handler utility [HUtilObject] when there is one,
    the log of waagent and the status file.  [platform_linux_distribution]
    and [platform_dist] answer [None] for the [AttributeError] of a Python
    that has them no more.  [hutil_do_exit] reports the status;
    [HandlerUtil.do_exit] then leaves through [sys.exit(exit_code)], which
    [log_and_exit] below carries out. *)
Class Machine (W : Type) := {
  platform_linux_distribution : W -> option (string * string * string) * W;
  platform_dist : W -> option (string * string * string) * W;
  os_getcwd : W -> string;
  os_path_exists : string -> W -> bool * W;
  os_path_isdir : string -> W -> bool * W;
  open_for_writing : string -> W -> option pyexn * W;
  subprocess_Popen : list string -> W -> option pyexn * W;
  sys_executable : W -> string;
  str_of_list : list string -> string;
  format_exc : failure -> string;
  hutil_is_seq_smaller : W -> bool * W;
  hutil_seq_no : W -> string;
  hutil_save_seq : W -> W;
  hutil_do_exit : Z -> string -> string -> string -> string -> W -> W;
  hutil_get_public_settings : W -> option (list (string * json)) * W;
  settings_from_files : W -> result (option (list (string * json))) * W;
  waagent_log : string -> W -> W;
  waagent_error : string -> W -> W;
  host_update_status_file :
    string -> string -> string -> string -> W -> option failure * W;
}.

(** The state of the process: the machine, and the globals of the module
    that the operations read and assign.  [HUtilObject] tells whether
    there is a handler utility. *)
Record process (W : Type) := Process {
  machine : W;
  HUtilObject : bool;
  package : package_globals;
}.
Arguments Process {W} machine HUtilObject package.
Arguments machine {W} p.
Arguments HUtilObject {W} p.
Arguments package {W} p.

Global Instance process_has_world (W : Type) : HasWorld W (process W) :=
  {| world_of := machine;
     with_world w p := Process w (HUtilObject p) (package p) |}.

(** [s.strip("\n")] *)
Fixpoint lstrip_newlines (s : string) : string :=
  match s with
  | String c s' => if Ascii.eqb c newline_char then lstrip_newlines s' else s
  | EmptyString => EmptyString
  end.

Definition strip_newlines (s : string) : string :=
  String.rev (lstrip_newlines (String.rev (lstrip_newlines s))).

(** [str(v)] for a string or [None] *)
Definition str_of_optional (v : option string) : string :=
  match v with
  | Some s => s
  | None => "None"
  end.

(** [not v] for a string or [None] *)
Definition is_falsy (v : option string) : bool :=
  match v with
  | Some s => String.eqb s ""
  | None => true
  end.

(** [d.get(key) == True] for a value of JSON: [True], and the number 1,
    which Python holds equal to it. *)
Fixpoint json_get (members : list (string * json)) (key : string)
  : option json :=
  match members with
  | [] => None
  | (k, v) :: rest => if String.eqb k key then Some v else json_get rest key
  end.

Definition equals_True (v : option json) : bool :=
  match v with
  | Some (JBool true) => true
  | Some (JNumber 1) => true
  | _ => false
  end.

Section Operations.
Context {W : Type} `{Host W} `{Machine W}.

Local Abbreviation OP := (Op (process W)).

Definition waagent_log_info (message : string) : OP unit :=
  lift (tell (waagent_log message)).

Definition waagent_log_error (message : string) : OP unit :=
  lift (tell (waagent_error message)).

(** [log_and_exit]: it logs, reports the status, and leaves the process;
    it returns to no caller. *)
Definition log_and_exit {A} (operation : string) (exit_code : Z)
    (message : string) : OP A :=
  let+ exit_status :=
    if exit_code =? 0 then
      do+ waagent_log_info message then
      do+ lift (hutil_log_info message) then
      op_ret "success"
    else
      do+ waagent_log_error message then
      do+ lift (hutil_log_error message) then
      op_ret "failed" in
  let+ s := lift get in
  if HUtilObject s then
    do+ lift (tell (hutil_do_exit exit_code operation exit_status
                      (pretty exit_code) message)) then
    op_fail (SystemExit exit_code)
  else
    let+ failed :=
      lift (ask (host_update_status_file operation (pretty exit_code)
                   exit_status message)) in
    match failed with
    | Some f => op_fail f
    | None => op_fail (SystemExit exit_code)
    end.

(** [find_vm_distro].  The [int] of its second [try] is
    [PyInt.of_string]: the version is taken to be written in ASCII. *)
Definition find_vm_distro (operation : string)
  : OP (option string * option string) :=
  let+ answer := lift (ask platform_linux_distribution) in
  let+ '(vm_dist, vm_ver) :=
    match answer with
    | Some (vm_dist, vm_ver, vm_id) => op_ret (Some vm_dist, Some vm_ver)
    | None =>
        let+ answer := lift (ask platform_dist) in
        match answer with
        | Some (vm_dist, vm_ver, vm_id) => op_ret (Some vm_dist, Some vm_ver)
        | None =>
            do+ lift (hutil_log_info
                        "Falling back to /etc/os-release distribution parsing") then
            op_ret (None, None)
        end
    end in
  (* try: temp_vm_ver = int(vm_ver.split('.')[0])  except: parse_manually = True *)
  let parse_manually :=
    match vm_ver with
    | Some vm_ver =>
        match part ← PyText.split "." vm_ver !! 0%nat; PyInt.of_string part with
        | Some _ => false
        | None => true
        end
    | None => true
    end in
  if (is_falsy vm_dist && is_falsy vm_ver) || parse_manually then
    let+ content := lift (ask (host_read "/etc/os-release")) in
    match content with
    | Ok content =>
        match os_release_fields (PyText.readlines content) (vm_dist, vm_ver) with
        | Some fields => op_ret fields
        | None =>
            log_and_exit operation IndeterminateOperatingSystem
              "Indeterminate operating system"
        end
    | Raise _ =>
        log_and_exit operation IndeterminateOperatingSystem
          "Indeterminate operating system"
    end
  else op_ret (vm_dist, vm_ver).



(** [is_systemd] *)
Definition is_systemd : OP bool :=
  lift (ask (os_path_isdir "/run/systemd/system")).

(** [get_settings], as far as the public settings go. *)
Definition get_public_settings : OP (option (list (string * json))) :=
  let+ s := lift get in
  if HUtilObject s then lift (ask hutil_get_public_settings)
  else
    let+ answer := lift (ask settings_from_files) in
    match answer with
    | Returns public_settings => op_ret public_settings
    | Fails f => op_fail f
    end.

(** [get_service_name] *)
Definition get_service_name : OP string :=
  let+ public_settings := get_public_settings in
  match public_settings with
  | Some members =>
      if equals_True (json_get members "GCS_AUTO_CONFIG")
      then op_ret "azuremonitoragentmgr"
      else op_ret "azuremonitoragent"
  | None => op_ret "azuremonitoragent"
  end.

(** [if out: hutil_log_info(msg)  else: hutil_log_error(msg)] *)
Definition log_outcome (out : bool) (msg : string) : OP unit :=
  lift (if out then hutil_log_info msg else hutil_log_error msg).

(** The loop of [stop_metrics_process] on the lines of the pid file. *)
Fixpoint kill_watchers (pids : list string) : OP unit :=
  match pids with
  | [] => op_ret tt
  | pid :: rest =>
      let cmd_file :=
        PyPath.join (PyPath.join "/proc" (strip_newlines pid)) "cmdline" in
      let+ there := lift (ask (os_path_exists cmd_file)) in
      do+ (if there then
             let+ content := lift (ask (host_read cmd_file)) in
             match content with
             | Raise e => op_fail (failure_of e)
             | Ok content =>
                 match PyText.readlines content !! 0%nat with
                 | None =>
                     op_fail (Exception "IndexError" "list index out of range")
                 | Some first =>
                     if PyStr.contains "agent.py" first
                        && PyStr.contains "-metrics" first
                     then
                       let kill_cmd := "kill " +:+ pid in
                       do+ lift (run_command_and_log kill_cmd true true) then
                       op_ret tt
                     else op_ret tt
                 end
             end
           else op_ret tt) then
      kill_watchers rest
  end.

(** [stop_metrics_process] *)
Definition stop_metrics_process : OP unit :=
  let+ tel_running := lift (is_running Telegraf) in
  do+ (if tel_running then
         let+ '(tel_out, tel_msg) :=
           lift (call StopTelegrafService tel_stop_telegraf_service) in
         do+ log_outcome tel_out tel_msg then
         let+ '(tel_rm_out, tel_rm_msg) :=
           lift (call RemoveTelegrafService tel_remove_telegraf_service) in
         log_outcome tel_rm_out tel_rm_msg
       else op_ret tt) then
  let+ me_running := lift (is_running MetricsExtension) in
  do+ (if me_running then
         let+ '(me_out, me_msg) :=
           lift (call StopMetricsService me_stop_metrics_service) in
         do+ log_outcome me_out me_msg then
         let+ '(me_rm_out, me_rm_msg) :=
           lift (call RemoveMetricsService me_remove_metrics_service) in
         log_outcome me_rm_out me_rm_msg
       else op_ret tt) then
  let+ s := lift get in
  let pids_filepath := PyPath.join (os_getcwd (machine s)) "amametrics.pid" in
  let+ there := lift (ask (os_path_exists pids_filepath)) in
  if there then
    let+ content := lift (ask (host_read pids_filepath)) in
    match content with
    | Raise e => op_fail (failure_of e)
    | Ok content =>
        do+ kill_watchers (PyText.readlines content) then
        do+ lift (run_command_and_log ("rm " +:+ pids_filepath) true true) then
        op_ret tt
    end
  else op_ret tt.

(** [start_metrics_process] *)
Definition start_metrics_process : OP unit :=
  do+ stop_metrics_process then
  let+ s := lift get in
  let ama_path := PyPath.join (os_getcwd (machine s)) "agent.py" in
  let args := [sys_executable (machine s); ama_path; "-metrics"] in
  let+ opened :=
    lift (ask (open_for_writing
                 (PyPath.join (os_getcwd (machine s)) "daemon.log"))) in
  match opened with
  | Some e => op_fail (failure_of e)
  | None =>
      do+ lift (hutil_log_info ("start watcher process " +:+ str_of_list args)) then
      let+ started := lift (ask (subprocess_Popen args)) in
      match started with
      | Some e => op_fail (failure_of e)
      | None => op_ret tt
      end
  end.

(** The commands of [enable] and [disable] for [service_name]. *)
Definition systemctl_status (service_name : string) : string :=
  "systemctl status " +:+ service_name.
Definition initd_status (service_name : string) : string :=
  "/etc/init.d/" +:+ service_name +:+ " status".

(** The end of [enable] and [disable] when the command of the service
    failed: the status of the service is asked, and added to the output
    when that fails too. *)
Definition with_status (AMAServiceStatusCommand output : string)
  : OP string :=
  let+ '(status_exit_code, status_output) :=
    lift (run_command_and_log AMAServiceStatusCommand true true) in
  if negb (status_exit_code =? 0)
  then op_ret (output +:+ "Output of '" +:+ AMAServiceStatusCommand +:+ "':"
               +:+ PyStr.newline +:+ status_output)
  else op_ret output.

(** [disable] *)
Definition disable : OP (Z * string) :=
  do+ stop_metrics_process then
  let+ service_name := get_service_name in
  let AMAServiceStopCommand :=
    "systemctl stop " +:+ service_name +:+ " && systemctl disable " +:+
    service_name in
  let AMAServiceStatusCommand := systemctl_status service_name in
  let+ systemd := is_systemd in
  let+ '(AMAServiceStopCommand, AMAServiceStatusCommand) :=
    if negb systemd then
      do+ lift (hutil_log_info
                  ("The VM doesn't have systemctl. Using the init.d service to stop "
                   +:+ service_name +:+ ".")) then
      op_ret ("/etc/init.d/" +:+ service_name +:+ " stop",
              initd_status service_name)
    else op_ret (AMAServiceStopCommand, AMAServiceStatusCommand) in
  let+ '(exit_code, output) :=
    lift (run_command_and_log AMAServiceStopCommand true true) in
  let+ output :=
    if negb (exit_code =? 0)
    then with_status AMAServiceStatusCommand output
    else op_ret output in
  op_ret (exit_code, output).

End Operations.

Section MoreOperations.
Context {W : Type} `{Host W} `{Machine W}.

Local Abbreviation OP := (Op (process W)).

(** [is_vm_supported_for_extension(operation)]: the distribution is asked
    of [find_vm_distro]; a distribution or, for a distribution of the
    table, a version that is [None] has no [lower] and no [split]. *)
Definition is_vm_supported_for_extension_of (operation : string)
  : OP (bool * option string * option string) :=
  let+ '(vm_dist, vm_ver) := find_vm_distro operation in
  match vm_dist, vm_ver with
  | None, _ =>
      op_fail (Exception "AttributeError"
                 "'NoneType' object has no attribute 'lower'")
  | Some dist, None =>
      if existsb (fun dv => String.prefix dv.1 (PyText.lower dist))
           supported_dists
      then op_fail (Exception "AttributeError"
                      "'NoneType' object has no attribute 'split'")
      else op_ret (false, vm_dist, vm_ver)
  | Some dist, Some ver =>
      match is_vm_supported_for_extension dist ver with
      | Ok (vm_supported, _, _) => op_ret (vm_supported, vm_dist, vm_ver)
      | Raise e => op_fail (failure_of e)
      end
  end.

(** [exit_if_vm_not_supported] *)
Definition exit_if_vm_not_supported (operation : string) : OP Z :=
  let+ '(vm_supported, vm_dist, vm_ver) :=
    is_vm_supported_for_extension_of operation in
  do+ (if negb vm_supported
       then log_and_exit operation UnsupportedOperatingSystem
              ("Unsupported operating system: " +:+ str_of_optional vm_dist
               +:+ " " +:+ str_of_optional vm_ver)
       else op_ret tt) then
  op_ret 0.

(** [enable] *)
Definition enable : OP (Z * string) :=
  let+ s := lift get in
  let+ smaller :=
    if HUtilObject s then lift (ask hutil_is_seq_smaller) else op_ret false in
  if smaller then
    let+ s := lift get in
    let log_output :=
      "Current sequence number " +:+ hutil_seq_no (machine s) +:+
      " is not greater than the sequence number of the most recent executed configuration, skipping enable." in
    do+ lift (hutil_log_info log_output) then
    op_ret (0, log_output)
  else
    do+ exit_if_vm_not_supported "Enable" then
    let+ service_name := get_service_name in
    let AMAServiceStartCommand :=
      "systemctl start " +:+ service_name +:+ " && systemctl enable " +:+
      service_name in
    let AMAServiceStatusCommand := systemctl_status service_name in
    let+ systemd := is_systemd in
    let+ '(AMAServiceStartCommand, AMAServiceStatusCommand) :=
      if negb systemd then
        do+ lift (hutil_log_info
                    ("The VM doesn't have systemctl. Using the init.d service to start "
                     +:+ service_name +:+ ".")) then
        op_ret ("/etc/init.d/" +:+ service_name +:+ " start",
                initd_status service_name)
      else op_ret (AMAServiceStartCommand, AMAServiceStatusCommand) in
    do+ lift (hutil_log_info "Handler initiating onboarding.") then
    let+ '(exit_code, output) :=
      lift (run_command_and_log AMAServiceStartCommand true true) in
    if exit_code =? 0 then
      do+ start_metrics_process then
      let+ s := lift get in
      if HUtilObject s then
        do+ lift (tell hutil_save_seq) then
        op_ret (exit_code, output)
      else
        op_fail (Exception "AttributeError"
                   "'NoneType' object has no attribute 'save_seq'")
    else
      let+ output := with_status AMAServiceStatusCommand output in
      op_ret (exit_code, output).

End MoreOperations.

(** ** Reading the runs of the operations *)

(** A command that kills a process whose command line, as it was read,
    names [agent.py] and [-metrics]. *)
Definition kills_a_watcher {W : Type} `{Host W} (cmd : string) : Prop :=
  exists pid w content w' first,
    cmd = "kill " +:+ pid /\
    host_read (PyPath.join (PyPath.join "/proc" (strip_newlines pid))
                 "cmdline") w
    = (Ok content, w') /\
    PyText.readlines content !! 0%nat = Some first /\
    PyStr.contains "agent.py" first = true /\
    PyStr.contains "-metrics" first = true.

(** What was asked of the two services, in order: whether they run, and
    the calls of their handlers. *)
Definition is_service_event (ev : event) : bool :=
  match ev with
  | EvLiveness _ _ | EvCall _ => true
  | _ => false
  end.

Definition services (t : list event) : list event :=
  filter (fun ev => is_service_event ev = true) t.

(** The commands of [disable] and [enable] for a service. *)
Definition systemctl_stop (service_name : string) : string :=
  "systemctl stop " +:+ service_name +:+ " && systemctl disable " +:+
  service_name.
Definition initd_stop (service_name : string) : string :=
  "/etc/init.d/" +:+ service_name +:+ " stop".
Definition systemctl_start (service_name : string) : string :=
  "systemctl start " +:+ service_name +:+ " && systemctl enable " +:+
  service_name.
Definition initd_start (service_name : string) : string :=
  "/etc/init.d/" +:+ service_name +:+ " start".

(** The line that [disable] and [enable] log on a VM without systemd. *)
Definition initd_note (systemd : bool) (action service_name : string)
  : list event :=
  if systemd then []
  else [EvLogInfo ("The VM doesn't have systemctl. Using the init.d service to "
                   +:+ action +:+ " " +:+ service_name +:+ ".")].

(** The output of [disable] and [enable] after the status was asked. *)
Definition output_with_status (output status_command : string)
    (status_exit_code : Z) (status_output : string) : string :=
  if status_exit_code =? 0 then output
  else output +:+ "Output of '" +:+ status_command +:+ "':" +:+ PyStr.newline
       +:+ status_output.


(** ** A simulated machine

    The rest of the machine for the simulated host: an Ubuntu 20.04 with
    systemd, no pid file, and a settings file without public settings. *)
Definition sim_machine : Machine sim := {|
  platform_linux_distribution w := (Some ("Ubuntu", "20.04", "focal"), w);
  platform_dist w := (None, w);
  os_getcwd _ := "/var/lib/waagent/ama";
  os_path_exists _ w := (false, w);
  os_path_isdir _ w := (true, w);
  open_for_writing _ w := (None, w);
  subprocess_Popen _ w := (None, w);
  sys_executable _ := "/usr/bin/python3";
  str_of_list args := "[" +:+ String.concat ", " args +:+ "]";
  format_exc _ := "";
  hutil_is_seq_smaller w := (false, w);
  hutil_seq_no _ := "0";
  hutil_save_seq w := w;
  hutil_do_exit _ _ _ _ _ w := w;
  hutil_get_public_settings w := (None, w);
  settings_from_files w := (Returns None, w);
  waagent_log _ w := w;
  waagent_error _ w := w;
  host_update_status_file _ _ _ _ w := (None, w);
|}.

(** The process when the module is loaded and no handler utility could
    be made. *)
Definition sim_process_without_hutil : process sim :=
  Process sim_idle false no_package_manager.

(** ** [get_managed_identity] on settings of any shape

    [get_settings] hands [get_managed_identity] what [json.loads] made of
    the settings: [None], or as a rule a dict, whose values can be any
    value of JSON.  Below is [get_managed_identity] on such a value, with
    what Python does at each type: [in] tests the keys of a dict, the
    items of a list and the substrings of a string, and raises [TypeError]
    on [None], a number or a boolean; [get] is there on a dict only.
    [JNull] is [None]; the members of a [JObject] are the items of a dict,
    with distinct keys. *)

Global Instance result_ret : MRet result := fun A a => Returns a.
Global Instance result_bind : MBind result := fun A B f m =>
  match m with
  | Returns a => f a
  | Fails e => Fails e
  end.

Module Untyped.

Definition type_name (v : json) : string :=
  match v with
  | JNull => "NoneType"
  | JBool _ => "bool"
  | JNumber _ => "int"
  | JString _ => "str"
  | JArray _ => "list"
  | JObject _ => "dict"
  end.

(** [key in v] *)
Definition py_in (key : string) (v : json) : result bool :=
  match v with
  | JObject members =>
      Returns (match json_get members key with Some _ => true | None => false end)
  | JArray items =>
      Returns (existsb (fun item => match item with
                                    | JString s => String.eqb s key
                                    | _ => false
                                    end) items)
  | JString s => Returns (PyStr.contains key s)
  | _ =>
      Fails (Exception "TypeError"
               ("argument of type '" +:+ type_name v +:+ "' is not iterable"))
  end.

(** [v.get(key)] *)
Definition py_get (v : json) (key : string) : result json :=
  match v with
  | JObject members =>
      Returns (match json_get members key with Some x => x | None => JNull end)
  | _ =>
      Fails (Exception "AttributeError"
               ("'" +:+ type_name v +:+ "' object has no attribute 'get'"))
  end.

(** [if v:] *)
Definition truthy (v : json) : bool :=
  match v with
  | JNull => false
  | JBool b => b
  | JNumber n => negb (n =? 0)
  | JString s => negb (String.eqb s "")
  | JArray items => match items with [] => false | _ => true end
  | JObject members => match members with [] => false | _ => true end
  end.

(** [v in names], for a list of strings *)
Definition is_one_of (v : json) (names : list string) : bool :=
  match v with
  | JString s => bool_decide (s ∈ names)
  | _ => false
  end.

(** [guid_re.search(v)], as a truth value *)
Definition guid_re_search (v : json) : result bool :=
  match v with
  | JString s => Returns (Guid.search s)
  | _ => Fails (Exception "TypeError" "expected string or bytes-like object")
  end.

Definition get_managed_identity (public_settings : json)
  : result (json * json * string) :=
  let identifier_name := JString "" in
  let identifier_value := JString "" in
  specified ←
    match public_settings with
    | JNull => Returns false
    | _ =>
        has_authentication ← py_in "authentication" public_settings;
        if has_authentication : bool then
          authentication ← py_get public_settings "authentication";
          py_in "managedIdentity" authentication
        else Returns false
    end;
  if specified : bool then
    authentication ← py_get public_settings "authentication";
    managedIdentity ← py_get authentication "managedIdentity";
    has_name ← py_in "identifier-name" managedIdentity;
    missing ←
      (if negb has_name then Returns true
       else has_value ← py_in "identifier-value" managedIdentity;
            Returns (negb has_value));
    if missing : bool then
      Returns
        (identifier_name, identifier_value,
         "Parameters " +:+ PyStr.dquote +:+ "identifier-name" +:+
         PyStr.dquote +:+ " and " +:+ PyStr.dquote +:+ "identifier-value" +:+
         PyStr.dquote +:+
         " are both required in authentication.managedIdentity public setting")
    else
      identifier_name ← py_get managedIdentity "identifier-name";
      identifier_value ← py_get managedIdentity "identifier-value";
      if negb (is_one_of identifier_name valid_identifier_names) then
        Returns
          (identifier_name, identifier_value,
           "Invalid identifier-name provided; must be " +:+
           PyStr.dquote +:+ "object_id" +:+ PyStr.dquote +:+ ", " +:+
           PyStr.dquote +:+ "client_id" +:+ PyStr.dquote +:+ ", or " +:+
           PyStr.dquote +:+ "mi_res_id" +:+ PyStr.dquote)
      else if negb (truthy identifier_value) then
        Returns (identifier_name, identifier_value,
                 "Invalid identifier-value provided; cannot be empty")
      else
        match identifier_name with
        | JString name =>
            if bool_decide (name ∈ ["object_id"; "client_id"]) then
              found ← guid_re_search identifier_value;
              if negb found then
                Returns (identifier_name, identifier_value,
                         "Invalid identifier-value provided for " +:+ name
                         +:+ "; must be a GUID")
              else Returns (identifier_name, identifier_value, "")
            else Returns (identifier_name, identifier_value, "")
        | _ => Returns (identifier_name, identifier_value, "")
        end
  else Returns (identifier_name, identifier_value, "").

End Untyped.

(** The settings of the first part, as [json.loads] gives them. *)
Definition strings_json (items : list (string * string))
  : list (string * json) :=
  (fun kv => (kv.1, JString kv.2)) <$> items.

Definition settings_json (public_settings : option public_settings_t) : json :=
  match public_settings with
  | None => JNull
  | Some ps =>
      JObject
        match authentication ps with
        | None => []
        | Some auth =>
            [("authentication",
              JObject
                match managedIdentity auth with
                | None => []
                | Some mi =>
                    [("managedIdentity",
                      JObject (strings_json (map_to_list mi)))]
                end)]
        end
  end.

(** ** Words to state what [get_managed_identity] decides *)






(** * Proofs *)

(** ** Traces *)

Lemma sleeps_app t1 t2 : sleeps (t1 ++ t2) = sleeps t1 ++ sleeps t2.
Proof. apply omap_app. Qed.

Lemma commands_app t1 t2 : commands (t1 ++ t2) = commands t1 ++ commands t2.
Proof. apply omap_app. Qed.


Section CommandProofs.
Context {W St : Type} `{Host W} `{HasWorld W St}.

(** What [run_command_and_log] returns, from what the host answers. *)
Lemma run_command_and_log_result cmd check_error log_cmd (s : St) :
  exists s' t,
    let '(exit_code, output) :=
      (host_run_get_output cmd check_error log_cmd (world_of s)).1 in
    (run_command_and_log cmd check_error log_cmd s
       = (Ok (if PyStr.contains "Permission denied" output
              then 52 else exit_code, output), s', t)
     \/ (exit_code <> 0 /\
         run_command_and_log cmd check_error log_cmd s
           = (Ok (exit_code, output), s', t))) /\
    commands t = [cmd] /\ sleeps t = [].
Proof.
  unfold run_command_and_log, run_get_output, bind, ask, emit,
    try_except, stderr_write, hutil_log_info, ret, raise, bind, ask, emit.
  destruct (host_run_get_output _ _ _ _) as [[exit_code output] w1]; simpl.
  destruct log_cmd; simpl.
  all: destruct (exit_code =? 0) eqn:Hz; simpl.
  all: try (destruct (host_stderr_write _ _) as [[e|] w2]; simpl).
  all: destruct (PyStr.contains _ output); simpl.
  all: eexists _, _; split; [first [by left | right; split; [lia | done]] | done].
Qed.


Lemma run_command_and_log_ok cmd check_error log_cmd (s : St) :
  exists r s' t,
    run_command_and_log cmd check_error log_cmd s = (Ok r, s', t) /\
    commands t = [cmd] /\ sleeps t = [].
Proof.
  destruct (run_command_and_log_result cmd check_error log_cmd s)
    as (s' & t & Hr).
  destruct (host_run_get_output _ _ _ _).1 as [exit_code output].
  destruct Hr as [[Hr | [_ Hr]] [? ?]]; eauto 10.
Qed.


Section Loop.
Variables (cmd : string) (retries : Z).
Variable retry_check : Z -> string -> M St (bool * string * bool).
Variable rc : Z -> string -> bool * string * bool.
Variables (check_error log_cmd : bool) (factor : Z).
Hypothesis Hdecides : decides retry_check rc cmd.
Hypothesis Hfactor : 0 <= factor.

Lemma backoff_nonneg n sleep_time : 0 <= sleep_time ->
  Forall (fun z => 0 <= z) (backoff n sleep_time factor).
Proof.
  revert sleep_time. induction n as [|n IH]; intros st Hst; simpl.
  - constructor.
  - constructor; [done | apply IH; lia].
Qed.


End Loop.


(** The fuel given by [run_command_with_retries_output] is exactly what
    the loop needs: more fuel changes nothing, so the loop never stops
    for lack of it. *)
Lemma retry_loop_fuel cmd retries retry_check check_error log_cmd factor
    fuel :
  forall try_count sleep_time run_cmd run_verbosely prev (s : St),
    (Z.to_nat (retries + 1 - try_count) <= fuel)%nat ->
    retry_loop fuel cmd retries retry_check check_error log_cmd factor
      try_count sleep_time run_cmd run_verbosely prev s
    = retry_loop (Z.to_nat (retries + 1 - try_count)) cmd retries
        retry_check check_error log_cmd factor
        try_count sleep_time run_cmd run_verbosely prev s.
Proof.
  induction fuel as [|fuel IH];
    intros try_count sleep_time run_cmd run_verbosely prev s Hfuel.
  - by replace (Z.to_nat (retries + 1 - try_count)) with 0%nat by lia.
  - destruct (Z.leb_spec try_count retries) as [Hle|Hgt].
    + replace (Z.to_nat (retries + 1 - try_count))
        with (S (Z.to_nat (retries + 1 - (try_count + 1)))) by lia.
      cbn [retry_loop].
      destruct (Z.leb_spec try_count retries) as [_|?]; [|lia].
      unfold bind.
      destruct (run_command_and_log _ _ _ s) as [[[[e o]|x] s1] t1]; [|done].
      destruct (retry_check e o s1) as [[[[[b m] v]|x] s2] t2]; [|done].
      destruct b; [|done]. simpl.
      destruct (time_sleep sleep_time s2) as [[[[]|x] s4] t4]; [|done].
      by rewrite IH by lia.
    + replace (Z.to_nat (retries + 1 - try_count)) with 0%nat by lia.
      cbn [retry_loop].
      destruct (Z.leb_spec try_count retries) as [?|_]; [lia|done].
Qed.

End CommandProofs.

Section RetryContract.
Context {W St : Type} `{Host W} `{HasWorld W St}.

Lemma decides_pure (rc : Z -> string -> bool * string * bool) (cmd : string) :
  decides (St := St) (fun e o => ret (rc e o)) rc cmd.
Proof. intros e o s. by exists s, []. Qed.




Lemma Forall_removelast_last {A} (P : A -> Prop) (l : list A) (x : A) :
  last l = Some x -> Forall P (removelast l) -> P x -> Forall P l.
Proof.
  intros Hlast Hinit Hx.
  destruct (last_Some l x) as [[l' ->] _]; [done|].
  rewrite removelast_last in Hinit.
  apply Forall_app. split; [done|]. by constructor.
Qed.


End RetryContract.

Section LockedHost.
#[local] Existing Instance locked_host.


End LockedHost.

(** ** [run_command_and_log] and "Permission denied" *)

Section PermissionDenied.
Context {W : Type} `{Host W}.

(** When the command succeeded, or the write to the standard error stream
  went through, an output with "Permission denied" gives exit code 52. *)
Lemma run_command_and_log_permission_denied cmd check_error log_cmd (w : W) :
let '((exit_code, output), w1) :=
  host_run_get_output cmd check_error log_cmd w in
PyStr.contains "Permission denied" output = true ->
exit_code = 0 \/
  (host_stderr_write (PyStr.last_chars 500 output) w1).1 = None ->
exists w' t,
  run_command_and_log cmd check_error log_cmd w = (Ok (52, output), w', t).
Proof.
unfold run_command_and_log, run_get_output, bind, ask, emit,
  try_except, stderr_write, hutil_log_info, ret, raise, bind, ask, emit.
simpl.
destruct (host_run_get_output _ _ _ _) as [[exit_code output] w1].
intros Hdenied Hwrite. simpl.
destruct log_cmd; simpl.
all: destruct (Z.eqb_spec exit_code 0) as [->|Hne]; simpl.
all: try (destruct Hwrite as [?|Hwrite]; [done|]).
all: try (destruct (host_stderr_write _ _) as [[e|] w2];
          simpl in *; [done|]).
all: rewrite Hdenied; simpl; eauto.
Qed.

End PermissionDenied.

Section DeniedHost.
#[local] Existing Instance denied_host.

(** C10, at an input where the code departs from it: the command fails with
  "Permission denied" in its output and the standard error stream is
  closed.  The write raises, the [except] clause logs, and the exit code
  of the command is returned, not 52. *)
Theorem run_command_and_log_keeps_exit_code_when_stderr_fails :
let r := run_command_and_log "mkdir /etc/opt/x" true true sim_stderr_closed in
exists output,
  outcome_of r = Ok (1, output) /\
  PyStr.contains "Permission denied" output = true /\
  last (trace_of r) = Some (EvLogInfo "Failed to write output to STDERR").
Proof. eexists. vm_compute. done. Qed.

End DeniedHost.

(** ** [get_managed_identity] *)

Lemma append_nonempty (a b : string) : a <> "" -> a +:+ b <> "".
Proof. by destruct a. Qed.

(** ** The watcher *)

Lemma actions_app t1 t2 : actions (t1 ++ t2) = actions t1 ++ actions t2.
Proof. apply filter_app. Qed.

Lemma calls_app t1 t2 : calls (t1 ++ t2) = calls t1 ++ calls t2.
Proof. apply omap_app. Qed.

Section WatcherProofs.
Context {W : Type} `{Host W} `{PyLib}.

(** The health check: both services are asked whether they run, and the
  one that does not is stopped and started, whatever the retry counters
  held before. *)
Lemma health_check_spec (s : watcher W) :
exists tel_up me_up s' t,
  health_check s = (Ok tt, s', t) /\
  actions t = health_actions tel_up me_up /\
  tel_up = (tel_is_running (host s)).1 /\
  last_crc (vars s') = last_crc (vars s) /\
  me_msi_token_expiry_epoch (vars s')
  = me_msi_token_expiry_epoch (vars s).
Proof.
destruct s as [w l]. unfold health_check, supervise. run.
all: match goal with
     | |- context [EvLiveness Telegraf ?a] =>
         match goal with
         | |- context [EvLiveness MetricsExtension ?b] => exists a, b
         end
     end.
all: eexists _, _; (split; [reflexivity|]).
all: repeat split; reflexivity.
Qed.



(** The branch of an empty configuration: what runs is stopped and
  removed, and the digest of the text is remembered; [last_crc] is not
  consulted. *)
Lemma cleared_branch_spec (data : string) (s : watcher W) :
exists tel_up me_up s' t,
  cleared_branch data s = (Ok tt, s', t) /\
  actions t = cleared_actions tel_up me_up /\
  tel_up = (tel_is_running (host s)).1 /\
  last_crc (vars s') = Some (sha256_hexdigest data) /\
  sleeps t = [].
Proof.
destruct s as [w l]. unfold cleared_branch. run.
all: match goal with
     | |- context [EvLiveness Telegraf ?a] =>
         match goal with
         | |- context [EvLiveness MetricsExtension ?b] => exists a, b
         end
     end.
all: eexists _, _; (split; [reflexivity|]).
all: repeat split; reflexivity.
Qed.

Lemma health_check_sleeps (s : watcher W) :
sleeps (trace_of (health_check s)) = [].
Proof.
destruct s as [w l]. unfold health_check, supervise. run. all: reflexivity.
Qed.

(** A text with the digest of the last reconciliation is not reconciled
  again. *)
Lemma reconcile_unchanged data json_data (s : watcher W) :
last_crc (vars s) = Some (sha256_hexdigest data) ->
reconcile data json_data s = (Ok tt, s, []).
Proof.
destruct s as [w l]. simpl. intros Hcrc.
unfold reconcile. unfold_monad. simpl.
rewrite Hcrc. by rewrite bool_decide_eq_true_2.
Qed.

(** Any other text is: the cached expiry is dropped, both services are set
  up and started, and the digest is remembered. *)
Lemma reconcile_changed data json_data (s : watcher W) :
last_crc (vars s) <> Some (sha256_hexdigest data) ->
exists s' t,
  reconcile data json_data s = (Ok tt, s', t) /\
  actions t = reconcile_actions /\
  last_crc (vars s') = Some (sha256_hexdigest data) /\
  me_msi_token_expiry_epoch (vars s') = PyNone /\
  sleeps t = [].
Proof.
destruct s as [w l]. simpl. intros Hcrc.
unfold reconcile. unfold_monad. simpl.
rewrite bool_decide_eq_false_2 by congruence. run.
all: eexists _, _; (split; [reflexivity|]).
all: repeat split; reflexivity.
Qed.

Lemma reconcile_spec data json_data (s : watcher W) :
exists s' t,
  reconcile data json_data s = (Ok tt, s', t) /\
  last_crc (vars s') = Some (sha256_hexdigest data) /\
  sleeps t = [].
Proof.
destruct (decide (last_crc (vars s) = Some (sha256_hexdigest data)))
  as [Heq|Hne].
- exists s, []. by rewrite reconcile_unchanged.
- destruct (reconcile_changed data json_data s Hne)
    as (s' & t & ? & ? & ? & ? & ?). eauto.
Qed.

(** The credential step touches neither the services nor [last_crc]; all
  it may ask of the host, besides files and the clock, is one token. *)
Lemma refresh_token_frame (s : watcher W) :
exists r s' t,
  refresh_token s = (r, s', t) /\
  last_crc (vars s') = last_crc (vars s) /\
  sleeps t = [] /\
  (actions t = [] \/ exists generated, actions t = [EvToken generated]).
Proof.
destruct s as [w [name value crc epoch gen tr mr]].
unfold refresh_token. run.
all: eexists _, _, _; (split; [reflexivity|]).
all: repeat split; try reflexivity.
all: first [by left | right; eexists; reflexivity].
Qed.

(** The body of the loop, by what it reads of the configuration. *)
Lemma cycle_body_poll (s : watcher W) :
cycle_body s =
match poll (host s) with
| (PollAbsent, w) => (Ok tt, Watcher w (vars s), [])
| (PollFailed e, w) => (Raise e, Watcher w (vars s), [])
| (PollEmpty, w) => (Ok tt, Watcher w (vars s), [])
| (PollCleared data, w) => cleared_branch data (Watcher w (vars s))
| (PollActive data json_data, w) =>
    (let* _ := reconcile data json_data in
     let* _ := refresh_token in
     health_check) (Watcher w (vars s))
end.
Proof.
destruct s as [w l]. unfold cycle_body, poll. simpl.
unfold bind at 1, ask at 1. simpl.
destruct (host_isfile _ _) as [[] w1]; simpl; [|done].
unfold bind at 1, read_file, bind at 1, ask at 1. simpl.
destruct (host_read _ _) as [[data|e] w2]; simpl; [|done].
destruct (String.eqb data ""); simpl; [done|].
unfold bind at 1, eval at 1.
destruct (json_loads data) as [json_data|e]; simpl; [|done].
unfold bind at 1, eval at 1.
destruct (py_len json_data) as [n|e]; simpl; [|done].
destruct (n =? 0); simpl.
- by destruct (cleared_branch _ _) as [[? ?] ?].
- by destruct (bind _ _ _) as [[? ?] ?].
Qed.

(** One iteration: the body, the line logged if it raised, the sleep. *)
Lemma cycle_shape (s : watcher W) :
exists r s1 t1,
  cycle_body s = (r, s1, t1) /\
  cycle s
  = (Ok tt, Watcher (host_sleep sleepTime (host s1)) (vars s1),
     t1 ++ match r with
           | Ok _ => []
           | Raise e => [EvLogError (failure_message e)]
           end ++ [EvSleep sleepTime]).
Proof.
unfold cycle, try_finally, try_except.
destruct (cycle_body s) as [[[[]|e] s1] t1].
- exists (Ok tt), s1, t1. split; [done|].
  unfold time_sleep, sleepTime. simpl. unfold bind, emit, tell. simpl.
  reflexivity.
- exists (Raise e), s1, t1. split; [done|].
  unfold select_clause, failure_message, hutil_error, emit.
  destruct (is_IOError e); simpl.
  all: unfold time_sleep, sleepTime; simpl; unfold bind, emit, tell; simpl.
  all: by rewrite <- app_assoc.
Qed.

Lemma refresh_token_sleeps (s : watcher W) :
sleeps (trace_of (refresh_token s)) = [].
Proof.
destruct (refresh_token_frame s) as (r & s' & t & -> & _ & Hsl & _).
exact Hsl.
Qed.

(** The body of the loop does not sleep. *)
Lemma cycle_body_sleeps (s : watcher W) :
sleeps (trace_of (cycle_body s)) = [].
Proof.
rewrite cycle_body_poll.
destruct (poll (host s)) as [[| e | | data | data json_data] w]; try done.
- destruct (cleared_branch_spec data (Watcher w (vars s)))
    as (? & ? & ? & ? & -> & _ & _ & _ & Hsl). exact Hsl.
- unfold bind.
  destruct (reconcile_spec data json_data (Watcher w (vars s)))
    as (s1 & t1 & -> & _ & Hsl1).
  pose proof (refresh_token_sleeps s1) as Hsl2.
  destruct (refresh_token s1) as [[[[]|e] s2] t2]; simpl in *.
  + pose proof (health_check_sleeps s2) as Hsl3.
    destruct (health_check s2) as [[r3 s3] t3]. simpl in *.
    by rewrite !sleeps_app, Hsl1, Hsl2, Hsl3.
  + by rewrite sleeps_app, Hsl1, Hsl2.
Qed.

Lemma cycle_ok (s : watcher W) :
exists s' t, cycle s = (Ok tt, s', t ++ [EvSleep sleepTime]) /\ sleeps t = [].
Proof.
destruct (cycle_shape s) as (r & s1 & t1 & Hbody & ->).
pose proof (cycle_body_sleeps s) as Hsl. rewrite Hbody in Hsl. simpl in Hsl.
eexists _, _. rewrite app_assoc. split; [reflexivity|].
rewrite sleeps_app, Hsl. by destruct r.
Qed.

Lemma cycles_ok (n : nat) : forall s : watcher W,
outcome_of (cycles n s) = Ok tt /\
sleeps (trace_of (cycles n s)) = replicate n sleepTime.
Proof.
induction n as [|n IH]; intros s; [done|].
cbn [cycles]. unfold bind.
destruct (cycle_ok s) as (s' & t & -> & Hsl).
destruct (IH s') as [Hok Hsleeps].
destruct (cycles n s') as [[r s2] t2]. simpl in *.
split; [done|].
by rewrite !sleeps_app, Hsl, Hsleeps.
Qed.

(** C9: no failure in the body of the loop ends the watcher.  Every
  iteration returns normally and ends with the sleep of [sleepTime]
  seconds, so any number of iterations runs through, with one sleep each.
  When opening, reading or parsing the configuration file raises, the
  iteration logs the failure, does nothing else, keeps its variables and
  sleeps. *)
Theorem cycle_survives_failures (s : watcher W) :
outcome_of (cycle s) = Ok tt /\
last (trace_of (cycle s)) = Some (EvSleep sleepTime) /\
(forall n,
   outcome_of (cycles n s) = Ok tt /\
   sleeps (trace_of (cycles n s)) = replicate n sleepTime) /\
(forall e w,
   poll (host s) = (PollFailed e, w) ->
   cycle s
   = (Ok tt, Watcher (host_sleep sleepTime w) (vars s),
      [EvLogError (failure_message e); EvSleep sleepTime])).
Proof.
destruct (cycle_ok s) as (s' & t & Hcycle & Hsl).
rewrite Hcycle. simpl.
split; [done|]. split; [apply last_snoc|].
split; [intros n; apply cycles_ok|].
intros e w Hpoll.
destruct (cycle_shape s) as (r & s1 & t1 & Hbody & Hshape).
rewrite cycle_body_poll, Hpoll in Hbody. simplify_eq.
by rewrite <- Hcycle, Hshape.
Qed.


(** C4, as the code has it: when the file is there and empty the iteration
  does nothing but sleep.  When the file holds a value of length zero the
  iteration asks each service whether it runs and stops and removes the
  one that does, in that order; it does so whatever the digest of the
  last reconciliation, and remembers the digest of the text. *)
Theorem cleared_when_length_zero (s : watcher W) :
(forall w,
   poll (host s) = (PollEmpty, w) ->
   cycle s
   = (Ok tt, Watcher (host_sleep sleepTime w) (vars s),
      [EvSleep sleepTime])) /\
(forall data w,
   poll (host s) = (PollCleared data, w) ->
   exists tel_up me_up,
     actions (trace_of (cycle s))
     = cleared_actions tel_up me_up ++ [EvSleep sleepTime] /\
     tel_up = (tel_is_running w).1 /\
     last_crc (vars (state_of (cycle s)))
     = Some (sha256_hexdigest data)).
Proof.
destruct (cycle_shape s) as (r & s1 & t1 & Hbody & Hshape).
rewrite cycle_body_poll in Hbody.
split.
- intros w Hpoll. rewrite Hpoll in Hbody. simplify_eq. by rewrite Hshape.
- intros data w Hpoll. rewrite Hpoll in Hbody.
  destruct (cleared_branch_spec data (Watcher w (vars s)))
    as (tel_up & me_up & s3 & t3 & Hc & Hact & Htel & Hcrc & _).
  rewrite Hc in Hbody. simplify_eq.
  exists (tel_is_running w).1, me_up. rewrite Hshape. simpl.
  by rewrite !actions_app, Hact.
Qed.

(** C6, as the code has it, for a configuration with at least one entry.
  The iteration leaves the digest of the text in [last_crc].  When
  [last_crc] already holds that digest there is no reconciliation: the
  iteration asks for a token at most, and calls the services only from
  the health check.  When [last_crc] holds anything else the iteration
  starts with the reconciliation. *)
Theorem reconcile_on_new_digest_only (s : watcher W) data json_data w :
poll (host s) = (PollActive data json_data, w) ->
last_crc (vars (state_of (cycle s))) = Some (sha256_hexdigest data) /\
(last_crc (vars s) = Some (sha256_hexdigest data) ->
 exists token health,
   actions (trace_of (cycle s)) = token ++ health ++ [EvSleep sleepTime] /\
   (token = [] \/ exists generated, token = [EvToken generated]) /\
   (health = [] \/
    exists tel_up me_up, health = health_actions tel_up me_up)) /\
(last_crc (vars s) <> Some (sha256_hexdigest data) ->
 exists rest,
   actions (trace_of (cycle s)) = reconcile_actions ++ rest).
Proof.
intros Hpoll.
destruct (cycle_shape s) as (r & s1 & t1 & Hbody & Hshape).
rewrite cycle_body_poll, Hpoll in Hbody. unfold bind in Hbody.
rewrite Hshape. unfold state_of, trace_of. cbn [fst snd vars].
split; [|split].
- destruct (reconcile_spec data json_data (Watcher w (vars s)))
    as (s2 & t2 & Hrec & Hcrc2 & _).
  destruct (refresh_token_frame s2) as (r3 & s3 & t3 & Href & Hcrc3 & _).
  destruct (health_check_spec s3)
    as (tel_up & me_up & s4 & t4 & Hh & _ & _ & Hcrc4 & _).
  rewrite Hrec in Hbody. cbn beta iota in Hbody. rewrite Href in Hbody.
  destruct r3 as [[]|e]; [rewrite Hh in Hbody|]; simplify_eq; congruence.
- intros Hsame.
  rewrite (reconcile_unchanged data json_data (Watcher w (vars s)) Hsame)
    in Hbody.
  cbn beta iota in Hbody.
  destruct (refresh_token_frame (Watcher w (vars s)))
    as (r3 & s3 & t3 & Href & _ & _ & Htok).
  destruct (health_check_spec s3)
    as (tel_up & me_up & s4 & t4 & Hh & Hact4 & _).
  rewrite Href in Hbody.
  exists (actions t3).
  destruct r3 as [[]|e]; [rewrite Hh in Hbody|]; simplify_eq.
  + exists (health_actions tel_up me_up).
    rewrite !actions_app, Hact4. simpl app at 1.
    change (actions []) with (@nil event).
    change (actions [EvSleep sleepTime]) with [EvSleep sleepTime].
    split; [by rewrite <- !app_assoc|]. split; [done|]. right. eauto.
  + exists [].
    rewrite !actions_app.
    change (actions (_ ++ [EvSleep sleepTime])) with [EvSleep sleepTime].
    change (actions []) with (@nil event).
    split; [done|]. split; [done|]. by left.
- intros Hnew.
  destruct (reconcile_changed data json_data (Watcher w (vars s)) Hnew)
    as (s2' & t2' & Hrec' & Hact2 & _).
  rewrite Hrec' in Hbody. cbn beta iota in Hbody.
  destruct (refresh_token s2') as [[[[]|e] s3'] t3'].
  + destruct (health_check s3') as [[r4 s4'] t4']. simplify_eq.
    eexists. rewrite <- !app_assoc, actions_app, Hact2. reflexivity.
  + simplify_eq.
    eexists. rewrite <- !app_assoc, actions_app, Hact2. reflexivity.
Qed.

Lemma truthy_not_empty (v : pyval) :
py_truthy v = true -> is_none_or_empty v = false.
Proof.
destruct v as [|str|n]; simpl; [done| |done].
by destruct (String.eqb str "").
Qed.

(** With nothing cached (None or the empty string) and no token file, the
  credential step asks for a token. *)
Lemma refresh_when_nothing_cached (s : watcher W) :
is_none_or_empty (me_msi_token_expiry_epoch (vars s)) = true ->
(host_isfile me_token_path (host s)).1 = false ->
refresh_attempted (trace_of (refresh_token s)) = true.
Proof.
destruct s as [w [name value crc epoch gen tr mr]]. simpl.
intros Hnone Hfile.
assert (Hepoch : epoch = PyNone \/ epoch = PyString "").
{ destruct epoch as [|str|n]; simpl in *; [by left| |done].
  right. f_equal. by apply String.eqb_eq. }
unfold refresh_token. unfold_monad.
destruct (host_isfile me_token_path w) as [present w1] eqn:Hisfile.
simpl in Hfile. subst present.
destruct Hepoch as [-> | ->]; simpl; rewrite Hisfile; simpl.
all: run; reflexivity.
Qed.

(** C3, as the code has it, for an iteration that reaches the credential
  step.  With no expiry cached (None or the empty string) and no token
  file, or a token file without "expires_on", a token is asked for.
  With an expiry cached, the code compares two local times: a token is
  asked for exactly when the local time of the expiry is less than 30
  minutes after the local time now; the comparison is strict.  With
  [offset_expiry] and [offset_now] the differences of the local time to
  the time of the epoch at the expiry and now, that is when now is later
  than the expiry less 1800 seconds and less [offset_now - offset_expiry]:
  with the same offset at both times, when now is later than the expiry
  less 1800 seconds. *)
Theorem refresh_token_when (s : watcher W) :
let epoch := me_msi_token_expiry_epoch (vars s) in
let t := trace_of (refresh_token s) in
(is_none_or_empty epoch = true ->
 (host_isfile me_token_path (host s)).1 = false ->
 refresh_attempted t = true) /\
(forall w1 content w2,
   is_none_or_empty epoch = true ->
   host_isfile me_token_path (host s) = (true, w1) ->
   host_read me_token_path w1 = (Ok content, w2) ->
   content = "" \/ PyStr.contains "expires_on" content = false ->
   refresh_attempted t = true) /\
(forall seconds expiry now,
   py_truthy epoch = true ->
   py_int epoch = Ok seconds ->
   host_fromtimestamp seconds = Ok expiry ->
   (host_now (host s)).1 = now ->
   (refresh_attempted t = true <-> expiry - now < 1800 * 1000000)) /\
(forall seconds now_epoch offset_expiry offset_now,
   py_truthy epoch = true ->
   py_int epoch = Ok seconds ->
   host_fromtimestamp seconds = Ok (seconds * 1000000 + offset_expiry) ->
   (host_now (host s)).1 = now_epoch + offset_now ->
   (refresh_attempted t = true <->
    now_epoch > (seconds - 1800) * 1000000 - (offset_now - offset_expiry)) /\
   (offset_now = offset_expiry ->
    (refresh_attempted t = true <->
     now_epoch > (seconds - 1800) * 1000000))).
Proof.
split; [apply refresh_when_nothing_cached|].
destruct s as [w [name value crc epoch gen tr mr]]. simpl.
split.
- intros w1 content w2 Hnone Hfile Hread Hcontent.
  assert (Hepoch : epoch = PyNone \/ epoch = PyString "").
  { destruct epoch as [|str|n]; simpl in *; [by left| |done].
    right. f_equal. by apply String.eqb_eq. }
  assert (Hcheck : negb (String.eqb content "")
                   && PyStr.contains "expires_on" content = false).
  { destruct Hcontent as [-> | ->]; [done|]. apply andb_false_r. }
  unfold refresh_token. unfold_monad.
  destruct Hepoch as [-> | ->]; simpl; rewrite Hfile; simpl.
  all: repeat (progress unfold_monad; simpl).
  all: rewrite Hread; simpl; rewrite Hcheck; simpl.
  all: run; reflexivity.
- assert (Hlocal : forall seconds expiry now,
            py_truthy epoch = true ->
            py_int epoch = Ok seconds ->
            host_fromtimestamp seconds = Ok expiry ->
            (host_now w).1 = now ->
            (refresh_attempted
               (trace_of
                  (refresh_token
                     (Watcher w (Locals name value crc epoch gen tr mr))))
             = true <-> expiry - now < 1800 * 1000000)).
  { intros seconds expiry now Htruthy Hint Hstamp Hnow.
    pose proof (truthy_not_empty epoch Htruthy) as Hnot_empty.
    destruct (host_now w) as [now' w1] eqn:Hclock.
    simpl in Hnow. subst now'.
    unfold refresh_token. repeat (progress unfold_monad; simpl).
    rewrite Hnot_empty. simpl. rewrite Htruthy. simpl.
    rewrite Hclock. simpl. rewrite Hint. simpl. rewrite Hstamp. simpl.
    change (30 * 60 * 1000000) with (1800 * 1000000).
    destruct (Z.ltb_spec (expiry - now) (1800 * 1000000)) as [Hlt|Hge]; simpl.
    + run. all: split; [done|reflexivity].
    + split; [done|lia]. }
  split; [exact Hlocal|].
  intros seconds now_epoch offset_expiry offset_now Htruthy Hint Hstamp Hnow.
  pose proof (Hlocal seconds _ _ Htruthy Hint Hstamp Hnow) as Hiff.
  split; [|intros ->]; rewrite Hiff; lia.
Qed.

(** C5, as the code has it: after a call of [generate_MSI_token], the
  cached expiry is the one that the call returned, whether it succeeded
  or not; the expiry cached before is not kept.  When the call failed,
  its message is logged as an error.  When the expiry that came back is
  None or empty and there is no token file, the next credential step
  asks for a token again. *)
Theorem refresh_token_takes_answer (s : watcher W) :
(forall generated,
   EvToken generated ∈ trace_of (refresh_token s) ->
   exists w w' expiry log_messages,
     me_generate_MSI_token (identifier_name (vars s))
       (identifier_value (vars s)) w
     = ((generated, expiry, log_messages), w') /\
     outcome_of (refresh_token s) = Ok tt /\
     host (state_of (refresh_token s)) = w' /\
     me_msi_token_expiry_epoch (vars (state_of (refresh_token s))) = expiry /\
     last (trace_of (refresh_token s))
     = Some (if generated
             then EvLogInfo
                    "Successfully refreshed metrics-extension MSI Auth token."
             else EvLogError log_messages)) /\
(forall s' : watcher W,
   is_none_or_empty (me_msi_token_expiry_epoch (vars s')) = true ->
   (host_isfile me_token_path (host s')).1 = false ->
   refresh_attempted (trace_of (refresh_token s')) = true).
Proof.
split.
- destruct s as [w [name value crc epoch gen tr mr]].
  intros generated. unfold refresh_token. run.
  all: intros Hin.
  all: repeat match goal with
         | H : _ ∈ [] |- _ => by apply elem_of_nil in H
         | H : _ ∈ _ :: _ |- _ =>
             apply elem_of_cons in H as [H|H]; [simplify_eq|]
         end.
  all: eexists _, _, _, _; (split; [eassumption|]); done.
- apply refresh_when_nothing_cached.
Qed.

End WatcherProofs.

(** ** Runs on the simulated host *)

Section SimRuns.
#[local] Existing Instance quiet_host.
#[local] Existing Instance sim_lib.

(** C1, at an input where the code departs from it: a counter is
  configured and telegraf stays down for 11 iterations in a row.  The
  retry counters are set to 0 in every iteration, before they are read,
  so each of the 11 iterations restarts telegraf and logs the retry
  count 1; the cap of 10 is never reached. *)
Theorem restart_counter_reset_each_cycle :
let t := trace_of (cycles 11 (Watcher sim_telegraf_down fresh_locals)) in
max_restart_retries = 10 /\
observed_down Telegraf t = 11%nat /\
count_calls StopTelegrafService t = 11%nat /\
count_info first_retry_line t = 11%nat.
Proof. vm_compute. done. Qed.



(** C3 fails on the code: an expiry exactly 1800 seconds after now gives
  no refresh. *)
Lemma no_refresh_at_exactly_1800 :
let s := Watcher (sim_at 1000000 good_token)
           (settled_locals one_counter_text (PyString "1001800")) in
(host_now (host s)).1 = 1000000 * 1000000 /\
py_int (me_msi_token_expiry_epoch (vars s)) = Ok (1000000 + 1800) /\
refresh_attempted (trace_of (cycle s)) = false.
Proof. vm_compute. done. Qed.

Lemma refresh_token_when_witness :
let at_ (expiry : string) :=
  Watcher (sim_at 1000000 good_token)
    (settled_locals one_counter_text (PyString expiry)) in
refresh_attempted (trace_of (refresh_token (at_ "1000600"))) = true /\
refresh_attempted (trace_of (refresh_token (at_ "1002400"))) <> true /\
refresh_attempted (trace_of (refresh_token (at_ "1001800"))) <> true.
Proof.
intros at_. split; [|split].
- destruct (proj2 (proj2 (proj2 (refresh_token_when (at_ "1000600"))))
              1000600 (1000000 * 1000000) 0 0) as [_ Hsame];
    [reflexivity..|].
  apply Hsame; [reflexivity|lia].
- destruct (proj2 (proj2 (proj2 (refresh_token_when (at_ "1002400"))))
              1002400 (1000000 * 1000000) 0 0) as [_ Hsame];
    [reflexivity..|].
  intros Hrefresh. apply Hsame in Hrefresh; [lia|reflexivity].
- destruct (proj2 (proj2 (proj2 (refresh_token_when (at_ "1001800"))))
              1001800 (1000000 * 1000000) 0 0) as [_ Hsame];
    [reflexivity..|].
  intros Hrefresh. apply Hsame in Hrefresh; [lia|reflexivity].
Defined.

(** C4 fails on the code: with an empty file, and both services running,
  the iteration only sleeps; nothing is stopped or removed. *)
Lemma empty_file_clears_nothing :
let w := sim_config_is (Content "") in
poll w = (PollEmpty, w) /\
(tel_is_running w).1 = true /\ (me_is_running w).1 = true /\
trace_of (cycle (Watcher w fresh_locals)) = [EvSleep sleepTime].
Proof. vm_compute. done. Qed.

Lemma cleared_when_length_zero_witness :
let w := sim_config_is (Content empty_object_text) in
exists tel_up me_up,
  actions (trace_of (cycle (Watcher w fresh_locals)))
  = cleared_actions tel_up me_up ++ [EvSleep sleepTime] /\
  tel_up = (tel_is_running w).1 /\
  last_crc (vars (state_of (cycle (Watcher w fresh_locals))))
  = Some (sha256_hexdigest empty_object_text).
Proof.
intros w.
apply (proj2 (cleared_when_length_zero (Watcher w fresh_locals))
         empty_object_text w).
vm_compute. reflexivity.
Defined.

(** C5 fails on the code: a refresh that fails replaces the cached expiry
  by what the call returned, here the empty string. *)
Lemma failed_refresh_replaces_expiry :
let s := Watcher (sim_at 1000000 no_token)
           (settled_locals one_counter_text (PyString "1000600")) in
EvToken false ∈ trace_of (cycle s) /\
me_msi_token_expiry_epoch (vars s) = PyString "1000600" /\
me_msi_token_expiry_epoch (vars (state_of (cycle s))) = PyString "".
Proof.
vm_compute. split; [|done].
repeat first [apply list_elem_of_here | apply list_elem_of_further].
Qed.

Lemma refresh_token_takes_answer_witness :
let s := Watcher (sim_at 1000000 no_token)
           (settled_locals one_counter_text (PyString "1000600")) in
exists w w' expiry log_messages,
  me_generate_MSI_token (identifier_name (vars s))
    (identifier_value (vars s)) w
  = ((false, expiry, log_messages), w') /\
  outcome_of (refresh_token s) = Ok tt /\
  host (state_of (refresh_token s)) = w' /\
  me_msi_token_expiry_epoch (vars (state_of (refresh_token s))) = expiry /\
  last (trace_of (refresh_token s)) = Some (EvLogError log_messages).
Proof.
intros s.
apply (proj1 (refresh_token_takes_answer s) false).
vm_compute. apply list_elem_of_here.
Defined.

(** C6 fails on the code.  An unchanged empty object is cleared again at
  every iteration for as long as telegraf is reported running; and with
  an unchanged counter configuration, a telegraf that is down is stopped
  and started by the health check. *)
Lemma unchanged_file_still_calls_services :
let after w := state_of (cycle (Watcher w fresh_locals)) in
poll (host (after sim_stuck)) = (PollCleared empty_object_text, host (after sim_stuck)) /\
last_crc (vars (after sim_stuck)) = Some (sha256_hexdigest empty_object_text) /\
calls (trace_of (cycle (after sim_stuck)))
= [StopTelegrafService; RemoveTelegrafService] /\
last_crc (vars (after sim_telegraf_down))
= Some (sha256_hexdigest one_counter_text) /\
calls (trace_of (cycle (after sim_telegraf_down)))
= [StopTelegrafService; StartTelegraf].
Proof. vm_compute. done. Qed.

Lemma reconcile_on_new_digest_only_witness :
let s := Watcher (sim_at 1000000 good_token)
           (settled_locals one_counter_text (PyString "4102444800")) in
last_crc (vars (state_of (cycle s))) = Some (sha256_hexdigest one_counter_text) /\
exists token health,
  actions (trace_of (cycle s)) = token ++ health ++ [EvSleep sleepTime] /\
  (token = [] \/ exists generated, token = [EvToken generated]) /\
  (health = [] \/
   exists tel_up me_up, health = health_actions tel_up me_up).
Proof.
intros s.
destruct (reconcile_on_new_digest_only s one_counter_text
            (JObject [("cpu", JObject [])]) (host s))
  as (Hcrc & Hsame & _).
- vm_compute. reflexivity.
- split; [exact Hcrc|]. apply Hsame. reflexivity.
Defined.

Lemma cycle_survives_failures_witness :
let w := sim_config_is (Content "{") in
cycle (Watcher w fresh_locals)
= (Ok tt, Watcher (host_sleep sleepTime w) fresh_locals,
   [EvLogError
      ("Error in setting up or monitoring metrics. Exception=" +:+
       "Expecting value: line 1 column 1 (char 0)");
    EvSleep sleepTime]).
Proof.
intros w.
apply (proj2 (proj2 (proj2 (cycle_survives_failures (Watcher w fresh_locals))))
         (PyExn ValueError "Expecting value: line 1 column 1 (char 0)") w).
vm_compute. reflexivity.
Defined.

End SimRuns.
(** * Further properties of the code *)

(** ** Strings *)

Lemma app_cons_str (c : ascii) (s t : string) :
  String c s +:+ t = String c (s +:+ t).
Proof. reflexivity. Qed.

Lemma app_nil_l_str (t : string) : "" +:+ t = t.
Proof. reflexivity. Qed.

(** Appends pushed inside, as far as the heads of the strings are known. *)
Ltac push_app := rewrite ?app_cons_str, ?app_nil_l_str in *.

Lemma app_assoc_str (a b c : string) : (a +:+ b) +:+ c = a +:+ (b +:+ c).
Proof. induction a as [|x a IH]; push_app; [done|]. by rewrite IH. Qed.

Lemma app_nil_r_str (a : string) : a +:+ "" = a.
Proof. induction a as [|x a IH]; push_app; [done|]. by rewrite IH. Qed.

Lemma length_app_str (a b : string) :
  String.length (a +:+ b) = (String.length a + String.length b)%nat.
Proof. induction a as [|x a IH]; push_app; simpl; [done|]. by rewrite IH. Qed.

Lemma prefix_iff (sub s : string) :
  String.prefix sub s = true <-> exists post, s = sub +:+ post.
Proof.
  revert s. induction sub as [|c sub IH]; intros s; simpl.
  - split; [intros _; by exists s | intros _; by destruct s].
  - destruct s as [|d s]; simpl; [split; [done|by intros [? ?]]|].
    destruct (Ascii.ascii_dec c d) as [->|Hne].
    + rewrite IH. split; intros [post Hp]; exists post; push_app; congruence.
    + split; [done|]. intros [post Hp]. push_app. congruence.
Qed.

Lemma contains_iff (sub s : string) :
  PyStr.contains sub s = true <-> exists pre post, s = pre +:+ sub +:+ post.
Proof.
  induction s as [|c s IH]; cbn [PyStr.contains].
  - rewrite orb_false_r, prefix_iff. split.
    + intros [post Hp]. by exists "", post.
    + intros (pre & post & Hp). destruct pre; push_app; [by exists post|done].
  - rewrite orb_true_iff, prefix_iff, IH. split.
    + intros [[post Hp] | (pre & post & Hp)].
      * by exists "", post.
      * exists (String c pre), post. push_app. by rewrite Hp.
    + intros (pre & post & Hp). destruct pre as [|d pre]; push_app.
      * left. by exists post.
      * right. exists pre, post. congruence.
Qed.

Lemma substring_all (s : string) : String.substring 0 (String.length s) s = s.
Proof. induction s as [|c s IH]; simpl; [done|]. by rewrite IH. Qed.

Lemma substring_drop (n : nat) (s : string) :
  String.substring n (String.length s - n) s = drop_chars n s.
Proof.
  revert s. induction n as [|n IH]; intros s.
  - rewrite Nat.sub_0_r. destruct s; apply substring_all.
  - destruct s as [|c s]; simpl; [done|]. apply IH.
Qed.

Lemma drop_chars_app (a b : string) : drop_chars (String.length a) (a +:+ b) = b.
Proof. induction a as [|c a IH]; push_app; simpl; [by destruct b|done]. Qed.

Lemma drop_chars_app_le (n : nat) (a b : string) :
  (n <= String.length a)%nat ->
  drop_chars n (a +:+ b) = drop_chars n a +:+ b.
Proof.
  revert a. induction n as [|n IH]; intros a Hn.
  - by destruct a, b.
  - destruct a as [|c a]; simpl in *; [lia|]. push_app. simpl.
    apply IH. lia.
Qed.

Lemma after_first_eq (sub s : string) :
  PyStr.after_first sub s =
  if String.prefix sub s then Some (drop_chars (String.length sub) s)
  else match s with
       | EmptyString => None
       | String _ s' => PyStr.after_first sub s'
       end.
Proof. rewrite <- substring_drop. by destruct s. Qed.

(** What [after_first] returns does follow an occurrence of [sub]. *)
Lemma after_first_Some (sub s r : string) :
  PyStr.after_first sub s = Some r -> exists pre, s = pre +:+ sub +:+ r.
Proof.
  induction s as [|c s IH]; rewrite after_first_eq.
  - destruct sub; simpl; [|done]. intros [= <-]. by exists "".
  - destruct (String.prefix sub _) eqn:Hp.
    + intros [= <-]. exists "". apply prefix_iff in Hp as [post Hp].
      rewrite Hp. by rewrite drop_chars_app.
    + intros Hr. destruct (IH Hr) as [pre ->]. by exists (String c pre).
Qed.

(** When [sub] occurs in [s], [after_first] returns all that follows the
    occurrence, and maybe more. *)
Lemma after_first_app (sub pre rest : string) :
  exists x, PyStr.after_first sub (pre +:+ sub +:+ rest) = Some (x +:+ rest).
Proof.
  induction pre as [|c pre IH]; push_app; rewrite after_first_eq.
  - exists "". push_app.
    assert (Hp : String.prefix sub (sub +:+ rest) = true)
      by (apply prefix_iff; eauto).
    by rewrite Hp, drop_chars_app.
  - destruct (String.prefix sub (String c (pre +:+ sub +:+ rest))) eqn:Hp;
      [|exact IH].
    exists (drop_chars (String.length sub) (String c pre +:+ sub)).
    rewrite <- drop_chars_app_le.
    + by rewrite app_assoc_str.
    + rewrite length_app_str. lia.
Qed.

(** ** The dpkg-lock pattern *)

Lemma dpkg_locked_line_iff (line : string) :
  dpkg_locked_line line = true <->
  exists before between after,
    line = before +:+ "dpkg" +:+ between +:+ "lock" +:+ after /\
    between <> "".
Proof.
  unfold dpkg_locked_line. split.
  - destruct (PyStr.after_first "dpkg" line) as [[|c rest]|] eqn:Hafter;
      [done| |done].
    intros (p & q & ->)%contains_iff.
    apply after_first_Some in Hafter as [pre ->].
    by exists pre, (String c p), q.
  - intros (before & between & after & -> & Hne).
    destruct (after_first_app "dpkg" before (between +:+ "lock" +:+ after))
      as [x ->].
    destruct between as [|c m]; [done|].
    destruct x as [|d x]; push_app; apply contains_iff.
    + by exists m, after.
    + exists (x +:+ String c m), after. by rewrite !app_assoc_str.
Qed.

(** [is_dpkg_locked] holds exactly when the command failed and some line
    of its output has [dpkg], then at least one character, then [lock]. *)
Theorem is_dpkg_locked_iff (exit_code : Z) (output : string) :
  is_dpkg_locked exit_code output = true <->
  exit_code <> 0 /\
  exists line before between after,
    line ∈ PyStr.lines output /\
    line = before +:+ "dpkg" +:+ between +:+ "lock" +:+ after /\
    between <> "".
Proof.
  unfold is_dpkg_locked, dpkg_locked_re_search.
  destruct (Z.eqb_spec exit_code 0) as [->|Hne]; simpl.
  { split; [done|]. by intros [? _]. }
  destruct (existsb dpkg_locked_line (PyStr.lines output)) eqn:Hex.
  - split; [|done]. intros _. split; [done|].
    apply existsb_exists in Hex as (line & Hin & Hline).
    apply dpkg_locked_line_iff in Hline as (b & m & a & ? & ?).
    exists line, b, m, a. by rewrite list_elem_of_In.
  - split; [done|]. intros (_ & line & b & m & a & Hin & Hline & Hm).
    rewrite <- Hex. apply existsb_exists. exists line.
    split; [by apply list_elem_of_In|].
    apply dpkg_locked_line_iff. eauto.
Qed.

(** ** The command runner *)

Lemma stderr_texts_app t1 t2 :
  stderr_texts (t1 ++ t2) = stderr_texts t1 ++ stderr_texts t2.
Proof. apply omap_app. Qed.

Lemma substring_length_le (n m : nat) (s : string) :
  (String.length (String.substring n m s) <= m)%nat.
Proof.
  revert n m. induction s as [|c s IH]; intros [|n] [|m]; simpl; try lia.
  - specialize (IH 0%nat m). lia.
  - apply (IH n 0%nat).
  - apply (IH n (S m)).
Qed.

Lemma drop_chars_suffix (n : nat) (s : string) :
  exists pre, s = pre +:+ drop_chars n s.
Proof.
  revert s. induction n as [|n IH]; intros s.
  - exists "". by destruct s.
  - destruct s as [|c s]; simpl; [by exists ""|].
    destruct (IH s) as [pre Hpre]. exists (String c pre). push_app.
    by rewrite <- Hpre.
Qed.

(** [s[-n:]] is the end of [s], and has at most [n] characters. *)
Lemma last_chars_suffix (n : nat) (s : string) :
  (exists pre, s = pre +:+ PyStr.last_chars n s) /\
  (String.length (PyStr.last_chars n s) <= n)%nat.
Proof.
  unfold PyStr.last_chars. split; [|apply substring_length_le].
  destruct (Nat.le_gt_cases (String.length s) n) as [Hle|Hgt].
  - exists "". replace (String.length s - n)%nat with 0%nat by lia.
    push_app. clear -Hle. revert n Hle.
    induction s as [|c s IH]; intros [|n] Hn; simpl in *; try done; try lia.
    f_equal. apply IH. lia.
  - set (k := (String.length s - n)%nat).
    replace n with (String.length s - k)%nat by lia.
    rewrite substring_drop. apply drop_chars_suffix.
Qed.

Section RunnerFacts.
Context {W St : Type} `{Host W} `{HasWorld W St}.

(** Once [run_get_output] has returned the exit code and the output of
    the command, [run_command_and_log] returns too, whatever the write to
    the standard error stream does.  It has run the command once.  It
    returns the output as it is, with the exit code of the command or 52,
    and 52 only for an output that holds "Permission denied".  It writes
    to the standard error stream only when the command failed, and then
    the end of the output, 500 characters at most. *)
Theorem run_command_and_log_effects (cmd : string)
    (check_error log_cmd : bool) (s : St) :
  let '(exit_code, output) :=
    (host_run_get_output cmd check_error log_cmd (world_of s)).1 in
  exists code s' t,
    run_command_and_log cmd check_error log_cmd s = (Ok (code, output), s', t) /\
    (code = exit_code \/
     code = 52 /\ PyStr.contains "Permission denied" output = true) /\
    commands t = [cmd] /\
    sleeps t = [] /\
    (stderr_texts t = [] \/
     exit_code <> 0 /\ stderr_texts t = [PyStr.last_chars 500 output]) /\
    (exists pre, output = pre +:+ PyStr.last_chars 500 output) /\
    (String.length (PyStr.last_chars 500 output) <= 500)%nat.
Proof.
  unfold run_command_and_log, run_get_output, bind, ask, emit,
    try_except, stderr_write, hutil_log_info, ret, raise, bind, ask, emit.
  destruct (host_run_get_output _ _ _ _) as [[exit_code output] w1]; simpl.
  destruct (last_chars_suffix 500 output) as [Hsuffix Hlen].
  destruct log_cmd; simpl.
  all: destruct (Z.eqb_spec exit_code 0) as [Hz|Hz]; simpl.
  all: try (destruct (host_stderr_write _ _) as [[e|] w2]; simpl).
  all: destruct (PyStr.contains _ output) eqn:Hdenied; simpl.
  all: eexists _, _, _; split; [reflexivity|].
  all: split; [first [by left | by right]|].
  all: split; [done|]; split; [done|].
  all: split; [first [by left | by right]|done].
Qed.

(** With fewer than zero retries the loop body never runs: no command is
    run and the function ends on the unbound [exit_code]. *)
Theorem run_command_with_retries_output_negative_retries
    (cmd : string) (retries : Z)
    (retry_check : Z -> string -> M St (bool * string * bool))
    (final_check : option (Z -> string -> Z)) (check_error log_cmd : bool)
    (initial_sleep_time sleep_increase_factor : Z) (s : St) :
  retries < 0 ->
  exists msg,
    run_command_with_retries_output cmd retries retry_check final_check
      check_error log_cmd initial_sleep_time sleep_increase_factor s
    = (Raise (PyExn UnboundLocalError msg), s, []).
Proof.
  intros Hneg. unfold run_command_with_retries_output.
  replace (Z.to_nat (retries + 1)) with 0%nat by lia.
  eexists. reflexivity.
Qed.

(** [retry_if_dpkg_locked] runs the probe and decides without its answer. *)
Lemma retry_if_dpkg_locked_run (exit_code : Z) (output : string) (s : St) :
  exists s',
    retry_if_dpkg_locked exit_code output s
    = (Ok (dpkg_decision exit_code output), s', [EvRun apt_get_probe]).
Proof.
  unfold retry_if_dpkg_locked, dpkg_decision, run_get_output, bind, emit, ask.
  destruct (host_run_get_output _ _ _ _) as [[e' o'] w']. simpl.
  destruct (is_dpkg_locked exit_code output); simpl; eauto.
Qed.

(** The commands of the loop under [retry_if_dpkg_locked]: the command
    itself, never with [-v], and after each run one probe for apt-get. *)
Lemma retry_loop_dpkg_commands (cmd : string) (retries : Z)
    (check_error log_cmd : bool) (factor : Z) (fuel : nat) :
  forall try_count sleep_time prev (s : St),
    exists n,
      (n <= fuel)%nat /\
      commands (trace_of
        (retry_loop fuel cmd retries retry_if_dpkg_locked check_error
           log_cmd factor try_count sleep_time cmd false prev s))
      = concat (replicate n [cmd; apt_get_probe]).
Proof.
  induction fuel as [|fuel IH]; intros try_count sleep_time prev s.
  { exists 0%nat. done. }
  cbn [retry_loop].
  destruct (try_count <=? retries); [|exists 0%nat; split; [lia|done]].
  destruct (run_command_and_log_ok cmd check_error log_cmd s)
    as ([e o] & s1 & t1 & Hrun & Hcmds1 & _).
  destruct (retry_if_dpkg_locked_run e o s1) as [s2 Hcheck].
  unfold bind at 1. rewrite Hrun. unfold bind at 1. rewrite Hcheck.
  unfold dpkg_decision.
  destruct (is_dpkg_locked e o); cbn [negb].
  - unfold bind at 1, hutil_log_info at 1, emit at 1.
    unfold bind at 1, time_sleep.
    destruct (sleep_time <? 0).
    + exists 1%nat. split; [lia|].
      unfold trace_of, raise. simpl. by rewrite !commands_app, Hcmds1.
    + unfold bind at 1, emit at 1, tell at 1.
      destruct (IH (try_count + 1) (sleep_time * factor) (Some (e, o))
                  (with_world (host_sleep sleep_time (world_of s2)) s2))
        as (n & Hn & Hcmds).
      destruct (retry_loop _ _ _ _ _ _ _ _ _ _ _ _ _) as [[r s3] t3].
      exists (S n). split; [lia|].
      unfold trace_of in *. simpl in *.
      change (commands (t1 ++ ?a :: ?b :: ?c :: t3))
        with (commands (t1 ++ [a; b; c] ++ t3)).
      by rewrite !commands_app, Hcmds1, Hcmds.
  - exists 1%nat. split; [lia|].
    unfold trace_of, ret. simpl. by rewrite !commands_app, Hcmds1.
Qed.

(** With [retry_if_dpkg_locked] as the check, the commands run are, in
    turn, the command and a probe for apt-get, [retries + 1] times at
    most: the command is never run with [-v], and the answer of the probe
    changes nothing. *)
Theorem retry_if_dpkg_locked_commands (cmd : string) (retries : Z)
    (final_check : option (Z -> string -> Z)) (check_error log_cmd : bool)
    (initial_sleep_time sleep_increase_factor : Z) (s : St) :
  exists n,
    Z.of_nat n <= Z.max 0 (retries + 1) /\
    commands (trace_of
      (run_command_with_retries_output cmd retries retry_if_dpkg_locked
         final_check check_error log_cmd initial_sleep_time
         sleep_increase_factor s))
    = concat (replicate n [cmd; apt_get_probe]).
Proof.
  unfold run_command_with_retries_output.
  destruct (retry_loop_dpkg_commands cmd retries check_error log_cmd
              sleep_increase_factor (Z.to_nat (retries + 1)) 0
              initial_sleep_time None s) as (n & Hn & Hcmds).
  exists n. split; [lia|].
  unfold bind.
  destruct (retry_loop _ _ _ _ _ _ _ _ _ _ _ _ _) as [[[[[e o]|]|x] s1] t1].
  all: unfold trace_of in *; simpl in *.
  all: by rewrite ?commands_app, ?app_nil_r, Hcmds.
Qed.

End RunnerFacts.

Section QuietRuns.
#[local] Existing Instance quiet_host.

Lemma run_command_with_retries_output_negative_retries_witness :
exists msg,
  run_command_with_retries_output "rpm -e azuremonitoragent" (-1)
    retry_if_dpkg_locked (Some final_check_if_dpkg_locked) true true 30 1
    sim_idle
  = (Raise (PyExn UnboundLocalError msg), sim_idle, []).
Proof.
apply (run_command_with_retries_output_negative_retries
         "rpm -e azuremonitoragent" (-1)).
lia.
Defined.

End QuietRuns.

(** ** The GUID pattern *)

Lemma hexes_iff (n : nat) (s r : string) :
  Guid.hexes n s = Some r <-> exists a, s = a +:+ r /\ hex_run n a.
Proof.
  revert s. induction n as [|n IH]; intros s; simpl.
  - split.
    + intros [= <-]. by exists "".
    + intros (a & -> & Hlen & _). by destruct a.
  - destruct s as [|c s].
    + split; [done|]. intros (a & Ha & Hlen & _). by destruct a.
    + destruct (PyStr.is_hex c) eqn:Hc.
      * rewrite IH. split.
        -- intros (a & -> & Hlen & Hall). exists (String c a).
           split; [done|]. split; simpl; [by rewrite Hlen|by rewrite Hc].
        -- intros (a & Ha & Hlen & Hall).
           destruct a as [|d a]; [done|]. push_app. simplify_eq.
           simpl in *. rewrite Hc in Hall. exists a.
           split; [done|]. split; [lia|done].
      * split; [done|]. intros (a & Ha & Hlen & Hall).
        destruct a as [|d a]; [done|]. push_app. simplify_eq.
        simpl in Hall. by rewrite Hc in Hall.
Qed.

Lemma dash_iff (s r : string) : Guid.dash s = Some r <-> s = "-" +:+ r.
Proof.
  unfold Guid.dash. push_app.
  destruct s as [|c s]; [done|].
  destruct (Ascii.ascii_dec c "-") as [->|Hne].
  - split; congruence.
  - split; [|congruence].
    destruct c as [[] [] [] [] [] [] [] []]; try done.
Qed.

Lemma matches_at_iff (s : string) :
  Guid.matches_at s = true <-> exists g post, s = g +:+ post /\ guid_text g.
Proof.
  unfold Guid.matches_at, guid_text. split.
  - destruct (Guid.hexes 8 s) as [s1|] eqn:H1; cbn [mbind option_bind]; [|done].
    destruct (Guid.dash s1) as [s2|] eqn:H2; cbn [mbind option_bind]; [|done].
    destruct (Guid.hexes 4 s2) as [s3|] eqn:H3; cbn [mbind option_bind]; [|done].
    destruct (Guid.dash s3) as [s4|] eqn:H4; cbn [mbind option_bind]; [|done].
    destruct (Guid.hexes 4 s4) as [s5|] eqn:H5; cbn [mbind option_bind]; [|done].
    destruct (Guid.dash s5) as [s6|] eqn:H6; cbn [mbind option_bind]; [|done].
    destruct (Guid.hexes 4 s6) as [s7|] eqn:H7; cbn [mbind option_bind]; [|done].
    destruct (Guid.dash s7) as [s8|] eqn:H8; cbn [mbind option_bind]; [|done].
    destruct (Guid.hexes 12 s8) as [s9|] eqn:H9; cbn [mbind option_bind]; [|done].
    intros _.
    apply hexes_iff in H1 as (a & -> & Ha), H3 as (b & -> & Hb),
      H5 as (c & -> & Hc), H7 as (d & -> & Hd), H9 as (e & -> & He).
    apply dash_iff in H2 as ->, H4 as ->, H6 as ->, H8 as ->.
    exists (a +:+ "-" +:+ b +:+ "-" +:+ c +:+ "-" +:+ d +:+ "-" +:+ e), s9.
    split; [|by exists a, b, c, d, e].
    by rewrite !app_assoc_str.
  - intros (g & post & -> & a & b & c & d & e & -> & Ha & Hb & Hc & Hd & He).
    rewrite !app_assoc_str.
    assert (Hstep : forall n x r, hex_run n x -> Guid.hexes n (x +:+ r) = Some r).
    { intros n x r Hx. apply hexes_iff. eauto. }
    assert (Hdash : forall r, Guid.dash ("-" +:+ r) = Some r).
    { intros r. by apply dash_iff. }
    rewrite (Hstep 8%nat a) by done. cbn [mbind option_bind].
    rewrite Hdash. cbn [mbind option_bind].
    rewrite (Hstep 4%nat b) by done. cbn [mbind option_bind].
    rewrite Hdash. cbn [mbind option_bind].
    rewrite (Hstep 4%nat c) by done. cbn [mbind option_bind].
    rewrite Hdash. cbn [mbind option_bind].
    rewrite (Hstep 4%nat d) by done. cbn [mbind option_bind].
    rewrite Hdash. cbn [mbind option_bind].
    by rewrite (Hstep 12%nat e) by done.
Qed.

(** [guid_re.search] finds the pattern anywhere in the value: it accepts
    exactly the values that hold a text of the shape 8-4-4-4-12 in
    hexadecimal digits, whatever stands before and after it. *)
Theorem guid_search_iff (s : string) :
  Guid.search s = true <->
  exists pre g post, s = pre +:+ g +:+ post /\ guid_text g.
Proof.
  induction s as [|c s IH]; cbn [Guid.search].
  - rewrite orb_false_r, matches_at_iff. split.
    + intros (g & post & ? & ?). by exists "", g, post.
    + intros (pre & g & post & Hs & Hg).
      destruct pre; [|done]. by exists g, post.
  - rewrite orb_true_iff, matches_at_iff, IH. split.
    + intros [(g & post & ? & ?) | (pre & g & post & -> & ?)].
      * by exists "", g, post.
      * by exists (String c pre), g, post.
    + intros (pre & g & post & Hs & Hg). destruct pre as [|d pre]; push_app.
      * left. by exists g, post.
      * right. exists pre, g, post. split; [congruence|done].
Qed.

(** ** The identity of the watcher *)

Section WatcherIdentity.
Context {W : Type} `{Host W} `{PyLib}.

Lemma cleared_branch_identity data (s : watcher W) :
identity_of (vars (state_of (cleared_branch data s))) = identity_of (vars s).
Proof. destruct s as [w l]. unfold cleared_branch. run. all: reflexivity. Qed.

Lemma reconcile_identity data json_data (s : watcher W) :
identity_of (vars (state_of (reconcile data json_data s)))
= identity_of (vars s).
Proof.
destruct s as [w l]. unfold reconcile. unfold_monad. simpl.
destruct (bool_decide _); simpl; [reflexivity|].
run. all: reflexivity.
Qed.

Lemma refresh_token_identity (s : watcher W) :
identity_of (vars (state_of (refresh_token s))) = identity_of (vars s).
Proof.
destruct s as [w [name value crc epoch gen tr mr]].
unfold refresh_token. run. all: reflexivity.
Qed.

Lemma health_check_identity (s : watcher W) :
identity_of (vars (state_of (health_check s))) = identity_of (vars s).
Proof. destruct s as [w l]. unfold health_check, supervise. run. all: reflexivity. Qed.

Lemma cycle_body_identity (s : watcher W) :
identity_of (vars (state_of (cycle_body s))) = identity_of (vars s).
Proof.
rewrite cycle_body_poll.
destruct (poll (host s)) as [[| e | | data | data json_data] w]; try done.
- apply (cleared_branch_identity data (Watcher w (vars s))).
- unfold bind.
  pose proof (reconcile_identity data json_data (Watcher w (vars s))) as H1.
  destruct (reconcile data json_data _) as [[[[]|e1] s1] t1]; [|exact H1].
  pose proof (refresh_token_identity s1) as H2.
  destruct (refresh_token s1) as [[[[]|e2] s2] t2];
    [|unfold state_of in *; simpl in *; congruence].
  pose proof (health_check_identity s2) as H3.
  destruct (health_check s2) as [[r3 s3] t3].
  unfold state_of in *; simpl in *. congruence.
Qed.

Lemma cycle_identity (s : watcher W) :
identity_of (vars (state_of (cycle s))) = identity_of (vars s).
Proof.
destruct (cycle_shape s) as (r & s1 & t1 & Hbody & ->).
pose proof (cycle_body_identity s) as Hid. by rewrite Hbody in Hid.
Qed.

Lemma cycles_identity (n : nat) : forall s : watcher W,
identity_of (vars (state_of (cycles n s))) = identity_of (vars s).
Proof.
induction n as [|n IH]; intros s; [done|].
cbn [cycles]. unfold bind.
destruct (cycle_ok s) as (s' & t & Hcycle & _).
pose proof (cycle_identity s) as Hid. rewrite Hcycle in *.
specialize (IH s').
destruct (cycles n s') as [[r s2] t2].
unfold state_of in *. simpl in *. congruence.
Qed.

(** The watcher starts whatever [get_managed_identity] reports: an error
    is logged and nothing more.  It sleeps once before its first
    iteration, and all through its iterations the name and the value that
    it holds for [generate_MSI_token] are the ones [get_managed_identity]
    returned, also when they were reported as invalid. *)
Theorem metrics_watcher_identity (public_settings : option public_settings_t)
    (n : nat) (w : W) :
let '(name, value, error_msg) := get_managed_identity public_settings in
let r := metrics_watcher public_settings n w in
outcome_of r = Ok tt /\
identity_of (vars (state_of r)) = (name, value) /\
sleeps (trace_of r) = replicate (S n) sleepTime /\
(exists msg,
   hd_error (trace_of r)
   = Some (if String.eqb error_msg ""
           then EvSleep sleepTime else EvLogError msg)).
Proof.
unfold metrics_watcher, watcher_start.
destruct (get_managed_identity public_settings) as [[name value] error_msg].
unfold_monad.
destruct (String.eqb error_msg ""); simpl.
all: match goal with
     | |- context [cycles ?k ?s] =>
         destruct (cycles_ok k s) as [Hok Hsl];
         pose proof (cycles_identity k s) as Hid;
         destruct (cycles k s) as [[r s'] t]
     end.
all: unfold outcome_of, state_of, trace_of in *; simpl in *.
all: split; [done|]; split; [done|].
all: split; [simpl; by rewrite Hsl|first [by exists "" | eexists; reflexivity]].
Qed.

End WatcherIdentity.

(** ** The operation asked of [main] *)

Lemma re_match_operation_iff (word arg : string) :
  re_match_operation word arg = true <->
  exists dashes rest,
    arg = dashes +:+ word +:+ rest /\
    all_chars is_dash_or_slash dashes = true.
Proof.
  induction arg as [|c arg IH]; cbn [re_match_operation].
  - rewrite orb_false_r, prefix_iff. split.
    + intros [rest ->]. by exists "", rest.
    + intros (dashes & rest & Harg & _).
      destruct dashes; push_app; [by exists rest|done].
  - rewrite orb_true_iff, andb_true_iff, prefix_iff, IH. split.
    + intros [[rest ->] | (Hc & dashes & rest & -> & Hd)].
      * by exists "", rest.
      * exists (String c dashes), rest. push_app. simpl. by rewrite Hc, Hd.
    + intros (dashes & rest & Harg & Hd).
      destruct dashes as [|d dashes]; push_app.
      * left. by exists rest.
      * right. simpl in Hd. apply andb_true_iff in Hd as [Hd1 Hd2].
        simplify_eq. split; [done|]. by exists dashes, rest.
Qed.

Lemma drop_dashes_app (dashes rest : string) :
  all_chars is_dash_or_slash dashes = true ->
  drop_dashes (dashes +:+ rest) = drop_dashes rest.
Proof.
  induction dashes as [|c dashes IH]; push_app; [done|].
  simpl. intros [Hc Hd]%andb_true_iff. rewrite Hc. by apply IH.
Qed.

(** For a word that starts outside the class [[-/]], the pattern matches
    when the word follows the dashes and slashes that [arg] starts with. *)
Lemma re_match_operation_drop (c : ascii) (word arg : string) :
  is_dash_or_slash c = false ->
  re_match_operation (String c word) arg
  = String.prefix (String c word) (drop_dashes arg).
Proof.
  intros Hc. induction arg as [|d arg IH]; [done|].
  cbn [re_match_operation drop_dashes].
  destruct (is_dash_or_slash d) eqn:Hd.
  - rewrite <- IH. simpl.
    destruct (Ascii.ascii_dec c d) as [->|?]; [congruence|done].
  - by rewrite andb_false_l, orb_false_r.
Qed.

(** [main] takes its operation from the first argument: any number of
    [-] and [/], then one of the seven words, then anything.  The words
    are looked for as they are written, in lower case, and what follows
    the word is not looked at. *)
Theorem main_operation_iff (argv : list string) (operation : string) :
  main_operation argv = Some operation <->
  exists arg dashes word rest,
    argv !! 1%nat = Some arg /\
    arg = dashes +:+ word +:+ rest /\
    all_chars is_dash_or_slash dashes = true /\
    (word, operation) ∈ operation_words.
Proof.
  unfold main_operation, operation_of_option, operation_words. split.
  - destruct (argv !! 1%nat) as [arg|]; [|done].
    repeat match goal with
    | |- context [re_match_operation ?w ?a] =>
        destruct (re_match_operation w a) eqn:?
    end; try done.
    all: intros [= <-].
    all: match goal with
         | H : re_match_operation ?w _ = true |- _ =>
             apply re_match_operation_iff in H as (dashes & rest & -> & Hd);
             exists (dashes +:+ w +:+ rest), dashes, w, rest
         end.
    all: split; [done|]; split; [done|]; split; [done|].
    all: repeat first [apply list_elem_of_here | apply list_elem_of_further].
  - intros (arg & dashes & word & rest & -> & -> & Hd & Hin).
    rewrite !re_match_operation_drop by done.
    rewrite drop_dashes_app by done.
    repeat (apply elem_of_cons in Hin as [[= -> ->]|Hin];
            [push_app; simpl; by destruct rest|]).
    by apply elem_of_nil in Hin.
Qed.

(** ** Supported distributions *)

Lemma vm_ver_match_numeric (supported_ver_split vm_ver_split : list string)
    (ns : list Z) :
  mapM PyInt.of_string vm_ver_split = Some ns ->
  forall (ms : list Z) (idx : nat),
    mapM PyInt.of_string supported_ver_split = Some ms ->
    exists b,
      vm_ver_match idx supported_ver_split vm_ver_split = Ok b /\
      (b = true <-> ms `prefix_of` drop idx ns).
Proof.
  intros Hvm%mapM_Some.
  induction supported_ver_split as [|s sups IH]; intros ms idx Hsup%mapM_Some.
  - apply Forall2_nil_inv_l in Hsup as ->. exists true.
    split; [done|]. split; [intros _; apply prefix_nil|done].
  - apply Forall2_cons_inv_l in Hsup as (m & ms' & Hs & Hrest & ->).
    cbn [vm_ver_match]. unfold py_int. rewrite Hs.
    destruct (vm_ver_split !! idx) as [v|] eqn:Hv.
    + destruct (Forall2_lookup_l _ _ _ _ _ Hvm Hv) as (n & Hn & Hvn).
      rewrite Hvn, (drop_S _ _ _ Hn).
      destruct (Z.eqb_spec n m) as [->|Hne]; cbn [negb].
      * destruct (IH ms' (S idx)) as (b & -> & Hb); [by apply mapM_Some|].
        exists b. split; [done|]. rewrite Hb. split.
        -- apply prefix_cons.
        -- apply prefix_cons_inv_2.
      * exists false. split; [done|]. split; [done|].
        intros Hp%prefix_cons_inv_1. congruence.
    + exists false. split; [done|]. split; [done|].
      rewrite drop_ge.
      * intros Hp. by apply prefix_nil_not in Hp.
      * apply lookup_ge_None in Hv.
        apply Forall2_length in Hvm. lia.
Qed.

Lemma any_ver_match_numeric (supported_vers vm_ver_split : list string)
    (ns : list Z) :
  mapM PyInt.of_string vm_ver_split = Some ns ->
  Forall (fun ver => is_Some (version_numbers ver)) supported_vers ->
  exists b,
    any_ver_match supported_vers vm_ver_split = Ok b /\
    (b = true <->
     exists ver ms,
       ver ∈ supported_vers /\ version_numbers ver = Some ms /\
       ms `prefix_of` ns).
Proof.
  intros Hvm. induction 1 as [|ver vers [ms Hms] _ IH].
  - exists false. split; [done|]. split; [done|].
    intros (ver & ms & Hin & _). by apply elem_of_nil in Hin.
  - cbn [any_ver_match].
    destruct (vm_ver_match_numeric _ _ ns Hvm ms 0%nat Hms) as (b & -> & Hb).
    rewrite drop_0 in Hb.
    destruct b.
    + exists true. split; [done|]. split; [|done]. intros _.
      exists ver, ms. split; [apply list_elem_of_here|]. split; [done|].
      by apply Hb.
    + destruct IH as (b & -> & Hb'). exists b. split; [done|].
      rewrite Hb'. split.
      * intros (ver' & ms' & Hin & ?). exists ver', ms'.
        split; [by apply list_elem_of_further|done].
      * intros (ver' & ms' & Hin & Hms' & Hp).
        apply elem_of_cons in Hin as [->|Hin]; [|by eauto].
        rewrite Hms in Hms'. simplify_eq.
        apply Hb in Hp. discriminate.
Qed.

Lemma vm_supported_among_numeric (dists : list (string * list string))
    (vm_dist vm_ver : string) (ns : list Z) :
  version_numbers vm_ver = Some ns ->
  Forall (fun dv => Forall (fun ver => is_Some (version_numbers ver)) dv.2)
    dists ->
  exists b,
    vm_supported_among dists vm_dist vm_ver = Ok b /\
    (b = true <->
     exists dist vers ver ms,
       (dist, vers) ∈ dists /\
       String.prefix dist (PyText.lower vm_dist) = true /\
       ver ∈ vers /\ version_numbers ver = Some ms /\
       ms `prefix_of` ns).
Proof.
  intros Hvm. induction 1 as [|[dist vers] dists Hvers _ IH].
  - exists false. split; [done|]. split; [done|].
    intros (? & ? & ? & ? & Hin & _). by apply elem_of_nil in Hin.
  - cbn [vm_supported_among].
    destruct IH as (b' & IHeq & IHb).
    destruct (String.prefix dist (PyText.lower vm_dist)) eqn:Hp; cbn [negb].
    + destruct (any_ver_match_numeric vers _ ns Hvm Hvers) as (b & -> & Hb).
      destruct b.
      * exists true. split; [done|]. split; [|done]. intros _.
        destruct (proj1 Hb eq_refl) as (ver & ms & ? & ? & ?).
        exists dist, vers, ver, ms.
        split; [apply list_elem_of_here|done].
      * exists b'. split; [done|]. rewrite IHb. split.
        -- intros (d & vs & ver & ms & Hin & ?). exists d, vs, ver, ms.
           split; [by apply list_elem_of_further|done].
        -- intros (d & vs & ver & ms & Hin & Hpre & Hver & Hms & Hprefix).
           apply elem_of_cons in Hin as [[= -> ->]|Hin]; [|by eauto 10].
           assert (false = true); [|done].
           apply Hb. eauto.
    + exists b'. split; [done|]. rewrite IHb. split.
      * intros (d & vs & ver & ms & Hin & ?). exists d, vs, ver, ms.
        split; [by apply list_elem_of_further|done].
      * intros (d & vs & ver & ms & Hin & Hpre & ?).
        apply elem_of_cons in Hin as [[= -> ->]|Hin]; [congruence|].
        by eauto 10.
Qed.

Lemma supported_dists_numeric :
  Forall (fun dv => Forall (fun ver => is_Some (version_numbers ver)) dv.2)
    supported_dists.
Proof. repeat constructor; eexists; vm_compute; reflexivity. Qed.

(** A version of the VM whose components are all numbers raises nothing:
    the VM is supported exactly when the name of its distribution, in
    lower case, starts with a distribution of the table, and the numbers
    of one of the versions listed for it are the first numbers of the
    version of the VM.  The comparison is between numbers, so 18.4 is
    18.04, and further components of the version of the VM are free. *)
Theorem is_vm_supported_for_extension_numeric (vm_dist vm_ver : string)
    (ns : list Z) :
  version_numbers vm_ver = Some ns ->
  exists vm_supported,
    is_vm_supported_for_extension vm_dist vm_ver
    = Ok (vm_supported, vm_dist, vm_ver) /\
    (vm_supported = true <->
     exists dist vers ver ms,
       (dist, vers) ∈ supported_dists /\
       String.prefix dist (PyText.lower vm_dist) = true /\
       ver ∈ vers /\ version_numbers ver = Some ms /\
       ms `prefix_of` ns).
Proof.
  intros Hvm.
  destruct (vm_supported_among_numeric supported_dists vm_dist vm_ver ns Hvm
              supported_dists_numeric) as (b & Hb & Hiff).
  exists b. unfold is_vm_supported_for_extension. by rewrite Hb.
Qed.

Lemma is_vm_supported_for_extension_numeric_witness :
exists vm_supported,
  is_vm_supported_for_extension "Ubuntu" "18.04.5"
  = Ok (vm_supported, "Ubuntu", "18.04.5") /\
  (vm_supported = true <->
   exists dist vers ver ms,
     (dist, vers) ∈ supported_dists /\
     String.prefix dist (PyText.lower "Ubuntu") = true /\
     ver ∈ vers /\ version_numbers ver = Some ms /\
     ms `prefix_of` [18; 4; 5]).
Proof.
apply (is_vm_supported_for_extension_numeric "Ubuntu" "18.04.5" [18; 4; 5]).
reflexivity.
Defined.

Lemma split_cons (sep s : string) :
  exists piece pieces, PyText.split sep s = piece :: pieces.
Proof. unfold PyText.split. destruct (PyText.split_go sep 0 s). eauto. Qed.

Lemma any_ver_match_raises (dv : string * list string)
    (vm_ver_split : list string) :
  first_version_numeric dv ->
  PyInt.of_string (hd "" vm_ver_split) = None ->
  vm_ver_split <> [] ->
  exists msg, any_ver_match dv.2 vm_ver_split = Raise (PyExn ValueError msg).
Proof.
  intros (ver & vers & c & cs & m & -> & Hsplit & Hc) Hhead Hne.
  destruct vm_ver_split as [|v vs]; [done|]. simpl in Hhead.
  cbn [any_ver_match]. rewrite Hsplit. cbn [vm_ver_match].
  unfold py_int. rewrite Hc. simpl. rewrite Hhead. eauto.
Qed.

Lemma vm_supported_among_raises (dists : list (string * list string))
    (vm_dist vm_ver : string) :
  Forall first_version_numeric dists ->
  PyInt.of_string (hd "" (PyText.split "." vm_ver)) = None ->
  (exists dist vers,
     (dist, vers) ∈ dists /\
     String.prefix dist (PyText.lower vm_dist) = true) ->
  exists msg,
    vm_supported_among dists vm_dist vm_ver = Raise (PyExn ValueError msg).
Proof.
  intros Hdists Hhead.
  induction Hdists as [|[d vs] dists Hfirst _ IH];
    intros (dist & vers & Hin & Hp).
  { by apply elem_of_nil in Hin. }
  cbn [vm_supported_among].
  destruct (String.prefix d (PyText.lower vm_dist)) eqn:Hd; cbn [negb].
  - destruct (any_ver_match_raises (d, vs) (PyText.split "." vm_ver))
      as [msg Hmsg]; [done|done| |].
    + destruct (split_cons "." vm_ver) as (p & ps & ->). done.
    + simpl in Hmsg. rewrite Hmsg. eauto.
  - apply IH. apply elem_of_cons in Hin as [[= -> ->]|Hin]; [congruence|].
    eauto.
Qed.

Lemma vm_supported_among_unknown (dists : list (string * list string))
    (vm_dist vm_ver : string) :
  (forall dist vers,
     (dist, vers) ∈ dists ->
     String.prefix dist (PyText.lower vm_dist) = false) ->
  vm_supported_among dists vm_dist vm_ver = Ok false.
Proof.
  induction dists as [|[d vs] dists IH]; intros Hnone; [done|].
  cbn [vm_supported_among].
  rewrite (Hnone d vs) by apply list_elem_of_here. cbn [negb].
  apply IH. intros dist vers Hin. apply (Hnone dist vers).
  by apply list_elem_of_further.
Qed.

Lemma supported_dists_first_version :
  Forall first_version_numeric supported_dists.
Proof.
  repeat constructor; unfold first_version_numeric;
    eexists _, _, _, _, _; (split; [reflexivity|]);
    (split; [vm_compute; reflexivity|]); vm_compute; reflexivity.
Qed.

(** For a distribution that is not in the table the answer is "not
    supported", whatever the version.  For a distribution of the table, a
    version whose first component is written in ASCII and is no number
    makes [is_vm_supported_for_extension] raise the [ValueError] of
    [int]: only the [IndexError] of a short version is caught. *)
Theorem is_vm_supported_for_extension_not_numeric (vm_dist vm_ver : string) :
  ((forall dist vers,
      (dist, vers) ∈ supported_dists ->
      String.prefix dist (PyText.lower vm_dist) = false) ->
   is_vm_supported_for_extension vm_dist vm_ver
   = Ok (false, vm_dist, vm_ver)) /\
  (forall dist vers,
     (dist, vers) ∈ supported_dists ->
     String.prefix dist (PyText.lower vm_dist) = true ->
     all_chars is_ascii (hd "" (PyText.split "." vm_ver)) = true ->
     PyInt.of_string (hd "" (PyText.split "." vm_ver)) = None ->
     exists msg,
       is_vm_supported_for_extension vm_dist vm_ver
       = Raise (PyExn ValueError msg)).
Proof.
  unfold is_vm_supported_for_extension. split.
  - intros Hnone. by rewrite vm_supported_among_unknown.
  - intros dist vers Hin Hp _ Hhead.
    destruct (vm_supported_among_raises supported_dists vm_dist vm_ver
                supported_dists_first_version Hhead) as [msg ->]; eauto.
Qed.

Lemma is_vm_supported_for_extension_not_numeric_witness :
  exists msg,
    is_vm_supported_for_extension "Debian GNU/Linux" "bullseye/sid"
    = Raise (PyExn ValueError msg).
Proof.
  apply (proj2 (is_vm_supported_for_extension_not_numeric
                  "Debian GNU/Linux" "bullseye/sid")
           "debian" ["8"; "9"; "10"]).
  - apply (bool_decide_unpack _). vm_compute. exact I.
  - reflexivity.
  - reflexivity.
  - reflexivity.
Defined.

(** ** The package manager *)

Lemma prefix_comparable (a b s : string) :
  String.prefix a s = true -> String.prefix b s = true ->
  String.prefix a b = true \/ String.prefix b a = true.
Proof.
  revert a b. induction s as [|c s IH]; intros a b Ha Hb.
  - destruct a; [|done]. left. by destruct b.
  - destruct a as [|x a]; [left; by destruct b|].
    destruct b as [|y b]; [by right|].
    simpl in *.
    destruct (Ascii.ascii_dec x c) as [->|?]; [|done].
    destruct (Ascii.ascii_dec y c) as [->|?]; [|done].
    destruct (Ascii.ascii_dec c c); [|done].
    by apply IH.
Qed.

Lemma vm_supported_among_true (dists : list (string * list string))
    (vm_dist vm_ver : string) :
  vm_supported_among dists vm_dist vm_ver = Ok true ->
  exists dist vers,
    (dist, vers) ∈ dists /\ String.prefix dist (PyText.lower vm_dist) = true.
Proof.
  induction dists as [|[d vs] dists IH]; [done|].
  cbn [vm_supported_among].
  destruct (String.prefix d (PyText.lower vm_dist)) eqn:Hd; cbn [negb].
  - intros _. exists d, vs. split; [apply list_elem_of_here|done].
  - intros (dist & vers & Hin & ?)%IH. exists dist, vers.
    split; [by apply list_elem_of_further|done].
Qed.

(** Two names of which neither starts with the other are not both at the
    start of [s]. *)
Ltac settle_prefix Hkey :=
  repeat match goal with
  | |- context [String.prefix ?e ?l] =>
      lazymatch type of Hkey with
      | String.prefix e l = true => rewrite Hkey
      | String.prefix ?k l = true =>
          let He := fresh "He" in
          destruct (String.prefix e l) eqn:He;
          [destruct (prefix_comparable _ _ _ He Hkey) as [Hc|Hc];
           vm_compute in Hc; discriminate|]
      end
  end.

(** A VM that [is_vm_supported_for_extension] accepts has a package
    manager: [find_package_manager] sets dpkg, with its options and the
    .deb bundle, for Debian and Ubuntu, and rpm, with its option and the
    .rpm bundle, for the other distributions of the table; it never leaves
    [PackageManager] empty for such a VM. *)
Theorem supported_vm_has_package_manager (vm_dist vm_ver : string)
    (g : package_globals) :
  is_vm_supported_for_extension vm_dist vm_ver = Ok (true, vm_dist, vm_ver) ->
  let g' := find_package_manager_loops vm_dist g in
  (exists dist,
     dist ∈ dpkg_set /\ String.prefix dist (PyText.lower vm_dist) = true /\
     g' = PackageGlobals "dpkg" "--force-overwrite --force-confnew"
            "azuremonitoragent.deb") \/
  (exists dist,
     dist ∈ rpm_set /\ String.prefix dist (PyText.lower vm_dist) = true /\
     g' = PackageGlobals "rpm" "--force" "azuremonitoragent.rpm").
Proof.
  unfold is_vm_supported_for_extension.
  destruct (vm_supported_among _ _ _) as [[]|] eqn:Hsup; try done.
  intros _.
  apply vm_supported_among_true in Hsup as (dist & vers & Hin & Hkey).
  unfold supported_dists in Hin.
  unfold find_package_manager_loops, dpkg_set, rpm_set. cbn [existsb].
  repeat (apply elem_of_cons in Hin as [[= -> ->]|Hin];
          [settle_prefix Hkey; simpl;
           first [left; eexists; split; [|split; [exact Hkey|reflexivity]]
                 |right; eexists; split; [|split; [exact Hkey|reflexivity]]];
           repeat first [apply list_elem_of_here | apply list_elem_of_further]
          |]).
  by apply elem_of_nil in Hin.
Qed.

Lemma supported_vm_has_package_manager_witness :
let g' := find_package_manager_loops "Red Hat Enterprise Linux Server"
            no_package_manager in
(exists dist,
   dist ∈ dpkg_set /\
   String.prefix dist (PyText.lower "Red Hat Enterprise Linux Server") = true /\
   g' = PackageGlobals "dpkg" "--force-overwrite --force-confnew"
          "azuremonitoragent.deb") \/
(exists dist,
   dist ∈ rpm_set /\
   String.prefix dist (PyText.lower "Red Hat Enterprise Linux Server") = true /\
   g' = PackageGlobals "rpm" "--force" "azuremonitoragent.rpm").
Proof.
apply (supported_vm_has_package_manager
         "Red Hat Enterprise Linux Server" "7.9" no_package_manager).
reflexivity.
Defined.

(** ** /etc/os-release *)

(** The first piece of a split at one character. *)
Lemma split_go_char_first (c : ascii) (s : string) :
  (PyText.split_go (String c "") 0 s).1 = before_char c s.
Proof.
  induction s as [|d s IH]; [done|].
  cbn [PyText.split_go before_char].
  replace (String.prefix (String c "") (String d s)) with (Ascii.eqb d c).
  2: { simpl. destruct (Ascii.ascii_dec c d) as [->|Hne].
       - rewrite Ascii.eqb_refl. by destruct s.
       - apply Ascii.eqb_neq. congruence. }
  destruct (Ascii.eqb d c).
  - by destruct (PyText.split_go _ _ s).
  - destruct (PyText.split_go _ 0 s) as [piece pieces]. simpl in *.
    by rewrite IH.
Qed.

Lemma split_char_first (c : ascii) (s : string) :
  PyText.split (String c "") s !! 0%nat = Some (before_char c s).
Proof.
  unfold PyText.split. rewrite <- split_go_char_first.
  by destruct (PyText.split_go _ _ s).
Qed.

(** The pieces after a first piece that holds no [c]. *)
Lemma split_char_app (c : ascii) (a b : string) :
  without c a = true ->
  PyText.split (String c "") (a +:+ String c b)
  = a :: PyText.split (String c "") b.
Proof.
  unfold PyText.split.
  induction a as [|d a IH]; push_app; intros Ha.
  - cbn [PyText.split_go]. simpl String.prefix.
    destruct (Ascii.ascii_dec c c); [|done].
    replace (String.prefix "" b) with true by (by destruct b).
    simpl. by destruct (PyText.split_go _ 0 b).
  - simpl in Ha. apply andb_true_iff in Ha as [Hd Ha].
    cbn [PyText.split_go]. simpl String.prefix.
    destruct (Ascii.ascii_dec c d) as [->|Hne].
    { by rewrite Ascii.eqb_refl in Hd. }
    specialize (IH Ha).
    destruct (PyText.split_go _ 0 (a +:+ String c b)) as [p ps].
    by simplify_eq.
Qed.

Lemma remove_app (c : ascii) (a b : string) :
  PyText.remove c (a +:+ b) = PyText.remove c a +:+ PyText.remove c b.
Proof.
  induction a as [|d a IH]; push_app; [done|].
  simpl. destruct (Ascii.eqb d c); push_app; by rewrite IH.
Qed.

Lemma remove_without (c : ascii) (s : string) :
  without c s = true -> PyText.remove c s = s.
Proof.
  induction s as [|d s IH]; [done|]. simpl.
  intros [Hd Hs]%andb_true_iff.
  destruct (Ascii.eqb d c); [done|]. by rewrite IH.
Qed.

Lemma before_char_without (c : ascii) (s : string) :
  without c s = true -> before_char c s = s.
Proof.
  induction s as [|d s IH]; [done|]. simpl.
  intros [Hd Hs]%andb_true_iff.
  destruct (Ascii.eqb d c); [done|]. by rewrite IH.
Qed.

Lemma without_app (c : ascii) (a b : string) :
  without c (a +:+ b) = without c a && without c b.
Proof.
  unfold without.
  induction a as [|d a IH]; push_app; [done|].
  simpl. by rewrite IH, andb_assoc.
Qed.

(** The value with its quotes, if any, and its newline: neither changes
    what the code takes for the value. *)
Lemma dressed_value (value : string) (quoted : bool) :
  without "="%char value = true ->
  without dquote_char value = true ->
  without newline_char value = true ->
  let dressed :=
    (if quoted then PyStr.dquote +:+ value +:+ PyStr.dquote else value)
    +:+ PyStr.newline in
  before_char "="%char dressed = dressed /\
  PyText.remove newline_char (PyText.remove dquote_char dressed) = value /\
  (without "-"%char value = true -> before_char "-"%char dressed = dressed).
Proof.
  intros Heq Hdq Hnl dressed. subst dressed.
  split; [|split].
  - apply before_char_without.
    destruct quoted; rewrite !without_app, Heq; reflexivity.
  - destruct quoted; rewrite !remove_app, (remove_without _ _ Hdq),
      ?remove_app, (remove_without _ _ Hnl).
    all: unfold PyStr.dquote, PyStr.newline, dquote_char, newline_char.
    all: simpl PyText.remove; push_app; by rewrite ?app_nil_r_str.
  - intros Hdash. apply before_char_without.
    destruct quoted; rewrite !without_app, Hdash; reflexivity.
Qed.

Lemma os_release_line_id (value : string) (quoted : bool)
    (fields : option string * option string) :
  without "="%char value = true -> without "-"%char value = true ->
  without dquote_char value = true -> without newline_char value = true ->
  os_release_line (os_release_entry "ID" value quoted) fields
  = Some (Some value, fields.2).
Proof.
  intros Heq Hdash Hdq Hnl. destruct fields as [vm_dist vm_ver].
  destruct (dressed_value value quoted Heq Hdq Hnl) as (Hb & Hr & Hd).
  unfold os_release_line, os_release_entry.
  set (dressed := (if quoted then _ else _) +:+ PyStr.newline) in *.
  change ("ID" +:+ "=" +:+ dressed) with ("ID" +:+ String "="%char dressed).
  replace (String.prefix "ID=" ("ID" +:+ String "=" dressed)) with true
    by (push_app; simpl; by destruct dressed).
  rewrite (split_char_app "=" "ID" dressed) by done.
  change ((?a :: ?l) !! 1%nat) with (l !! 0%nat).
  rewrite split_char_first. cbn [mbind option_bind]. rewrite Hb.
  rewrite split_char_first. cbn [mbind option_bind].
  rewrite (Hd Hdash), Hr. done.
Qed.

Lemma os_release_line_version (value : string) (quoted : bool)
    (fields : option string * option string) :
  without "="%char value = true ->
  without dquote_char value = true -> without newline_char value = true ->
  os_release_line (os_release_entry "VERSION_ID" value quoted) fields
  = Some (fields.1, Some value).
Proof.
  intros Heq Hdq Hnl. destruct fields as [vm_dist vm_ver].
  destruct (dressed_value value quoted Heq Hdq Hnl) as (Hb & Hr & _).
  unfold os_release_line, os_release_entry.
  set (dressed := (if quoted then _ else _) +:+ PyStr.newline) in *.
  change ("VERSION_ID" +:+ "=" +:+ dressed)
    with ("VERSION_ID" +:+ String "="%char dressed).
  replace (String.prefix "ID=" ("VERSION_ID" +:+ String "=" dressed))
    with false by (push_app; reflexivity).
  replace (String.prefix "VERSION_ID=" ("VERSION_ID" +:+ String "=" dressed))
    with true by (push_app; simpl; by destruct dressed).
  rewrite (split_char_app "=" "VERSION_ID" dressed) by done.
  change ((?a :: ?l) !! 1%nat) with (l !! 0%nat).
  rewrite split_char_first. cbn [mbind option_bind]. by rewrite Hb, Hr.
Qed.

Lemma os_release_fields_app (l1 l2 : list string)
    (fields : option string * option string) :
  os_release_fields (l1 ++ l2) fields
  = os_release_fields l1 fields ≫= os_release_fields l2.
Proof.
  revert fields. induction l1 as [|line l1 IH]; intros fields; [done|].
  cbn [os_release_fields app].
  destruct (os_release_line line fields) as [fields'|]; [|done].
  cbn [mbind option_bind]. apply IH.
Qed.

Lemma os_release_fields_other (lines : list string)
    (fields : option string * option string) :
  Forall other_entry lines -> os_release_fields lines fields = Some fields.
Proof.
  induction 1 as [|line lines [Hid Hver] _ IH]; [done|].
  cbn [os_release_fields]. unfold os_release_line.
  destruct fields as [vm_dist vm_ver]. rewrite Hid, Hver. exact IH.
Qed.

Lemma os_release_fields_skip (lines rest : list string)
    (fields : option string * option string) :
  Forall other_entry lines ->
  os_release_fields (lines ++ rest) fields = os_release_fields rest fields.
Proof.
  intros Hother.
  by rewrite os_release_fields_app, os_release_fields_other.
Qed.

Lemma os_release_fields_step (line : string) (rest : list string)
    (fields fields' : option string * option string) :
  os_release_line line fields = Some fields' ->
  os_release_fields ([line] ++ rest) fields = os_release_fields rest fields'.
Proof. intros Hline. simpl. by rewrite Hline. Qed.

(** The loop on the lines raises no [IndexError]. *)
Lemma os_release_line_total (line : string)
    (fields : option string * option string) :
  is_Some (os_release_line line fields).
Proof.
  unfold os_release_line. destruct fields as [vm_dist vm_ver].
  destruct (String.prefix "ID=" line) eqn:Hid.
  - apply prefix_iff in Hid as [rest ->].
    change ("ID=" +:+ rest) with ("ID" +:+ String "="%char rest).
    rewrite (split_char_app "=" "ID" rest) by done.
    change ((?a :: ?l) !! 1%nat) with (l !! 0%nat).
    rewrite split_char_first. cbn [mbind option_bind].
    rewrite split_char_first. by eexists.
  - destruct (String.prefix "VERSION_ID=" line) eqn:Hver; [|by eexists].
    apply prefix_iff in Hver as [rest ->].
    change ("VERSION_ID=" +:+ rest)
      with ("VERSION_ID" +:+ String "="%char rest).
    rewrite (split_char_app "=" "VERSION_ID" rest) by done.
    change ((?a :: ?l) !! 1%nat) with (l !! 0%nat).
    rewrite split_char_first. by eexists.
Qed.

(** What [find_vm_distro] reads in /etc/os-release.  The loop on the lines
    never fails on a piece that is not there.  From a file with one line
    for [ID] and one for [VERSION_ID], in either order, quoted or not,
    among lines for other keys, it takes the two values as they were
    written, provided they hold no [=], no quote and no newline, and the
    name no [-]. *)
Theorem os_release_round_trip (dist ver : string) (quoted_dist quoted_ver : bool)
    (before between after : list string)
    (fields : option string * option string) :
  without "="%char dist = true -> without "-"%char dist = true ->
  without dquote_char dist = true -> without newline_char dist = true ->
  without "="%char ver = true ->
  without dquote_char ver = true -> without newline_char ver = true ->
  Forall other_entry (before ++ between ++ after) ->
  (forall lines, is_Some (os_release_fields lines fields)) /\
  os_release_fields
    (before ++ [os_release_entry "ID" dist quoted_dist] ++ between ++
     [os_release_entry "VERSION_ID" ver quoted_ver] ++ after) fields
  = Some (Some dist, Some ver) /\
  os_release_fields
    (before ++ [os_release_entry "VERSION_ID" ver quoted_ver] ++ between ++
     [os_release_entry "ID" dist quoted_dist] ++ after) fields
  = Some (Some dist, Some ver).
Proof.
  intros Hd1 Hd2 Hd3 Hd4 Hv1 Hv2 Hv3 Hother.
  apply Forall_app in Hother as [Hbefore Hother].
  apply Forall_app in Hother as [Hbetween Hafter].
  split; [|split].
  - intros lines. revert fields.
    induction lines as [|line lines IH]; intros fields; [by eexists|].
    cbn [os_release_fields].
    destruct (os_release_line_total line fields) as [fields' ->].
    apply IH.
  - rewrite (os_release_fields_skip before) by done.
    rewrite (os_release_fields_step _ _ fields (Some dist, fields.2))
      by (by apply os_release_line_id).
    rewrite (os_release_fields_skip between) by done.
    rewrite (os_release_fields_step _ _ _ (Some dist, Some ver))
      by (by apply os_release_line_version).
    by apply os_release_fields_other.
  - rewrite (os_release_fields_skip before) by done.
    rewrite (os_release_fields_step _ _ fields (fields.1, Some ver))
      by (by apply os_release_line_version).
    rewrite (os_release_fields_skip between) by done.
    rewrite (os_release_fields_step _ _ _ (Some dist, Some ver))
      by (by apply os_release_line_id).
    by apply os_release_fields_other.
Qed.

Lemma os_release_round_trip_witness :
(forall lines, is_Some (os_release_fields lines (None, None))) /\
os_release_fields
  (["NAME=" +:+ "Ubuntu" +:+ PyStr.newline] ++
   [os_release_entry "ID" "ubuntu" false] ++
   ["ID_LIKE=debian" +:+ PyStr.newline] ++
   [os_release_entry "VERSION_ID" "20.04" true] ++
   ["VERSION_CODENAME=focal" +:+ PyStr.newline]) (None, None)
= Some (Some "ubuntu", Some "20.04") /\
os_release_fields
  (["NAME=" +:+ "Ubuntu" +:+ PyStr.newline] ++
   [os_release_entry "VERSION_ID" "20.04" true] ++
   ["ID_LIKE=debian" +:+ PyStr.newline] ++
   [os_release_entry "ID" "ubuntu" false] ++
   ["VERSION_CODENAME=focal" +:+ PyStr.newline]) (None, None)
= Some (Some "ubuntu", Some "20.04").
Proof.
apply (os_release_round_trip "ubuntu" "20.04" false true
         ["NAME=" +:+ "Ubuntu" +:+ PyStr.newline]
         ["ID_LIKE=debian" +:+ PyStr.newline]
         ["VERSION_CODENAME=focal" +:+ PyStr.newline] (None, None)).
all: try reflexivity.
repeat constructor.
Defined.


(** ** Free space *)

Section DiskSpaceFacts.
Context {W St : Type} `{System W} `{HasWorld W St}.

Lemma free_space_below (f_bavail f_frsize : Z) :
  (f_bavail * f_frsize) / (1024 * 1024) < 500 <->
  f_bavail * f_frsize < 524288000.
Proof.
  split; intros Hlt.
  - apply Z.nle_gt. intros Hge. apply Z.nle_gt in Hlt. apply Hlt.
    apply Z.div_le_lower_bound; lia.
  - apply Z.div_lt_upper_bound; lia.
Qed.

(** [check_disk_space_availability] raises nothing and answers 0 or 52.
    It answers 52 only on an answer of [os.statvfs], for /var, /etc or
    /opt, with fewer than 524288000 bytes (500 MB) available.  The
    directories are asked in this order and the first answer below the
    limit ends the check; when [os.statvfs] raises, the answer is 0. *)
Theorem check_disk_space_availability_result (s : St) :
  exists code s',
    check_disk_space_availability s = (Ok code, s', []) /\
    (code = 0 \/ code = 52) /\
    (code = 52 ->
     exists dirname w f_bavail f_frsize w',
       dirname ∈ ["/var"; "/etc"; "/opt"] /\
       sys_statvfs dirname w = (Ok (f_bavail, f_frsize), w') /\
       f_bavail * f_frsize < 524288000) /\
    (forall f_bavail f_frsize w',
       sys_statvfs "/var" (world_of s) = (Ok (f_bavail, f_frsize), w') ->
       f_bavail * f_frsize < 524288000 ->
       code = 52 /\ s' = with_world w' s) /\
    (forall e w',
       sys_statvfs "/var" (world_of s) = (Raise e, w') -> code = 0).
Proof.
  unfold check_disk_space_availability, get_free_space_mb, try_except,
    bind, ask, ret, raise, tell.
  destruct (sys_statvfs "/var" (world_of s)) as [[[b1 f1]|e1] w1] eqn:H1;
    simpl.
  2: { eexists _, _. split; [reflexivity|]. split; [by left|].
       split; [done|]. split; [done|]. done. }
  destruct (Z.ltb_spec (b1 * f1 / (1024 * 1024)) 500) as [Hlow1|Hok1]; simpl.
  { apply free_space_below in Hlow1.
    eexists _, _. split; [reflexivity|]. split; [by right|].
    split; [|split; [|done]].
    - intros _. exists "/var", (world_of s), b1, f1, w1.
      split; [apply list_elem_of_here|done].
    - intros ? ? ? [= <- <- <-] _. done. }
  assert (Hnot1 : ~ b1 * f1 < 524288000).
  { intros Hlt%free_space_below. lia. }
  destruct (sys_statvfs "/etc" _) as [[[b2 f2]|e2] w2] eqn:H2; simpl.
  2: { eexists _, _. split; [reflexivity|]. split; [by left|].
       split; [done|]. split; [|done].
       intros ? ? ? [= <- <- <-] ?. done. }
  destruct (Z.ltb_spec (b2 * f2 / (1024 * 1024)) 500) as [Hlow2|Hok2]; simpl.
  { apply free_space_below in Hlow2.
    eexists _, _. split; [reflexivity|]. split; [by right|].
    split; [|split; [|done]].
    - intros _. eexists "/etc", _, b2, f2, w2.
      split; [apply list_elem_of_further, list_elem_of_here|done].
    - intros ? ? ? [= <- <- <-] ?. done. }
  destruct (sys_statvfs "/opt" _) as [[[b3 f3]|e3] w3] eqn:H3; simpl.
  2: { eexists _, _. split; [reflexivity|]. split; [by left|].
       split; [done|]. split; [|done].
       intros ? ? ? [= <- <- <-] ?. done. }
  destruct (Z.ltb_spec (b3 * f3 / (1024 * 1024)) 500) as [Hlow3|Hok3]; simpl.
  { apply free_space_below in Hlow3.
    eexists _, _. split; [reflexivity|]. split; [by right|].
    split; [|split; [|done]].
    - intros _. eexists "/opt", _, b3, f3, w3.
      split; [do 2 apply list_elem_of_further; apply list_elem_of_here|done].
    - intros ? ? ? [= <- <- <-] ?. done. }
  eexists _, _. split; [reflexivity|]. split; [by left|].
  split; [done|]. split; [|done].
  intros ? ? ? [= <- <- <-] ?. done.
Qed.

End DiskSpaceFacts.

(** ** Splits at a text *)

Lemma prefix_head_ne (c d : ascii) (sep s : string) :
  Ascii.eqb d c = false -> String.prefix (String c sep) (String d s) = false.
Proof.
  intros Hne. simpl. destruct (Ascii.ascii_dec c d) as [->|?]; [|done].
  by rewrite Ascii.eqb_refl in Hne.
Qed.

(** The characters of an occurrence are passed over. *)
Lemma split_go_skip (sep x b : string) :
  PyText.split_go sep (String.length x) (x +:+ b) = PyText.split_go sep 0 b.
Proof.
  induction x as [|d x IH]; push_app; [done|].
  destruct b as [|e b].
  - rewrite app_nil_r_str in *. simpl. clear IH.
    induction x as [|e x IH]; [done|]. simpl. exact IH.
  - exact IH.
Qed.

(** The first piece goes on through the characters that are not the
    first of [sep]. *)
Lemma split_go_first_app (c : ascii) (sep a s : string) :
  without c a = true ->
  (PyText.split_go (String c sep) 0 (a +:+ s)).1
  = a +:+ (PyText.split_go (String c sep) 0 s).1.
Proof.
  induction a as [|d a IH]; push_app; [done|].
  simpl without. intros [Hd Ha]%andb_true_iff.
  apply negb_true_iff in Hd.
  cbn [PyText.split_go]. rewrite prefix_head_ne by done.
  specialize (IH Ha).
  destruct (PyText.split_go _ 0 (a +:+ s)) as [p ps]. simpl in *.
  by rewrite IH.
Qed.

(** The split at the first occurrence of [sep], after a text that does
    not hold the first character of [sep]. *)
Lemma split_app_first (c : ascii) (sep a b : string) :
  without c a = true ->
  PyText.split (String c sep) (a +:+ String c sep +:+ b)
  = a :: PyText.split (String c sep) b.
Proof.
  unfold PyText.split.
  induction a as [|d a IH]; push_app.
  - intros _. cbn [PyText.split_go].
    replace (String.prefix (String c sep) (String c (sep +:+ b))) with true.
    2: { symmetry. apply prefix_iff. by exists b. }
    replace (String.length (String c sep) - 1)%nat with (String.length sep)
      by (simpl; lia).
    rewrite split_go_skip.
    by destruct (PyText.split_go _ 0 b).
  - simpl without. intros [Hd Ha]%andb_true_iff.
    apply negb_true_iff in Hd.
    cbn [PyText.split_go]. rewrite prefix_head_ne by done.
    specialize (IH Ha).
    destruct (PyText.split_go _ 0 (a +:+ _)) as [p ps].
    by simplify_eq.
Qed.

Lemma split_lookup_0 (sep s : string) :
  PyText.split sep s !! 0%nat = Some (PyText.split_go sep 0 s).1.
Proof. unfold PyText.split. by destruct (PyText.split_go sep 0 s). Qed.

(** ** The IMDS endpoint *)

(** [get_arc_endpoint] reads back the address that azcmagent.conf sets:
    from a file that holds the setting of [url] after a text without
    quotes, it takes [url], for any [url] without quotes, whatever
    follows the setting. *)
Lemma arc_endpoint_in_setting (before url after : string) :
  without dquote_char before = true ->
  without dquote_char url = true ->
  arc_endpoint_in (before +:+ arc_endpoint_setting url +:+ after) = Some url.
Proof.
  intros Hbefore Hurl.
  assert (Hdata : before +:+ arc_endpoint_setting url +:+ after
                  = before +:+ String dquote_char "IMDS_ENDPOINT=" +:+
                    (url +:+ String dquote_char (String newline_char after))).
  { unfold arc_endpoint_setting, imds_endpoint_marker, imds_endpoint_end,
      PyStr.dquote, PyStr.newline.
    rewrite !app_assoc_str. reflexivity. }
  rewrite Hdata. unfold arc_endpoint_in.
  change imds_endpoint_marker with (String dquote_char "IMDS_ENDPOINT=").
  change imds_endpoint_end with (String dquote_char (String newline_char "")).
  rewrite (split_app_first dquote_char "IMDS_ENDPOINT=" before) by done.
  change ((?a :: ?l) !! 1%nat) with (l !! 0%nat).
  rewrite split_lookup_0. cbn [mbind option_bind].
  rewrite split_go_first_app by done.
  set (rest := (PyText.split_go (String dquote_char "IMDS_ENDPOINT=") 0
                  (String dquote_char (String newline_char after))).1).
  assert (Hrest : exists z, rest = String dquote_char (String newline_char z)).
  { subst rest. cbn [PyText.split_go].
    replace (String.prefix (String dquote_char "IMDS_ENDPOINT=")
               (String dquote_char (String newline_char after)))
      with false by reflexivity.
    replace (String.prefix (String dquote_char "IMDS_ENDPOINT=")
               (String newline_char after))
      with false by reflexivity.
    destruct (PyText.split_go _ 0 after) as [p' ps']. simpl. eauto. }
  destruct Hrest as [z ->].
  change (url +:+ String dquote_char (String newline_char z))
    with (url +:+ String dquote_char (String newline_char "") +:+ z).
  by rewrite (split_app_first dquote_char (String newline_char "") url z).
Qed.

Section ImdsFacts.
Context {W St : Type} `{Host W} `{System W} `{HasWorld W St}.

Lemma get_arc_endpoint_ok (s : St) :
  exists endpoint s' t,
    get_arc_endpoint s = (Ok endpoint, s', t) /\
    (t = [] \/
     endpoint = "" /\
     t = [EvLogError ("Unable to load Arc IMDS endpoint from " +:+
                      endpoint_filepath)]) /\
    (forall data w',
       host_read endpoint_filepath (world_of s) = (Ok data, w') ->
       endpoint = default "" (arc_endpoint_in data)).
Proof.
  unfold get_arc_endpoint, bind, ask, ret, hutil_log_error, emit.
  destruct (host_read _ _) as [[data|e] w1]; simpl.
  - destruct (arc_endpoint_in data) as [endpoint|] eqn:Harc; simpl.
    + eexists _, _, _. split; [reflexivity|]. split; [by left|].
      intros ? ? [= <- <-]. by rewrite Harc.
    + eexists _, _, _. split; [reflexivity|]. split; [by right|].
      intros ? ? [= <- <-]. by rewrite Harc.
  - eexists _, _, _. split; [reflexivity|]. split; [by right|]. done.
Qed.

(** [get_imds_endpoint] raises nothing and never answers the empty
    string, and the last line it logs names its answer.  When
    [systemctl status himdsd] fails, the answer is the address of Azure
    and no file is read.  When it succeeds, the answer is what
    [get_arc_endpoint] returns, with the path of the metadata service, or
    the address of Azure if [get_arc_endpoint] returns the empty string;
    a file that sets the address to [url] gives [url] with the path. *)
Theorem get_imds_endpoint_result (s : St) :
  (exists imds_endpoint s' t,
     get_imds_endpoint s = (Ok imds_endpoint, s', t) /\
     imds_endpoint <> "" /\
     last t = Some (EvLogInfo ("Using IMDS endpoint " +:+ PyStr.dquote +:+
                               imds_endpoint +:+ PyStr.dquote))) /\
  (forall check_arc w1,
     sys_system "systemctl status himdsd 1>/dev/null 2>&1" (world_of s)
     = (check_arc, w1) ->
     check_arc <> 0 ->
     get_imds_endpoint s
     = (Ok azure_imds_endpoint, with_world w1 s,
        [EvLogInfo ("Using IMDS endpoint " +:+ PyStr.dquote +:+
                    azure_imds_endpoint +:+ PyStr.dquote)])) /\
  (forall w1 endpoint s1 t1,
     sys_system "systemctl status himdsd 1>/dev/null 2>&1" (world_of s)
     = (0, w1) ->
     get_arc_endpoint (with_world w1 s) = (Ok endpoint, s1, t1) ->
     let imds_endpoint :=
       if String.eqb endpoint "" then azure_imds_endpoint
       else endpoint +:+ "/metadata/instance?api-version=2019-08-15" in
     get_imds_endpoint s
     = (Ok imds_endpoint, s1,
        [EvLogInfo "Arc is installed, loading Arc-specific IMDS endpoint"]
        ++ t1 ++
        (if String.eqb endpoint ""
         then [EvLogInfo "Falling back to default Azure IMDS endpoint"]
         else []) ++
        [EvLogInfo ("Using IMDS endpoint " +:+ PyStr.dquote +:+
                    imds_endpoint +:+ PyStr.dquote)])) /\
  (forall w1 before url after w2,
     sys_system "systemctl status himdsd 1>/dev/null 2>&1" (world_of s)
     = (0, w1) ->
     host_read endpoint_filepath (world_of (with_world w1 s))
     = (Ok (before +:+ arc_endpoint_setting url +:+ after), w2) ->
     without dquote_char before = true ->
     without dquote_char url = true ->
     url <> "" ->
     outcome_of (get_imds_endpoint s)
     = Ok (url +:+ "/metadata/instance?api-version=2019-08-15")).
Proof.
  assert (Hfailed : forall check_arc w1,
    sys_system "systemctl status himdsd 1>/dev/null 2>&1" (world_of s)
    = (check_arc, w1) ->
    check_arc <> 0 ->
    get_imds_endpoint s
    = (Ok azure_imds_endpoint, with_world w1 s,
       [EvLogInfo ("Using IMDS endpoint " +:+ PyStr.dquote +:+
                   azure_imds_endpoint +:+ PyStr.dquote)])).
  { intros check_arc w1 Hsys Hne.
    unfold get_imds_endpoint, is_arc_installed.
    unfold bind at 1, bind at 1, ask at 1. rewrite Hsys. unfold ret at 1.
    cbn beta iota.
    destruct (Z.eqb_spec check_arc 0) as [?|_]; [done|].
    unfold bind, hutil_log_info, emit, ret. reflexivity. }
  assert (Harc : forall w1 endpoint s1 t1,
    sys_system "systemctl status himdsd 1>/dev/null 2>&1" (world_of s)
    = (0, w1) ->
    get_arc_endpoint (with_world w1 s) = (Ok endpoint, s1, t1) ->
    get_imds_endpoint s
    = (Ok (if String.eqb endpoint "" then azure_imds_endpoint
           else endpoint +:+ "/metadata/instance?api-version=2019-08-15"),
       s1,
       [EvLogInfo "Arc is installed, loading Arc-specific IMDS endpoint"]
       ++ t1 ++
       (if String.eqb endpoint ""
        then [EvLogInfo "Falling back to default Azure IMDS endpoint"]
        else []) ++
       [EvLogInfo ("Using IMDS endpoint " +:+ PyStr.dquote +:+
                   (if String.eqb endpoint "" then azure_imds_endpoint
                    else endpoint +:+
                         "/metadata/instance?api-version=2019-08-15")
                   +:+ PyStr.dquote)])).
  { intros w1 endpoint s1 t1 Hsys Hget.
    unfold get_imds_endpoint, is_arc_installed.
    unfold bind at 1, bind at 1, ask at 1. rewrite Hsys. unfold ret at 1.
    cbn beta iota. change (0 =? 0) with true. cbn beta iota.
    unfold bind at 1, bind at 1, hutil_log_info at 1, emit at 1.
    unfold bind at 1. rewrite Hget.
    destruct (String.eqb endpoint ""); cbn [negb].
    - unfold bind, hutil_log_info, emit, ret. cbn beta iota.
      by rewrite <- !app_assoc.
    - unfold bind, hutil_log_info, emit, ret. cbn beta iota.
      by rewrite <- !app_assoc. }
  split; [|split; [exact Hfailed|split; [exact Harc|]]].
  - destruct (sys_system "systemctl status himdsd 1>/dev/null 2>&1"
                (world_of s)) as [check_arc w1] eqn:Hsys.
    destruct (Z.eq_dec check_arc 0) as [->|Hne].
    + destruct (get_arc_endpoint_ok (with_world w1 s))
        as (endpoint & s1 & t1 & Hget & _).
      rewrite (Harc w1 endpoint s1 t1 eq_refl Hget).
      eexists _, _, _. split; [reflexivity|]. split.
      * destruct (String.eqb_spec endpoint ""); [done|].
        by apply append_nonempty.
      * rewrite !app_assoc. apply last_snoc.
    + rewrite (Hfailed check_arc w1 eq_refl Hne).
      eexists _, _, _. split; [reflexivity|]. split; done.
  - intros w1 before url after w2 Hsys Hfile Hb Hu Hurl.
    destruct (get_arc_endpoint_ok (with_world w1 s))
      as (endpoint & s1 & t1 & Hget & _ & Hread).
    rewrite (Harc w1 endpoint s1 t1 Hsys Hget).
    specialize (Hread _ _ Hfile).
    rewrite arc_endpoint_in_setting in Hread by done.
    simpl in Hread. subst endpoint.
    destruct (String.eqb_spec url ""); [done|]. reflexivity.
Qed.

End ImdsFacts.
Section ArcWithoutFile.
#[local] Existing Instance quiet_host.
#[local] Existing Instance sim_system.

Lemma get_imds_endpoint_result_witness :
  get_imds_endpoint sim_idle
  = (Ok azure_imds_endpoint, sim_idle,
     [EvLogInfo "Arc is installed, loading Arc-specific IMDS endpoint";
      EvLogError ("Unable to load Arc IMDS endpoint from " +:+
                  endpoint_filepath);
      EvLogInfo "Falling back to default Azure IMDS endpoint";
      EvLogInfo ("Using IMDS endpoint " +:+ PyStr.dquote +:+
                 azure_imds_endpoint +:+ PyStr.dquote)]).
Proof.
  apply (proj1 (proj2 (proj2 (get_imds_endpoint_result sim_idle)))
           sim_idle "" sim_idle
           [EvLogError ("Unable to load Arc IMDS endpoint from " +:+
                        endpoint_filepath)]).
  - reflexivity.
  - reflexivity.
Defined.

End ArcWithoutFile.

(** ** The latest settings file *)

Lemma settings_re_go_digits (budget seen : nat) (s : string) :
  settings_re_go budget seen s = true ->
  exists digits rest,
    s = digits +:+ ".settings" +:+ rest /\
    all_chars PyStr.is_digit digits = true /\
    (1 <= seen + String.length digits)%nat /\
    (String.length digits <= budget)%nat.
Proof.
  revert seen s. induction budget as [|budget IH]; intros seen s;
    cbn [settings_re_go].
  - rewrite orb_true_iff, andb_true_iff.
    intros [[Hseen [rest ->]%prefix_iff]|Hno].
    + apply Nat.leb_le in Hseen. exists "", rest. simpl. repeat split; lia.
    + by destruct s.
  - rewrite orb_true_iff, andb_true_iff.
    intros [[Hseen [rest ->]%prefix_iff]|Hmore].
    + apply Nat.leb_le in Hseen. exists "", rest. simpl. repeat split; lia.
    + destruct s as [|c s]; [done|].
      apply andb_true_iff in Hmore as [Hc Hmore].
      destruct (IH _ _ Hmore) as (digits & rest & -> & Hd & Hlen & Hb).
      exists (String c digits), rest. simpl. rewrite Hc, Hd.
      repeat split; lia.
Qed.

Lemma rev_app_rev_app (s a : string) :
  String.rev_app (String.rev_app s a) "" = String.rev_app a s.
Proof.
  revert a. induction s as [|c s IH]; intros a; simpl; [done|].
  by rewrite IH.
Qed.

Lemma all_chars_rev_app (p : ascii -> bool) (s a : string) :
  all_chars p (String.rev_app s a) = all_chars p s && all_chars p a.
Proof.
  revert a. induction s as [|c s IH]; intros a; simpl; [done|].
  rewrite IH. simpl. destruct (p c), (all_chars p s); simpl; auto.
Qed.

Lemma lstrip_no_space (s : string) :
  all_chars (fun c => negb (PyStr.is_space c)) s = true -> PyStr.lstrip s = s.
Proof.
  destruct s as [|c s]; [done|]. simpl.
  intros [Hc _]%andb_true_iff. apply negb_true_iff in Hc. by rewrite Hc.
Qed.

Lemma strip_no_space (s : string) :
  all_chars (fun c => negb (PyStr.is_space c)) s = true -> PyStr.strip s = s.
Proof.
  intros Hs. unfold PyStr.strip, PyStr.rstrip.
  rewrite (lstrip_no_space s Hs), lstrip_no_space.
  - unfold String.rev. by rewrite rev_app_rev_app.
  - unfold String.rev. by rewrite all_chars_rev_app, Hs.
Qed.

Lemma all_chars_impl (p q : ascii -> bool) (s : string) :
  (forall c, p c = true -> q c = true) ->
  all_chars p s = true -> all_chars q s = true.
Proof.
  intros Hpq. induction s as [|c s IH]; [done|]. simpl.
  intros [Hc Hs]%andb_true_iff. by rewrite (Hpq c Hc), IH.
Qed.

Lemma digit_cases (c : ascii) :
  PyStr.is_digit c = true ->
  exists d : nat,
    Ascii.is_nat c = Some d /\ PyStr.is_space c = false /\
    c <> "+"%char /\ c <> "-"%char /\ c <> "."%char /\ c <> "_"%char.
Proof.
  unfold PyStr.is_digit.
  destruct c as [[] [] [] [] [] [] [] []]; simpl; try discriminate.
  all: intros _; eexists; repeat split; try reflexivity; discriminate.
Qed.

Lemma digits_nonneg (s : string) (acc : Z) :
  all_chars PyStr.is_digit s = true -> 0 <= acc ->
  exists n, PyInt.digits s acc false = Some n /\ 0 <= n.
Proof.
  revert acc. induction s as [|c s IH]; intros acc Hs Hacc; simpl.
  - eauto.
  - simpl in Hs. apply andb_true_iff in Hs as [Hc Hs].
    destruct (digit_cases c Hc) as (d & Hd & _ & _ & _ & _ & Hu).
    destruct (Ascii.eqb_spec c "_"); [done|].
    rewrite Hd. apply IH; [done|lia].
Qed.

(** [int] of a text of digits is a number that is not negative. *)
Lemma of_string_digits (s : string) :
  all_chars PyStr.is_digit s = true -> s <> "" ->
  exists n, PyInt.of_string s = Some n /\ 0 <= n.
Proof.
  intros Hs Hne. unfold PyInt.of_string.
  rewrite strip_no_space.
  2: { eapply all_chars_impl; [|exact Hs].
       intros c Hc. destruct (digit_cases c Hc) as (_ & _ & -> & _). done. }
  destruct s as [|c s]; [done|].
  simpl in Hs. apply andb_true_iff in Hs as [Hc Hs].
  destruct (digit_cases c Hc) as (d & Hd & _ & Hplus & Hminus & _).
  assert (Hu : exists n, PyInt.unsigned (String c s) = Some n /\ 0 <= n).
  { unfold PyInt.unsigned. rewrite Hd. apply digits_nonneg; [done|lia]. }
  destruct c as [[] [] [] [] [] [] [] []]; try done.
Qed.

Lemma before_char_app (c : ascii) (a b : string) :
  without c a = true -> before_char c (a +:+ String c b) = a.
Proof.
  induction a as [|d a IH]; push_app; simpl.
  - by rewrite Ascii.eqb_refl.
  - intros [Hd Ha]%andb_true_iff. apply negb_true_iff in Hd.
    by rewrite Hd, IH.
Qed.

(** The number of a settings file is there, and not negative. *)
Lemma settings_number_nonneg (file_name : string) :
  is_settings_file file_name = true ->
  exists n, settings_number file_name = Some n /\ 0 <= n.
Proof.
  unfold is_settings_file, settings_re_match, settings_number.
  intros (digits & rest & -> & Hd & Hlen & _)%settings_re_go_digits.
  rewrite split_char_first.
  change (digits +:+ ".settings" +:+ rest)
    with (digits +:+ String "."%char ("settings" +:+ rest)).
  rewrite before_char_app.
  2: { eapply all_chars_impl; [|exact Hd].
       intros c Hc. destruct (digit_cases c Hc) as (_ & _ & _ & _ & _ & ? & _).
       apply negb_true_iff. by apply Ascii.eqb_neq. }
  cbn [mbind option_bind].
  apply of_string_digits; [done|]. destruct digits; simpl in *; [lia|done].
Qed.

(** The loop from [latest]: either nothing newer is found, or the file
    found is newer than all before it and as new as all after it. *)
Lemma scan_files_latest (config_dir : string) (getmtime : string -> option Z)
    (names : list string) :
  settings_times config_dir getmtime (fun _ => True) names ->
  forall (latest_seq_no : Z) (latest_time : option Z),
    (scan_files config_dir getmtime names (latest_seq_no, latest_time)
     = (latest_seq_no, latest_time) /\
     settings_times config_dir getmtime
       (fun time => exists t, latest_time = Some t /\ time <= t) names) \/
    (exists before name after time,
       names = before ++ name :: after /\
       is_settings_file name = true /\
       getmtime (PyPath.join config_dir name) = Some time /\
       (exists n,
          settings_number name = Some n /\ 0 <= n /\
          scan_files config_dir getmtime names (latest_seq_no, latest_time)
          = (n, Some time)) /\
       (forall t, latest_time = Some t -> t < time) /\
       settings_times config_dir getmtime (fun t => t < time) before /\
       settings_times config_dir getmtime (fun t => t <= time) after).
Proof.
  induction 1 as [|name names Hname _ IH]; intros latest_seq_no latest_time.
  { left. split; [done|]. constructor. }
  cbn [scan_files]. unfold scan_file.
  fold (is_settings_file name).
  destruct (is_settings_file name) eqn:Hsettings; cbn [negb].
  2: { destruct (IH latest_seq_no latest_time)
         as [[Hscan Hall]|(before & f & after & time & -> & Hf & Htime & Hn
                           & Hnewer & Hbefore & Hafter)].
       - left. split; [done|]. constructor; [congruence|done].
       - right. exists (name :: before), f, after, time.
         split; [done|]. split; [done|]. split; [done|]. split; [done|].
         split; [done|]. split; [|done]. constructor; [congruence|done]. }
  destruct (Hname eq_refl) as (cur_time & Hcur & _).
  destruct (settings_number_nonneg name Hsettings) as (cur & Hnum & Hcur0).
  pose proof Hnum as Hnumber. unfold settings_number in Hnumber.
  destruct (PyText.split "." (PyPath.basename name) !! 0%nat) as [part|];
    [|done].
  cbn [mbind option_bind] in *. rewrite Hnumber, Hcur.
  cbn [mbind option_bind].
  assert (Hupdate :
    (forall t, latest_time = Some t -> t < cur_time) ->
    exists before f after time,
      name :: names = before ++ f :: after /\
      is_settings_file f = true /\
      getmtime (PyPath.join config_dir f) = Some time /\
      (exists n,
         settings_number f = Some n /\ 0 <= n /\
         scan_files config_dir getmtime names (cur, Some cur_time)
         = (n, Some time)) /\
      (forall t, latest_time = Some t -> t < time) /\
      settings_times config_dir getmtime (fun t => t < time) before /\
      settings_times config_dir getmtime (fun t => t <= time) after).
  { intros Hnewer0.
    destruct (IH cur (Some cur_time))
      as [[Hscan Hall]|(before & f & after & time & -> & Hf & Htime
                        & (n & Hn & Hn0 & Hscan) & Hnewer & Hbefore & Hafter)].
    - exists [], name, names, cur_time.
      split; [done|]. split; [done|]. split; [done|].
      split; [by exists cur|]. split; [done|]. split; [constructor|].
      eapply Forall_impl; [exact Hall|]. intros g Hg Hsg.
      destruct (Hg Hsg) as (u & Hu & t & [= <-] & Hle). eauto.
    - specialize (Hnewer cur_time eq_refl).
      exists (name :: before), f, after, time.
      split; [done|]. split; [done|]. split; [done|].
      split; [by exists n|].
      split; [intros t Ht; specialize (Hnewer0 t Ht); lia|].
      split; [|done]. constructor; [|done]. intros _. eauto. }
  destruct latest_time as [t0|].
  - destruct (Z.ltb_spec t0 cur_time) as [Hlt|Hge].
    + right. apply Hupdate. by intros t [= <-].
    + destruct (IH latest_seq_no (Some t0))
        as [[Hscan Hall]|(before & f & after & time & -> & Hf & Htime
                          & Hn & Hnewer & Hbefore & Hafter)].
      * left. split; [done|]. constructor; [|done].
        intros _. exists cur_time. split; [done|]. exists t0. split; [done|lia].
      * right. specialize (Hnewer t0 eq_refl) as Ht0.
        exists (name :: before), f, after, time.
        split; [done|]. split; [done|]. split; [done|]. split; [done|].
        split; [done|]. split; [|done]. constructor; [|done].
        intros _. exists cur_time. split; [done|lia].
  - right. apply Hupdate. done.
Qed.

Lemma settings_re_go_accepts (digits rest : string) :
  forall budget seen,
    all_chars PyStr.is_digit digits = true ->
    (1 <= seen + String.length digits)%nat ->
    (String.length digits <= budget)%nat ->
    settings_re_go budget seen (digits +:+ ".settings" +:+ rest) = true.
Proof.
  induction digits as [|c digits IH]; intros budget seen Hd Hseen Hbudget.
  - rewrite app_nil_l_str. simpl in Hseen.
    assert (Hp : String.prefix ".settings" (".settings" +:+ rest) = true)
      by (apply prefix_iff; eauto).
    destruct budget; cbn [settings_re_go]; rewrite Hp.
    all: destruct (Nat.leb_spec 1 seen) as [_|?]; [done|lia].
  - simpl in Hd, Hseen, Hbudget. apply andb_true_iff in Hd as [Hc Hd].
    destruct budget as [|budget]; [lia|].
    rewrite app_cons_str. cbn [settings_re_go]. rewrite Hc. cbn [andb].
    rewrite (IH budget (S seen)) by (done || lia).
    apply orb_true_r.
Qed.

(** The names that count as settings files: from 1 to 10 digits, then
    [.settings], then anything. *)
Lemma is_settings_file_iff (file_name : string) :
  is_settings_file file_name = true <->
  exists digits rest,
    PyPath.basename file_name = digits +:+ ".settings" +:+ rest /\
    all_chars PyStr.is_digit digits = true /\
    (1 <= String.length digits <= 10)%nat.
Proof.
  unfold is_settings_file, settings_re_match. split.
  - intros (digits & rest & ? & ? & ? & ?)%settings_re_go_digits.
    exists digits, rest. repeat split; (done || lia).
  - intros (digits & rest & -> & Hd & Hlen).
    apply settings_re_go_accepts; (done || lia).
Qed.

Lemma digit_value (c : ascii) :
  PyStr.is_digit c = true ->
  Ascii.is_nat c = Some (nat_of_ascii c - 48)%nat.
Proof.
  unfold PyStr.is_digit.
  destruct c as [[] [] [] [] [] [] [] []]; simpl; try discriminate; reflexivity.
Qed.

Lemma digits_decimal (s : string) (acc : Z) :
  all_chars PyStr.is_digit s = true ->
  PyInt.digits s acc false = Some (decimal_from acc s).
Proof.
  revert acc. induction s as [|c s IH]; intros acc Hs; [done|].
  simpl in Hs. apply andb_true_iff in Hs as [Hc Hs].
  destruct (digit_cases c Hc) as (_ & _ & _ & _ & _ & _ & Hu).
  cbn [PyInt.digits decimal_from].
  destruct (Ascii.eqb_spec c "_"); [done|].
  rewrite (digit_value c Hc). by apply IH.
Qed.

(** The number of a settings file is the one its digits write. *)
Lemma settings_number_decimal (file_name digits rest : string) :
  PyPath.basename file_name = digits +:+ ".settings" +:+ rest ->
  all_chars PyStr.is_digit digits = true ->
  digits <> "" ->
  settings_number file_name = Some (decimal digits).
Proof.
  intros Hname Hd Hne. unfold settings_number.
  rewrite Hname, split_char_first.
  change (digits +:+ ".settings" +:+ rest)
    with (digits +:+ String "."%char ("settings" +:+ rest)).
  rewrite before_char_app.
  2: { eapply all_chars_impl; [|exact Hd].
       intros c Hc. destruct (digit_cases c Hc) as (_ & _ & _ & _ & _ & ? & _).
       apply negb_true_iff. by apply Ascii.eqb_neq. }
  cbn [mbind option_bind].
  unfold PyInt.of_string.
  rewrite strip_no_space.
  2: { eapply all_chars_impl; [|exact Hd].
       intros c Hc. destruct (digit_cases c Hc) as (_ & _ & -> & _). done. }
  destruct digits as [|c digits]; [done|].
  simpl in Hd. apply andb_true_iff in Hd as [Hc Hd].
  assert (Hu : PyInt.unsigned (String c digits)
               = Some (decimal (String c digits))).
  { unfold PyInt.unsigned, decimal. rewrite (digit_value c Hc).
    cbn [decimal_from]. rewrite Z.mul_0_r, Z.add_0_l.
    by apply digits_decimal. }
  destruct (digit_cases c Hc) as (_ & _ & _ & Hplus & Hminus & _).
  destruct c as [[] [] [] [] [] [] [] []]; try done.
Qed.

(** [get_latest_seq_no] with nothing cached.  The number is never
    negative.  A name counts as a settings file when it starts with 1 to
    10 digits and [.settings], whatever follows, and its number is the
    one that these digits write.  When the time of every
    settings file of the walk can be read, the number is 0 if there is no
    settings file, and otherwise the number in the name of the settings
    file that was changed last, the first of them in the order of the
    walk if several were changed at the same time. *)
Theorem latest_seq_no_in_latest (config_dir : string)
    (walk : list (string * list string * list string))
    (getmtime : string -> option Z) :
  0 <= latest_seq_no_in config_dir walk getmtime /\
  (forall file_name,
     is_settings_file file_name = true <->
     exists digits rest,
       PyPath.basename file_name = digits +:+ ".settings" +:+ rest /\
       all_chars PyStr.is_digit digits = true /\
       (1 <= String.length digits <= 10)%nat) /\
  (forall file_name digits rest,
     PyPath.basename file_name = digits +:+ ".settings" +:+ rest ->
     all_chars PyStr.is_digit digits = true ->
     digits <> "" ->
     settings_number file_name = Some (decimal digits)) /\
  (settings_times config_dir getmtime (fun _ => True) (walk_file_names walk) ->
   ((forall name,
       name ∈ walk_file_names walk -> is_settings_file name = false) ->
    latest_seq_no_in config_dir walk getmtime = 0) /\
   ((exists name,
       name ∈ walk_file_names walk /\ is_settings_file name = true) ->
    exists before name after time,
      walk_file_names walk = before ++ name :: after /\
      is_settings_file name = true /\
      settings_number name
      = Some (latest_seq_no_in config_dir walk getmtime) /\
      getmtime (PyPath.join config_dir name) = Some time /\
      settings_times config_dir getmtime (fun t => t < time) before /\
      settings_times config_dir getmtime (fun t => t <= time) after)).
Proof.
  split; [|split; [apply is_settings_file_iff|
                   split; [apply settings_number_decimal|]]].
  { unfold latest_seq_no_in.
    destruct (scan_files _ _ _ _) as [n time].
    destruct (Z.ltb_spec n 0); lia. }
  intros Htimes. unfold latest_seq_no_in.
  set (names := walk_file_names walk) in *.
  destruct (scan_files_latest config_dir getmtime names Htimes (-1) None)
    as [[Hscan Hall]|(before & f & after & time & Hnames & Hf & Htime
                      & (n & Hn & Hn0 & Hscan) & _ & Hbefore & Hafter)].
  - rewrite Hscan. simpl. split; [done|].
    intros (name & Hin & Hname).
    unfold settings_times in Hall. rewrite Forall_forall in Hall.
    destruct (Hall name Hin Hname) as (? & _ & ? & ? & _). done.
  - rewrite Hscan.
    destruct (Z.ltb_spec n 0) as [?|_]; [lia|].
    split.
    + intros Hnone. rewrite (Hnone f) in Hf; [done|].
      rewrite Hnames. apply elem_of_app. right. apply list_elem_of_here.
    + intros _. by exists before, f, after, time.
Qed.

Lemma latest_seq_no_in_latest_witness :
exists before name after time,
  walk_file_names config_walk = before ++ name :: after /\
  is_settings_file name = true /\
  settings_number name
  = Some (latest_seq_no_in "/config" config_walk config_times) /\
  config_times (PyPath.join "/config" name) = Some time /\
  settings_times "/config" config_times (fun t => t < time) before /\
  settings_times "/config" config_times (fun t => t <= time) after.
Proof.
apply (proj2 (proj2 (proj2 (latest_seq_no_in_latest "/config" config_walk
                              config_times)))).
- repeat constructor.
  all: intros Hsettings; try (vm_compute in Hsettings; discriminate).
  all: eexists; split; [vm_compute; reflexivity|exact I].
- exists "0.settings". split; [apply list_elem_of_here|reflexivity].
Defined.

(** ** The file of defaults *)



Lemma occurs_in_here (piece a b : string) : occurs_in piece (a +:+ piece +:+ b).
Proof. by exists a, b. Qed.









(** ** The operations *)

Lemma services_app t1 t2 : services (t1 ++ t2) = services t1 ++ services t2.
Proof. apply filter_app. Qed.

Lemma services_liveness (a : agent) (up : bool) :
  services [EvLiveness a up] = [EvLiveness a up].
Proof. reflexivity. Qed.

Lemma services_nil : services [] = [].
Proof. reflexivity. Qed.

Section OperationFacts.
Context {W : Type} `{Host W} `{Machine W}.

(** [run_command_and_log] among the operations: it returns, runs its
    command and nothing else, and leaves the globals as they are. *)
Lemma run_command_and_log_process cmd check_error log_cmd (s : process W) :
  exists r w t,
    run_command_and_log cmd check_error log_cmd s
    = (Ok r, Process w (HUtilObject s) (package s), t) /\
    commands t = [cmd] /\ sleeps t = [] /\ services t = [].
Proof.
  unfold run_command_and_log, run_get_output, bind, ask, emit,
    try_except, stderr_write, hutil_log_info, ret, raise, bind, ask, emit.
  simpl.
  destruct (host_run_get_output _ _ _ _) as [[exit_code output] w1]; simpl.
  destruct log_cmd; simpl.
  all: destruct (exit_code =? 0) eqn:Hz; simpl.
  all: try (destruct (host_stderr_write _ _) as [[e|] w2]; simpl).
  all: try destruct (PyStr.contains "Permission denied" output); simpl.
  all: by eexists _, _, _.
Qed.

Lemma lift_run_command_and_log cmd check_error log_cmd (s : process W) :
  exists r w t,
    lift (run_command_and_log cmd check_error log_cmd) s
    = (Returns r, Process w (HUtilObject s) (package s), t) /\
    commands t = [cmd] /\ sleeps t = [] /\ services t = [].
Proof.
  destruct (run_command_and_log_process cmd check_error log_cmd s)
    as (r & w & t & Hrun & ?). unfold lift. rewrite Hrun. eauto 10.
Qed.

(** The loop on the lines of the pid file kills watchers only. *)
Lemma kill_watchers_commands (pids : list string) : forall s : process W,
  exists r w t,
    kill_watchers pids s = (r, Process w (HUtilObject s) (package s), t) /\
    Forall kills_a_watcher (commands t) /\ sleeps t = [] /\ services t = [].
Proof.
  induction pids as [|pid rest IH]; intros s.
  { destruct s. by eexists _, _, _. }
  cbn [kill_watchers].
  set (cmd_file := PyPath.join _ "cmdline").
  unfold op_bind at 1. unfold lift at 1, ask at 1.
  cbn [world_of with_world process_has_world].
  destruct (os_path_exists cmd_file (machine s)) as [there w1] eqn:Hthere.
  unfold op_bind at 1.
  destruct there.
  - unfold op_bind at 1. unfold lift at 1, ask at 1.
    cbn [world_of with_world process_has_world machine HUtilObject package].
    destruct (host_read cmd_file w1) as [[content|e] w2] eqn:Hread.
    + destruct (PyText.readlines content !! 0%nat) as [first|] eqn:Hfirst.
      * destruct (PyStr.contains "agent.py" first) eqn:Hagent;
          [destruct (PyStr.contains "-metrics" first) eqn:Hmetrics|];
          cbn [andb].
        -- unfold op_bind at 1.
           destruct (lift_run_command_and_log ("kill " +:+ pid) true true
                       (Process w2 (HUtilObject s) (package s)))
             as (r1 & w3 & t1 & Hrun & Hc1 & Hs1 & Hk1).
           rewrite Hrun. cbn [op_ret HUtilObject package].
           destruct (IH (Process w3 (HUtilObject s) (package s)))
             as (r & w & t & Hrest & Hc & Hs & Hk).
           rewrite Hrest. cbn [HUtilObject package].
           eexists _, _, _. split; [reflexivity|].
           rewrite !commands_app, !sleeps_app, !services_app, Hc1, Hs1, Hk1,
             Hs, Hk.
           repeat split; [|done..]. simpl.
           constructor; [|done].
           by exists pid, w1, content, w2, first.
        -- cbn [op_ret].
           destruct (IH (Process w2 (HUtilObject s) (package s)))
             as (r & w & t & Hrest & Hc & Hs & Hk).
           rewrite Hrest. cbn [HUtilObject package]. by eexists _, _, _.
        -- cbn [op_ret].
           destruct (IH (Process w2 (HUtilObject s) (package s)))
             as (r & w & t & Hrest & Hc & Hs & Hk).
           rewrite Hrest. cbn [HUtilObject package]. by eexists _, _, _.
      * cbn [op_fail]. by eexists _, _, _.
    + cbn [op_fail]. by eexists _, _, _.
  - cbn [op_ret].
    destruct (IH (Process w1 (HUtilObject s) (package s)))
      as (r & w & t & Hrest & Hc & Hs & Hk).
    rewrite Hrest. cbn [HUtilObject package]. by eexists _, _, _.
Qed.

Lemma is_running_process (a : agent) (s : process W) :
  exists up w,
    lift (is_running a) s
    = (Returns up, Process w (HUtilObject s) (package s), [EvLiveness a up]) /\
    (a = Telegraf -> up = (tel_is_running (machine s)).1).
Proof.
  unfold lift, is_running, bind, ask, emit, ret. simpl.
  destruct a; [destruct (tel_is_running _) | destruct (me_is_running _)].
  all: by eexists _, _.
Qed.

(** A service that runs is stopped, then removed. *)
Lemma stop_and_remove (stop remove : handler_call)
    (stop_service remove_service : W -> (bool * string) * W)
    (running : bool) (s : process W) :
  exists w t,
    (if running then
       let+ '(out, msg) := lift (call stop stop_service) in
       do+ log_outcome out msg then
       let+ '(rm_out, rm_msg) := lift (call remove remove_service) in
       log_outcome rm_out rm_msg
     else op_ret tt) s
    = (Returns tt, Process w (HUtilObject s) (package s), t) /\
    services t = (if running then [EvCall stop; EvCall remove] else []) /\
    commands t = [] /\ sleeps t = [].
Proof.
  destruct running; [|destruct s; by eexists _, _].
  unfold op_bind, lift, call, log_outcome, bind, ask, emit, hutil_log_info,
    hutil_log_error, emit. simpl.
  destruct (stop_service _) as [[out msg] w1]. simpl.
  destruct out; simpl.
  all: destruct (remove_service _) as [[rm_out rm_msg] w2]; simpl.
  all: destruct rm_out; simpl.
  all: by eexists _, _.
Qed.

(** What [stop_metrics_process] does, and the state it leaves. *)
Lemma stop_metrics_process_run (s : process W) :
  exists tel_up me_up kills rm w,
    (stop_metrics_process s).1.2 = Process w (HUtilObject s) (package s) /\
    tel_up = (tel_is_running (machine s)).1 /\
    services (stop_metrics_process s).2 = cleared_actions tel_up me_up /\
    commands (stop_metrics_process s).2 = kills ++ rm /\
    Forall kills_a_watcher kills /\
    sleeps (stop_metrics_process s).2 = [] /\
    match (stop_metrics_process s).1.1 with
    | Returns _ =>
        (kills = [] /\ rm = []) \/
        exists w, rm = ["rm " +:+ PyPath.join (os_getcwd w) "amametrics.pid"]
    | Fails _ => rm = []
    end.
Proof.
  remember (stop_metrics_process s) as run eqn:Hrun.
  unfold stop_metrics_process in Hrun.
  destruct (is_running_process Telegraf s) as (tel_up & w1 & Htel & Hup).
  specialize (Hup eq_refl).
  unfold op_bind at 1 in Hrun. rewrite Htel in Hrun.
  destruct (stop_and_remove StopTelegrafService RemoveTelegrafService
              tel_stop_telegraf_service tel_remove_telegraf_service tel_up
              (Process w1 (HUtilObject s) (package s)))
    as (w2 & t2 & Hblock1 & Hk2 & Hc2 & Hs2).
  unfold op_bind at 1 in Hrun. rewrite Hblock1 in Hrun.
  cbn [HUtilObject package] in Hrun.
  destruct (is_running_process MetricsExtension
              (Process w2 (HUtilObject s) (package s)))
    as (me_up & w3 & Hme & _).
  unfold op_bind at 1 in Hrun. rewrite Hme in Hrun.
  cbn [HUtilObject package] in Hrun.
  destruct (stop_and_remove StopMetricsService RemoveMetricsService
              me_stop_metrics_service me_remove_metrics_service me_up
              (Process w3 (HUtilObject s) (package s)))
    as (w4 & t4 & Hblock2 & Hk4 & Hc4 & Hs4).
  unfold op_bind at 1 in Hrun. rewrite Hblock2 in Hrun.
  cbn [HUtilObject package] in Hrun.
  exists tel_up, me_up.
  unfold op_bind at 1 in Hrun. unfold lift at 1, get at 1 in Hrun.
  cbn [machine] in Hrun.
  set (pids_filepath := PyPath.join (os_getcwd w4) "amametrics.pid") in Hrun.
  unfold op_bind at 1 in Hrun. unfold lift at 1, ask at 1 in Hrun.
  cbn [world_of with_world process_has_world machine HUtilObject package]
    in Hrun.
  destruct (os_path_exists pids_filepath w4) as [there w5].
  destruct there.
  - unfold op_bind at 1 in Hrun. unfold lift at 1, ask at 1 in Hrun.
    cbn [world_of with_world process_has_world machine HUtilObject package]
      in Hrun.
    destruct (host_read pids_filepath w5) as [[content|e] w6].
    + unfold op_bind at 1 in Hrun.
      destruct (kill_watchers_commands (PyText.readlines content)
                  (Process w6 (HUtilObject s) (package s)))
        as (r & w7 & t7 & Hkill & Hc7 & Hs7 & Hk7).
      rewrite Hkill in Hrun. cbn [HUtilObject package] in Hrun.
      destruct r as [[]|f].
      * unfold op_bind at 1 in Hrun.
        destruct (lift_run_command_and_log ("rm " +:+ pids_filepath) true
                    true (Process w7 (HUtilObject s) (package s)))
          as (r8 & w8 & t8 & Hrm & Hc8 & Hs8 & Hk8).
        rewrite Hrm in Hrun. cbn [op_ret] in Hrun. subst run. cbn [fst snd].
        exists (commands t7), ["rm " +:+ pids_filepath], w8.
        split; [done|]. split; [done|]. split.
        { rewrite !services_app, !services_liveness, !services_nil, Hk2, Hk4,
            Hk7, Hk8. by destruct tel_up, me_up. }
        rewrite !commands_app, !sleeps_app, Hc2, Hc4, Hs2, Hs4, Hs7, Hc8, Hs8.
        cbn [commands sleeps omap app]. rewrite !app_nil_r.
        repeat split; try done. right. by exists w4.
      * subst run. cbn [fst snd]. exists (commands t7), [], w7.
        split; [done|]. split; [done|]. split.
        { rewrite !services_app, !services_liveness, !services_nil, Hk2, Hk4,
            Hk7. by destruct tel_up, me_up. }
        rewrite !commands_app, !sleeps_app, Hc2, Hc4, Hs2, Hs4, Hs7.
        cbn [commands sleeps omap app]. rewrite !app_nil_r.
        repeat split; done.
    + cbn [op_fail] in Hrun. subst run. cbn [fst snd]. exists [], [], w6.
      split; [done|]. split; [done|]. split.
      { rewrite !services_app, !services_liveness, !services_nil, Hk2, Hk4.
        by destruct tel_up, me_up. }
      rewrite !commands_app, !sleeps_app, Hc2, Hc4, Hs2, Hs4.
      cbn [commands sleeps omap app]. rewrite ?app_nil_r.
      repeat split; done.
  - cbn [op_ret] in Hrun. subst run. cbn [fst snd]. exists [], [], w5.
    split; [done|]. split; [done|]. split.
    { rewrite !services_app, !services_liveness, !services_nil, Hk2, Hk4.
      by destruct tel_up, me_up. }
    rewrite !commands_app, !sleeps_app, Hc2, Hc4, Hs2, Hs4.
    cbn [commands sleeps omap app]. rewrite ?app_nil_r.
    repeat split; try done. by left.
Qed.


Lemma get_service_name_run (s : process W) :
  exists r w,
    get_service_name s = (r, Process w (HUtilObject s) (package s), []) /\
    match r with
    | Returns service_name =>
        service_name = "azuremonitoragent" \/
        service_name = "azuremonitoragentmgr"
    | Fails _ => True
    end.
Proof.
  unfold get_service_name, get_public_settings, op_bind, lift, get, ask.
  destruct s as [w0 hutil globals]. simpl.
  destruct hutil; simpl.
  - destruct (hutil_get_public_settings _) as [[members|] w]; simpl.
    + destruct (equals_True _); simpl; eexists _, _.
      all: split; [reflexivity|]; simpl; auto.
    + eexists _, _. split; [reflexivity|]; simpl; auto.
  - destruct (settings_from_files _) as [[[members|]|f] w]; simpl.
    + destruct (equals_True _); simpl; eexists _, _.
      all: split; [reflexivity|]; simpl; auto.
    + eexists _, _. split; [reflexivity|]; simpl; auto.
    + eexists _, _. split; [reflexivity|]; simpl; auto.
Qed.

Lemma is_systemd_run (s : process W) :
  exists systemd w,
    is_systemd s = (Returns systemd, Process w (HUtilObject s) (package s), []).
Proof.
  unfold is_systemd, lift, ask. simpl.
  destruct (os_path_isdir _ _). by eexists _, _.
Qed.

(** The status of the service is asked with one command, and added to
    the output when that command fails too. *)
Lemma with_status_result (status output : string) (s : process W)
    status_exit_code status_output s' t :
  run_command_and_log status true true s
  = (Ok (status_exit_code, status_output), s', t) ->
  with_status status output s
  = (Returns (output_with_status output status status_exit_code status_output),
     s', t).
Proof.
  intros Hrun. unfold with_status, op_bind, lift. rewrite Hrun.
  unfold output_with_status.
  destruct (status_exit_code =? 0); cbn [negb op_ret]; by rewrite app_nil_r.
Qed.

(** [disable] stops at a failure of [stop_metrics_process].  Otherwise,
    with the name of the service that [get_service_name] gives and the
    answer of [is_systemd], it runs the stop command of systemd or of
    init.d once.  When [run_command_and_log] gives the exit code 0 for it,
    [disable] returns 0 with the output of the command.  When it gives
    another exit code, [disable] runs the status command, and returns the
    exit code of the stop command with its output, to which the output of
    the status command is added when the status command failed too. *)
Theorem disable_commands (s : process W) :
  (forall f s0 t0,
     stop_metrics_process s = (Fails f, s0, t0) ->
     disable s = (Fails f, s0, t0)) /\
  (forall s0 t0 service_name s1 t1 systemd s2 t2 exit_code output s3 t3,
     stop_metrics_process s = (Returns tt, s0, t0) ->
     get_service_name s0 = (Returns service_name, s1, t1) ->
     is_systemd s1 = (Returns systemd, s2, t2) ->
     run_command_and_log
       (if systemd then systemctl_stop service_name
        else initd_stop service_name) true true s2
     = (Ok (exit_code, output), s3, t3) ->
     (exit_code = 0 ->
      disable s
      = (Returns (0, output), s3,
         t0 ++ t1 ++ t2 ++ initd_note systemd "stop" service_name ++ t3)) /\
     (exit_code <> 0 ->
      forall status_exit_code status_output s4 t4,
        run_command_and_log
          (if systemd then systemctl_status service_name
           else initd_status service_name) true true s3
        = (Ok (status_exit_code, status_output), s4, t4) ->
        disable s
        = (Returns
             (exit_code,
              output_with_status output
                (if systemd then systemctl_status service_name
                 else initd_status service_name)
                status_exit_code status_output),
           s4,
           t0 ++ t1 ++ t2 ++ initd_note systemd "stop" service_name
           ++ t3 ++ t4))) /\
  (forall s0 service_name s1 t1,
     get_service_name s0 = (Returns service_name, s1, t1) ->
     service_name = "azuremonitoragent" \/
     service_name = "azuremonitoragentmgr").
Proof.
  split; [|split].
  - intros f s0 t0 Hstop. unfold disable, op_bind. by rewrite Hstop.
  - intros s0 t0 service_name s1 t1 systemd s2 t2 exit_code output s3 t3
      Hstop Hname Hsystemd Hrun.
    unfold systemctl_stop, initd_stop in Hrun.
    remember (disable s) as run eqn:Hd.
    unfold disable in Hd.
    unfold op_bind at 1 in Hd. rewrite Hstop in Hd.
    unfold op_bind at 1 in Hd. rewrite Hname in Hd.
    unfold op_bind at 1 in Hd. rewrite Hsystemd in Hd.
    unfold op_bind at 1 in Hd.
    destruct systemd; cbn [negb initd_note] in *.
    + unfold op_ret at 1 in Hd. cbv beta iota in Hd.
      unfold op_bind at 1 in Hd. unfold lift at 1 in Hd. rewrite Hrun in Hd.
      unfold op_bind at 1 in Hd.
      split.
      * intros ->. cbn [Z.eqb negb] in Hd. unfold op_ret in Hd.
        subst run. by rewrite ?app_nil_r, ?app_nil_l.
      * intros Hne status_exit_code status_output s4 t4 Hstatus.
        destruct (Z.eqb_spec exit_code 0) as [?|_]; [done|].
        cbn [negb] in Hd.
        rewrite (with_status_result _ output s3 _ _ _ _ Hstatus) in Hd.
        unfold op_ret in Hd. subst run.
        by rewrite ?app_nil_r, ?app_nil_l, <- ?app_assoc.
    + unfold op_bind at 1 in Hd. unfold lift at 1, hutil_log_info at 1,
        emit at 1 in Hd. unfold op_ret at 1 in Hd. cbv beta iota in Hd.
      unfold op_bind at 1 in Hd. unfold lift at 1 in Hd. rewrite Hrun in Hd.
      unfold op_bind at 1 in Hd.
      split.
      * intros ->. cbn [Z.eqb negb] in Hd. unfold op_ret in Hd.
        subst run. by rewrite ?app_nil_r, ?app_nil_l, <- ?app_assoc.
      * intros Hne status_exit_code status_output s4 t4 Hstatus.
        destruct (Z.eqb_spec exit_code 0) as [?|_]; [done|].
        cbn [negb] in Hd.
        rewrite (with_status_result _ output s3 _ _ _ _ Hstatus) in Hd.
        unfold op_ret in Hd. subst run.
        by rewrite ?app_nil_r, ?app_nil_l, <- ?app_assoc.
  - intros s0 service_name s1 t1 Hname.
    destruct (get_service_name_run s0) as (r & w & Hrun & Hcases).
    rewrite Hrun in Hname. by simplify_eq.
Qed.

Lemma with_status_run (status output : string) (s : process W) :
  exists output' w t,
    with_status status output s
    = (Returns output', Process w (HUtilObject s) (package s), t).
Proof.
  destruct (run_command_and_log_process status true true s)
    as ([code out] & w & t & Hrun & _).
  rewrite (with_status_result _ output s _ _ _ _ Hrun). by eexists _, _, _.
Qed.

(** [log_and_exit] returns to no caller, and runs no command. *)
Lemma log_and_exit_run {A} (operation : string) (exit_code : Z)
    (message : string) (s : process W) :
  exists f w t,
    log_and_exit (A := A) operation exit_code message s
    = (Fails f, Process w (HUtilObject s) (package s), t) /\
    (HUtilObject s = true -> f = SystemExit exit_code) /\
    commands t = [] /\ sleeps t = [] /\ calls t = [].
Proof.
  unfold log_and_exit, waagent_log_info, waagent_log_error, op_bind, lift,
    tell, ask, get, hutil_log_info, hutil_log_error, emit, op_ret, op_fail.
  destruct s as [w0 hutil globals]. simpl.
  destruct (exit_code =? 0); simpl.
  all: destruct hutil; simpl; [by eexists _, _, _|].
  all: destruct (host_update_status_file _ _ _ _ _) as [[f|] w1]; simpl.
  all: by eexists _, _, _.
Qed.

Lemma find_vm_distro_run (operation : string) (s : process W) :
  exists r w t,
    find_vm_distro operation s
    = (r, Process w (HUtilObject s) (package s), t) /\
    commands t = [] /\ sleeps t = [] /\ calls t = [].
Proof.
  unfold find_vm_distro.
  set (after := fun pat : option string * option string => _).
  assert (Hfinish : forall vm_dist vm_ver (s1 : process W),
            exists r w t,
              after (vm_dist, vm_ver) s1
              = (r, Process w (HUtilObject s1) (package s1), t) /\
              commands t = [] /\ sleeps t = [] /\ calls t = []).
  { intros vm_dist vm_ver s1. subst after. cbv beta iota.
    destruct (_ || _).
    - unfold op_bind at 1. unfold lift at 1, ask at 1.
      cbn [world_of with_world process_has_world].
      destruct (host_read _ _) as [[content|e] w1].
      + destruct (os_release_fields _ _) as [fields|].
        * by eexists _, _, _.
        * destruct (log_and_exit_run (A := option string * option string)
                      operation IndeterminateOperatingSystem
                      "Indeterminate operating system"
                      (Process w1 (HUtilObject s1) (package s1)))
            as (f & w & t & Hexit & _ & ?).
          rewrite Hexit. cbn [HUtilObject package]. rewrite app_nil_l.
          by eexists _, _, _.
      + destruct (log_and_exit_run (A := option string * option string)
                    operation IndeterminateOperatingSystem
                    "Indeterminate operating system"
                    (Process w1 (HUtilObject s1) (package s1)))
          as (f & w & t & Hexit & _ & ?).
        rewrite Hexit. cbn [HUtilObject package]. rewrite app_nil_l.
        by eexists _, _, _.
    - destruct s1. by eexists _, _, _. }
  clearbody after.
  unfold op_bind at 1. unfold lift at 1, ask at 1.
  cbn [world_of with_world process_has_world].
  destruct (platform_linux_distribution _) as [[[[vm_dist vm_ver] vm_id]|] w1].
  - unfold op_bind at 1. cbn [op_ret].
    destruct (Hfinish (Some vm_dist) (Some vm_ver)
                (Process w1 (HUtilObject s) (package s)))
      as (r & w & t & Hrun & ?).
    rewrite Hrun. by eexists _, _, _.
  - unfold op_bind at 1, op_bind at 1. unfold lift at 1, ask at 1.
    cbn [world_of with_world process_has_world machine HUtilObject package].
    destruct (platform_dist _) as [[[[vm_dist vm_ver] vm_id]|] w2].
    + cbn [op_ret].
      destruct (Hfinish (Some vm_dist) (Some vm_ver)
                  (Process w2 (HUtilObject s) (package s)))
        as (r & w & t & Hrun & ?).
      rewrite Hrun. by eexists _, _, _.
    + unfold op_bind at 1. unfold lift at 1, hutil_log_info at 1, emit at 1.
      cbn [op_ret].
      destruct (Hfinish None None (Process w2 (HUtilObject s) (package s)))
        as (r & w & t & Hrun & ?).
      rewrite Hrun. by eexists _, _, _.
Qed.


End OperationFacts.

Section UninstallFacts.
Context {W St : Type} `{Host W} `{HasWorld W St}.


End UninstallFacts.

Section UninstallRuns.
Context {W : Type} `{Host W} `{Machine W}.


End UninstallRuns.

Section EnableFacts.
Context {W : Type} `{Host W} `{Machine W}.

Lemma start_metrics_process_run (s : process W) :
  exists r w t,
    start_metrics_process s = (r, Process w (HUtilObject s) (package s), t).
Proof.
  unfold start_metrics_process.
  destruct (stop_metrics_process_run s)
    as (_ & _ & _ & _ & w0 & Hstate & _).
  unfold op_bind at 1.
  destruct (stop_metrics_process s) as [[[[]|f] s0] t0];
    cbn [fst snd] in Hstate; subst s0; [|by eexists _, _, _].
  unfold op_bind, lift, get, ask, hutil_log_info, emit. simpl.
  destruct (open_for_writing _ _) as [[e|] w1]; simpl; [by eexists _, _, _|].
  destruct (subprocess_Popen _ _) as [[e|] w2]; simpl; by eexists _, _, _.
Qed.

Lemma exit_if_vm_not_supported_run (operation : string) (s : process W) :
  exists r w t,
    exit_if_vm_not_supported operation s
    = (r, Process w (HUtilObject s) (package s), t).
Proof.
  unfold exit_if_vm_not_supported, is_vm_supported_for_extension_of.
  destruct (find_vm_distro_run operation s) as (r & w & t & Hdistro & _).
  unfold op_bind at 1, op_bind at 1. rewrite Hdistro.
  destruct r as [[[dist|] [ver|]]|f]; cbn [op_fail].
  2: destruct (existsb _ _); cbn [op_fail op_ret].
  1: destruct (is_vm_supported_for_extension dist ver)
       as [[[vm_supported ?] ?]|e]; cbn [op_fail op_ret].
  all: try by eexists _, _, _.
  all: try destruct vm_supported; cbn [negb].
  all: unfold op_bind at 1.
  all: try (cbn [op_ret]; by eexists _, _, _).
  all: match goal with
       | |- context [log_and_exit ?o ?c ?m ?st] =>
           destruct (log_and_exit_run (A := unit) o c m st)
             as (f & w1 & t1 & Hexit & _);
           rewrite Hexit; by eexists _, _, _
       end.
Qed.

Lemma start_metrics_process_logs (s s' : process W) t :
  start_metrics_process s = (Returns tt, s', t) ->
  exists args, EvLogInfo ("start watcher process " +:+ args) ∈ t.
Proof.
  unfold start_metrics_process. unfold op_bind at 1.
  destruct (stop_metrics_process s) as [[[[]|f] s0] t0]; [|done].
  unfold op_bind, lift, get, ask, hutil_log_info, emit. simpl.
  destruct (open_for_writing _ _) as [[e|] w1]; simpl; [done|].
  destruct (subprocess_Popen _ _) as [[e|] w2]; simpl; [done|].
  intros [= <- <-]. eexists.
  apply elem_of_app. right. apply list_elem_of_here.
Qed.

(** Without a handler utility ([HUtilObject] is [None]), [enable] never
    returns the exit code 0.  When the VM is supported and the command
    that starts the service, of systemd or of init.d, succeeds, [enable]
    goes on to [start_metrics_process], which starts the watcher, and
    then raises the [AttributeError] of [HUtilObject.save_seq()] instead
    of returning. *)
Theorem enable_needs_handler_utility (s : process W) :
  HUtilObject s = false ->
  (forall exit_code output,
     (enable s).1.1 = Returns (exit_code, output) -> exit_code <> 0) /\
  (forall z s1 t1 service_name s2 t2 systemd s3 t3 output s4 t4 s5 t5,
     exit_if_vm_not_supported "Enable" s = (Returns z, s1, t1) ->
     get_service_name s1 = (Returns service_name, s2, t2) ->
     is_systemd s2 = (Returns systemd, s3, t3) ->
     run_command_and_log
       (if systemd then systemctl_start service_name
        else initd_start service_name) true true s3
     = (Ok (0, output), s4, t4) ->
     start_metrics_process s4 = (Returns tt, s5, t5) ->
     enable s
     = (Fails (Exception "AttributeError"
                 "'NoneType' object has no attribute 'save_seq'"),
        s5,
        t1 ++ t2 ++ t3 ++ initd_note systemd "start" service_name ++
        [EvLogInfo "Handler initiating onboarding."] ++ t4 ++ t5) /\
     exists args, EvLogInfo ("start watcher process " +:+ args) ∈ t5).
Proof.
  intros Hnone. split.
  - intros exit_code output.
    remember (enable s) as run eqn:Hrun.
    unfold enable in Hrun.
    unfold op_bind at 1 in Hrun. unfold lift at 1, get at 1 in Hrun.
    rewrite Hnone in Hrun.
    unfold op_bind at 1 in Hrun. unfold op_ret at 1 in Hrun.
    cbv beta iota in Hrun.
    destruct (exit_if_vm_not_supported_run "Enable" s)
      as (r1 & w1 & t1 & Hsupported).
    unfold op_bind at 1 in Hrun. rewrite Hsupported, Hnone in Hrun.
    destruct r1 as [?|f1]; [|by subst run].
    destruct (get_service_name_run (Process w1 false (package s)))
      as (r2 & w2 & Hname & _).
    unfold op_bind at 1 in Hrun. rewrite Hname in Hrun.
    cbn [HUtilObject package] in Hrun.
    destruct r2 as [service_name|f2]; [|by subst run].
    destruct (is_systemd_run (Process w2 false (package s)))
      as (systemd & w3 & Hsystemd).
    unfold op_bind at 1 in Hrun. rewrite Hsystemd in Hrun.
    cbn [HUtilObject package] in Hrun.
    unfold op_bind at 1 in Hrun.
    destruct systemd; cbn [negb] in Hrun.
    2: unfold op_bind at 1 in Hrun;
       unfold lift at 1, hutil_log_info at 1, emit at 1 in Hrun.
    all: unfold op_ret at 1 in Hrun; cbv beta iota in Hrun.
    all: unfold op_bind at 1 in Hrun;
      unfold lift at 1, hutil_log_info at 1, emit at 1 in Hrun.
    all: match type of Hrun with
         | context [lift (run_command_and_log ?c true true)] =>
             destruct (lift_run_command_and_log c true true
                         (Process w3 false (package s)))
               as ([code out] & w4 & t4 & Hstart & _)
         end.
    all: unfold op_bind at 1 in Hrun; rewrite Hstart in Hrun.
    all: cbn [HUtilObject package] in Hrun.
    all: destruct (Z.eqb_spec code 0) as [Hcode|Hcode].
    all: unfold op_bind at 1 in Hrun.
    1, 3: destruct (start_metrics_process_run (Process w4 false (package s)))
            as (r5 & w5 & t5 & Hwatcher);
          rewrite Hwatcher in Hrun; cbn [HUtilObject package] in Hrun;
          destruct r5 as [[]|f5]; [|by subst run];
          unfold op_bind at 1 in Hrun; unfold lift at 1, get at 1 in Hrun;
          cbn [HUtilObject op_fail] in Hrun; by subst run.
    all: match type of Hrun with
         | context [with_status ?c ?o ?st] =>
             destruct (with_status_run c o st)
               as (out' & w5 & t5 & Hstatus)
         end.
    all: rewrite Hstatus in Hrun; cbn [op_ret] in Hrun; subst run.
    all: cbn [fst snd]; congruence.
  - intros z s1 t1 service_name s2 t2 systemd s3 t3 output s4 t4 s5 t5
      Hsupported Hname Hsystemd Hstart Hwatcher.
    split; [|by apply (start_metrics_process_logs s4 s5)].
    assert (Hnone5 : HUtilObject s5 = false).
    { destruct (exit_if_vm_not_supported_run "Enable" s) as (? & ? & ? & E1).
      destruct (get_service_name_run s1) as (? & ? & E2 & _).
      destruct (is_systemd_run s2) as (? & ? & E3).
      destruct (run_command_and_log_process
                  (if systemd then systemctl_start service_name
                   else initd_start service_name) true true s3)
        as (? & ? & ? & E4 & _).
      destruct (start_metrics_process_run s4) as (? & ? & ? & E5).
      rewrite Hsupported in E1. rewrite Hname in E2. rewrite Hsystemd in E3.
      rewrite Hstart in E4. rewrite Hwatcher in E5.
      simplify_eq. simpl. exact Hnone. }
    unfold systemctl_start, initd_start in Hstart.
    unfold enable.
    unfold op_bind at 1. unfold lift at 1, get at 1. rewrite Hnone.
    unfold op_bind at 1. unfold op_ret at 1. cbv beta iota.
    unfold op_bind at 1. rewrite Hsupported.
    unfold op_bind at 1. rewrite Hname.
    unfold op_bind at 1. rewrite Hsystemd.
    unfold op_bind at 1.
    destruct systemd; cbn [negb initd_note].
    + unfold op_ret at 1. cbv beta iota.
      unfold op_bind at 1. unfold lift at 1, hutil_log_info at 1, emit at 1.
      unfold op_bind at 1. unfold lift at 1. rewrite Hstart.
      cbn [Z.eqb]. unfold op_bind at 1. rewrite Hwatcher.
      unfold op_bind at 1. unfold lift at 1, get at 1. rewrite Hnone5.
      unfold op_fail. by rewrite ?app_nil_r, ?app_nil_l, <- ?app_assoc.
    + unfold op_bind at 1. unfold lift at 1, hutil_log_info at 1, emit at 1.
      unfold op_ret at 1. cbv beta iota.
      unfold op_bind at 1. unfold lift at 1, hutil_log_info at 1, emit at 1.
      unfold op_bind at 1. unfold lift at 1. rewrite Hstart.
      cbn [Z.eqb]. unfold op_bind at 1. rewrite Hwatcher.
      unfold op_bind at 1. unfold lift at 1, get at 1. rewrite Hnone5.
      unfold op_fail. by rewrite ?app_nil_r, ?app_nil_l, <- ?app_assoc.
Qed.

End EnableFacts.

Section QuietMachine.
#[local] Existing Instance quiet_host.
#[local] Existing Instance sim_machine.

Lemma enable_needs_handler_utility_witness :
  (enable sim_process_without_hutil).1.1
  = Fails (Exception "AttributeError"
             "'NoneType' object has no attribute 'save_seq'") /\
  exists args,
    EvLogInfo ("start watcher process " +:+ args)
    ∈ (enable sim_process_without_hutil).2.
Proof.
  set (s := sim_process_without_hutil).
  set (r1 := exit_if_vm_not_supported "Enable" s).
  set (r2 := get_service_name r1.1.2).
  set (r3 := is_systemd r2.1.2).
  set (r4 := run_command_and_log (St := process sim)
               (systemctl_start "azuremonitoragent") true true r3.1.2).
  set (r5 := start_metrics_process r4.1.2).
  destruct (proj2 (enable_needs_handler_utility s eq_refl)
              0 r1.1.2 r1.2 "azuremonitoragent" r2.1.2 r2.2 true r3.1.2 r3.2
              "" r4.1.2 r4.2 r5.1.2 r5.2)
    as [Henable (args & Hargs)].
  - vm_compute. reflexivity.
  - vm_compute. reflexivity.
  - vm_compute. reflexivity.
  - vm_compute. reflexivity.
  - vm_compute. reflexivity.
  - rewrite Henable. split; [reflexivity|].
    exists args. cbn [snd].
    rewrite !elem_of_app. do 6 right. exact Hargs.
Defined.

End QuietMachine.

Section LockedMachine.
#[local] Existing Instance locked_host.
#[local] Existing Instance sim_machine.

Lemma disable_commands_witness :
  exists output s' t,
    disable sim_process_without_hutil = (Returns (1, output), s', t) /\
    commands t
    = [systemctl_stop "azuremonitoragent";
       systemctl_status "azuremonitoragent"].
Proof.
  set (s := sim_process_without_hutil).
  set (r0 := stop_metrics_process s).
  set (r1 := get_service_name r0.1.2).
  set (r2 := is_systemd r1.1.2).
  set (r3 := run_command_and_log (St := process sim)
               (systemctl_stop "azuremonitoragent") true true r2.1.2).
  set (r4 := run_command_and_log (St := process sim)
               (systemctl_status "azuremonitoragent") true true r3.1.2).
  destruct (proj1 (proj2 (disable_commands s))
              r0.1.2 r0.2 "azuremonitoragent" r1.1.2 r1.2 true r2.1.2 r2.2
              1 (locked_shell "").2 r3.1.2 r3.2) as [_ Hfailed].
  - vm_compute. reflexivity.
  - vm_compute. reflexivity.
  - vm_compute. reflexivity.
  - vm_compute. reflexivity.
  - rewrite (Hfailed ltac:(lia) 1 (locked_shell "").2 r4.1.2 r4.2
               ltac:(vm_compute; reflexivity)).
    eexists _, _, _. split; [reflexivity|]. vm_compute. reflexivity.
Defined.


End LockedMachine.

(** ** [get_managed_identity] on settings of any shape *)

Lemma json_get_elem (members : list (string * json)) (key : string) (v : json) :
  NoDup members.*1 -> (key, v) ∈ members -> json_get members key = Some v.
Proof.
  induction members as [|[k x] rest IH]; intros Hnodup Hin.
  { by apply elem_of_nil in Hin. }
  apply NoDup_cons in Hnodup as [Hfresh Hnodup].
  cbn [json_get].
  apply elem_of_cons in Hin as [[= <- <-]|Hin].
  - by rewrite String.eqb_refl.
  - destruct (String.eqb_spec k key) as [->|_]; [|by apply IH].
    exfalso. apply Hfresh. apply list_elem_of_fmap. by exists (key, v).
Qed.

Lemma json_get_absent (members : list (string * json)) (key : string) :
  key ∉ members.*1 -> json_get members key = None.
Proof.
  induction members as [|[k x] rest IH]; intros Hout; [done|].
  cbn [json_get].
  destruct (String.eqb_spec k key) as [->|_].
  - exfalso. apply Hout. apply list_elem_of_here.
  - apply IH. intros Hin. apply Hout. by apply list_elem_of_further.
Qed.








(** On settings whose [managedIdentity] is a dict of strings, the function
    is the one that the watcher of the first part calls. *)
Lemma json_get_strings (mi : gmap string string) (key : string) :
  json_get (strings_json (map_to_list mi)) key = JString <$> mi !! key.
Proof.
  destruct (mi !! key) as [v|] eqn:Hlookup; simpl.
  - apply json_get_elem.
    + unfold strings_json. rewrite <- list_fmap_compose.
      apply NoDup_fst_map_to_list.
    + apply list_elem_of_fmap. exists (key, v).
      split; [done|]. by apply elem_of_map_to_list.
  - apply json_get_absent. unfold strings_json.
    rewrite <- list_fmap_compose. intros Hin.
    apply list_elem_of_fmap in Hin as ([k v] & Hk & Hin). simpl in Hk. subst k.
    apply elem_of_map_to_list in Hin. congruence.
Qed.

Lemma get_managed_identity_of_strings
    (public_settings : option public_settings_t) :
  Untyped.get_managed_identity (settings_json public_settings)
  = let '(name, value, error_msg) := get_managed_identity public_settings in
    Returns (JString name, JString value, error_msg).
Proof.
  unfold get_managed_identity, managed_identity_setting, settings_json.
  destruct public_settings as [[[[[mi|]]|]]|]; simpl; try done.
  unfold Untyped.get_managed_identity.
  cbn [Untyped.py_in Untyped.py_get mbind result_bind json_get String.eqb
       Ascii.eqb Bool.eqb].
  rewrite !json_get_strings.
  destruct (mi !! "identifier-name") as [n|]; simpl; [|done].
  destruct (mi !! "identifier-value") as [v|]; simpl; [|done].
  destruct (bool_decide (n ∈ valid_identifier_names)); simpl; [|done].
  destruct (String.eqb v ""); simpl; [done|].
  destruct (bool_decide (n ∈ ["object_id"; "client_id"])); simpl; [|done].
  by destruct (Guid.search v).
Qed.
